(** * The Sheffield COVID-19 dashboard ingest pipeline (code/ingest.py)

    A shallow embedding of the fetch / extract / validate / transform
    pipeline and of the heatmap aggregation, with the properties the
    specification states about them.

    Conventions of the embedding:
    - a Python [str] is a [string] whose characters are code points below 256;
    - Python's [None] cell (an element without text) is [None : cell];
    - a raised exception is [Raise e]; the loop bodies are written in the
      error monad below, in the evaluation order of the source;
    - the libraries the script calls (dateutil, html5lib, requests,
      matplotlib) and the file system are parameters of the sections that
      use them: a call of theirs returns or raises;
    - the interpreter is CPython with its default limit of 4300 digits for
      the conversion between int and str, and numpy's [int] is int64. *)

From Stdlib Require Import String Ascii List ZArith Lia Bool.
From Stdlib Require Import Sorted Permutation DecimalString OrderedTypeEx.
From Stdlib Require Import Decimal DecimalPos.
From Stdlib Require DecimalFacts.
Import ListNotations.
Open Scope string_scope.
Open Scope Z_scope.

(** ** Exceptions and the error monad *)

Inductive exn : Type :=
| AssertionError   (* a failed [assert]: the spec's SchemaError *)
| IndexError
| TypeError
| AttributeError
| ValueError       (* int() or dateutil failing: the spec's FormatError *)
| OverflowError    (* a number too large for dateutil, int64 or matplotlib *)
| OSError          (* a file that cannot be opened or written *)
| ConnectionError  (* requests could not complete the request *)
| RuntimeError.

Inductive result (A : Type) : Type :=
| Ok (a : A)
| Raise (e : exn).
Arguments Ok {A} a.
Arguments Raise {A} e.

Definition bind {A B : Type} (m : result A) (k : A -> result B) : result B :=
  match m with
  | Ok a => k a
  | Raise e => Raise e
  end.

Notation "x <- m ;; k" := (bind m (fun x => k))
  (at level 61, m at next level, right associativity).
Notation "m ;;; k" := (bind m (fun _ => k))
  (at level 61, right associativity).

(** [for x in xs: body] where the body yields one output per element. *)
Fixpoint mapM {A B : Type} (f : A -> result B) (xs : list A) : result (list B) :=
  match xs with
  | [] => Ok []
  | x :: xs' => y <- f x ;; ys <- mapM f xs' ;; Ok (y :: ys)
  end.

(** ** Python string primitives *)

Module Py.

(** [s.startswith(p)] *)
Fixpoint startswith (p s : string) : bool :=
  match p, s with
  | EmptyString, _ => true
  | String a p', String b s' => Ascii.eqb a b && startswith p' s'
  | String _ _, EmptyString => false
  end.

(** [sub in s] for two strings: [sub] occurs at some offset of [s]. *)
Fixpoint contains (sub s : string) : bool :=
  startswith sub s ||
  match s with
  | EmptyString => false
  | String _ s' => contains sub s'
  end.

(** [s.endswith(suf)]: the last [len(suf)] characters of [s] are [suf]. *)
Definition endswith (suf s : string) : bool :=
  (String.length suf <=? String.length s)%nat &&
  String.eqb (substring (String.length s - String.length suf)
                        (String.length suf) s) suf.

(** The slice [s[:-1]]: the characters at the indices [0 .. len(s) - 2]. *)
Definition slice_to_minus1 (s : string) : string :=
  substring 0 (String.length s - 1) s.

(** A cell of a table row: [el.text], which is [None] for an element
    without text. *)
Definition cell : Type := option string.

(** [sub in c]: a [TypeError] when [c] is [None]
    (argument of type 'NoneType' is not iterable). *)
Definition contains_cell (sub : string) (c : cell) : result bool :=
  match c with
  | None => Raise TypeError
  | Some s => Ok (contains sub s)
  end.

(** [c.endswith(suf)]: an [AttributeError] when [c] is [None]. *)
Definition endswith_cell (suf : string) (c : cell) : result bool :=
  match c with
  | None => Raise AttributeError
  | Some s => Ok (endswith suf s)
  end.

(** [row[i]]: an [IndexError] past the end of the list. *)
Definition getitem {A : Type} (row : list A) (i : nat) : result A :=
  match nth_error row i with
  | Some x => Ok x
  | None => Raise IndexError
  end.

(** [assert b] *)
Definition assert (b : bool) : result unit :=
  if b then Ok tt else Raise AssertionError.

End Py.

Import Py.

(** ** validate (ingest.py, lines 155-175) *)

(** [cell_value[:-1] if cell_value.endswith('*') else cell_value] *)
Definition strip_cell (cell_value : cell) : result cell :=
  b <- endswith_cell "*" cell_value ;;
  if b then Ok (option_map slice_to_minus1 cell_value) else Ok cell_value.

(** One iteration of the loop of [validate]: [Ok None] is the [continue] of
    a header row, [Ok (Some row')] the row appended to [validated]. *)
Definition validate_row (row : list cell) : result (option (list cell)) :=
  c0 <- getitem row 0 ;;
  is_day <- contains_cell "Day" c0 ;;
  if is_day then
    c1 <- getitem row 1 ;;
    b1 <- contains_cell "New staff" c1 ;;
    assert b1 ;;;
    c2 <- getitem row 2 ;;
    b2 <- contains_cell "New student" c2 ;;
    assert b2 ;;;
    Ok None
  else
    row' <- mapM strip_cell row ;;
    Ok (Some row').

Fixpoint validate (table : list (list cell)) : result (list (list cell)) :=
  match table with
  | [] => Ok []
  | row :: table' =>
      r <- validate_row row ;;
      validated <- validate table' ;;
      Ok (match r with
          | None => validated
          | Some row' => row' :: validated
          end)
  end.

(** ** int(str) (CPython, base 10)

    Leading and trailing whitespace is skipped, one sign is allowed, and the
    digits may be grouped by single underscores.  Among the code points
    below 256 the whitespace is what [Py_ISSPACE] accepts together with
    U+0085 and U+00A0, which CPython maps to a space beforehand.  A literal
    of more than 4300 digits is refused (sys.int_info.default_max_str_digits):
    every digit counts, leading zeros too, and underscores do not. *)

Module PyInt.

Definition is_space (c : ascii) : bool :=
  let n := N_of_ascii c in
  ((9 <=? n) && (n <=? 13) || (n =? 32) || (n =? 133) || (n =? 160))%N.

Definition is_digit (c : ascii) : bool :=
  let n := N_of_ascii c in ((48 <=? n) && (n <=? 57))%N.

Definition digit_value (c : ascii) : Z := Z.of_N (N_of_ascii c) - 48.

Fixpoint lstrip (s : string) : string :=
  match s with
  | String c s' => if is_space c then lstrip s' else s
  | EmptyString => EmptyString
  end.

Fixpoint all_space (s : string) : bool :=
  match s with
  | String c s' => is_space c && all_space s'
  | EmptyString => true
  end.

(** What the scanner saw last. *)
Inductive prev : Type := Start | Digit | Underscore.

Fixpoint scan_digits (acc : Z) (p : prev) (s : string) : option Z :=
  match s with
  | EmptyString =>
      match p with Digit => Some acc | _ => None end
  | String c s' =>
      if is_digit c then scan_digits (10 * acc + digit_value c) Digit s'
      else if Ascii.eqb c "_" then
        match p with Digit => scan_digits acc Underscore s' | _ => None end
      else
        match p with
        | Digit => if all_space s then Some acc else None
        | _ => None
        end
  end.

(** The value of the literal, were there no limit on its length. *)
Definition literal (s : string) : option Z :=
  match lstrip s with
  | String "+" t => scan_digits 0 Start t
  | String "-" t => option_map Z.opp (scan_digits 0 Start t)
  | t => scan_digits 0 Start t
  end.

Definition MAX_STR_DIGITS : Z := 4300.

(** The number of digits in the string. *)
Fixpoint count_digits (s : string) : Z :=
  match s with
  | String c s' => (if is_digit c then 1 else 0) + count_digits s'
  | EmptyString => 0
  end.

(** [int(s)]: [None] is its ValueError. *)
Definition int (s : string) : option Z :=
  match literal s with
  | Some z => if count_digits s <=? MAX_STR_DIGITS then Some z else None
  | None => None
  end.

(** [str(n)] for an integer of at most [MAX_STR_DIGITS] digits, which every
    weekday is and every integer that [int] returns; on a longer integer
    str() raises a ValueError, as int() does on a longer literal. *)
Definition str (n : Z) : string := NilZero.string_of_int (Z.to_int n).

(** "Purely numeric": a non-empty run of the digits 0-9. *)
Fixpoint all_digits (s : string) : bool :=
  match s with
  | String c s' => is_digit c && all_digits s'
  | EmptyString => true
  end.

Definition purely_numeric (s : string) : bool :=
  negb (String.eqb s "") && all_digits s.

End PyInt.

(** ** datetime.date (CPython's datetime.py) *)

Module Datetime.

Record date : Type := mkdate { year : Z; month : Z; day : Z }.

Definition is_leap (y : Z) : bool :=
  (y mod 4 =? 0) && (negb (y mod 100 =? 0) || (y mod 400 =? 0)).

Definition DAYS_IN_MONTH : list Z :=
  [-1; 31; 28; 31; 30; 31; 30; 31; 31; 30; 31; 30; 31].

Definition DAYS_BEFORE_MONTH : list Z :=
  [-1; 0; 31; 59; 90; 120; 151; 181; 212; 243; 273; 304; 334].

Definition days_in_month (y m : Z) : Z :=
  if (m =? 2) && is_leap y then 29 else nth (Z.to_nat m) DAYS_IN_MONTH 0.

Definition days_before_year (y : Z) : Z :=
  let y := y - 1 in y * 365 + y / 4 - y / 100 + y / 400.

Definition days_before_month (y m : Z) : Z :=
  nth (Z.to_nat m) DAYS_BEFORE_MONTH 0
  + (if (m >? 2) && is_leap y then 1 else 0).

Definition ymd2ord (y m d : Z) : Z :=
  days_before_year y + days_before_month y m + d.

Definition toordinal (d : date) : Z := ymd2ord (year d) (month d) (day d).

(** Monday is 0, Sunday is 6. *)
Definition weekday (d : date) : Z := (toordinal d + 6) mod 7.

(** The invariant of every [date] object: MINYEAR <= year <= MAXYEAR and a
    day that exists in the month. *)
Definition valid (d : date) : Prop :=
  1 <= year d <= 9999 /\ 1 <= month d <= 12 /\
  1 <= day d <= days_in_month (year d) (month d).

Definition validb (d : date) : bool :=
  (1 <=? year d) && (year d <=? 9999) && (1 <=? month d) && (month d <=? 12)
  && (1 <=? day d) && (day d <=? days_in_month (year d) (month d)).

Definition digit_char (d : Z) : ascii := ascii_of_N (48 + Z.to_N d).

(** The [w] low decimal digits of [n], most significant first: what
    ["%0wd" % n] prints for [0 <= n < 10^w]. *)
Fixpoint zfill (w : nat) (n : Z) : string :=
  match w with
  | O => EmptyString
  | S w' => String (digit_char (n / 10 ^ Z.of_nat w' mod 10)) (zfill w' n)
  end.

(** [str(d)], that is ["%04d-%02d-%02d" % (year, month, day)]. *)
Definition isoformat (d : date) : string :=
  zfill 4 (year d) ++ "-" ++ zfill 2 (month d) ++ "-" ++ zfill 2 (day d).

(** Chronological order. *)
Definition before (a b : date) : Prop :=
  year a < year b
  \/ (year a = year b /\ month a < month b)
  \/ (year a = year b /\ month a = month b /\ day a < day b).

Definition compare (a b : date) : comparison :=
  match year a ?= year b with
  | Eq => match month a ?= month b with
          | Eq => day a ?= day b
          | c => c
          end
  | c => c
  end.

End Datetime.

Import Datetime.

(** ** sorted() on the rows the transformers build *)

(** An output cell: a string or an int. *)
Inductive value : Type :=
| VStr (s : string)
| VInt (z : Z).

Module PySort.

(** [a == b] *)
Definition value_eq (a b : value) : bool :=
  match a, b with
  | VStr s, VStr t => String.eqb s t
  | VInt x, VInt y => Z.eqb x y
  | _, _ => false
  end.

(** [a < b]: strings by code point, ints by value, and a [TypeError]
    between a string and an int. *)
Definition value_lt (a b : value) : result bool :=
  match a, b with
  | VStr s, VStr t => Ok (String.ltb s t)
  | VInt x, VInt y => Ok (Z.ltb x y)
  | _, _ => Raise TypeError
  end.

(** [a < b] on lists: the first pair of unequal items decides, and a
    proper prefix is smaller. *)
Fixpoint list_lt (a b : list value) : result bool :=
  match a, b with
  | x :: a', y :: b' => if value_eq x y then list_lt a' b' else value_lt x y
  | [], _ :: _ => Ok true
  | _, [] => Ok false
  end.

(** [sorted()] is stable and compares with [<] only.  Stable insertion does
    the same: [x] goes before the first [y] that is not smaller than it. *)
Fixpoint insert (x : list value) (l : list (list value))
  : result (list (list value)) :=
  match l with
  | [] => Ok [x]
  | y :: l' =>
      b <- list_lt y x ;;
      if b then r <- insert x l' ;; Ok (y :: r) else Ok (x :: y :: l')
  end.

Fixpoint sorted (l : list (list value)) : result (list (list value)) :=
  match l with
  | [] => Ok []
  | x :: l' => s <- sorted l' ;; insert x s
  end.

(** [a <= b] as the sort sees it: [b < a] is false. *)
Definition row_le (a b : list value) : Prop := list_lt b a = Ok false.

End PySort.

(** ** transform and heat_transform (ingest.py, lines 93-125) *)

Section Transform.

(** [dateutil.parser.parse(s)] for a string, reduced to the calendar date
    of its result.  It raises its ParserError, which is a ValueError, for a
    string it cannot read, and an OverflowError for a date whose numbers are
    too large. *)
Variable parse : string -> result date.

(** [dateutil.parser.parse(c)] for a cell: a [TypeError] when [c] is
    [None]. *)
Definition parse_cell (c : cell) : result date :=
  match c with
  | None => Raise TypeError
  | Some s => parse s
  end.

(** [int(x)] for a cell. *)
Definition int_cell (x : cell) : result value :=
  match x with
  | None => Raise TypeError
  | Some s => match PyInt.int s with
              | Some z => Ok (VInt z)
              | None => Raise ValueError
              end
  end.

Definition transform_row (row : list cell) : result (list value) :=
  c0 <- getitem row 0 ;;
  d <- parse_cell c0 ;;
  let iso_date := isoformat d in
  ints <- mapM int_cell (skipn 1 row) ;;
  Ok (VStr iso_date :: ints).

Definition transform (rows : list (list cell)) : result (list (list value)) :=
  result <- mapM transform_row rows ;;
  PySort.sorted result.

Definition heat_transform_row (row : list cell) : result (list value) :=
  c0 <- getitem row 0 ;;
  d <- parse_cell c0 ;;
  let week_day := PyInt.str (weekday d) in
  c0' <- getitem row 0 ;;
  d' <- parse_cell c0' ;;
  let iso_date := isoformat d' in
  ints <- mapM int_cell (skipn 1 row) ;;
  Ok (VStr week_day :: VStr iso_date :: ints).

Definition heat_transform (rows : list (list cell))
  : result (list (list value)) :=
  result <- mapM heat_transform_row rows ;;
  PySort.sorted result.

End Transform.

(** ** extract (ingest.py, lines 128-140) *)

(** An ElementTree element: tag, text and child elements. *)
#[warnings="-register-all"]
Inductive element : Type :=
| Element (tag : string) (text : option string) (children : list element).

Definition tag_of (e : element) : string :=
  match e with Element t _ _ => t end.

Definition text_of (e : element) : cell :=
  match e with Element _ t _ => t end.

Definition children_of (e : element) : list element :=
  match e with Element _ _ cs => cs end.

(** The elements below [e], in document order. *)
Fixpoint descendants (e : element) : list element :=
  match e with
  | Element _ _ cs => flat_map (fun c => c :: descendants c) cs
  end.

(** [dom.findall(".//tr")] *)
Definition findall_tr (dom : element) : list element :=
  filter (fun e => String.eqb (tag_of e) "tr") (descendants dom).

Definition extract (dom : element) : list (list cell) :=
  map (fun row => map text_of (children_of row)) (findall_tr dom).

(** ** fetch (ingest.py, lines 144-152) and the request of gov_data.py *)

(** What [requests.get] does: it raises when the request cannot complete,
    and otherwise returns the response whatever its status code. *)
Inductive http_outcome : Type :=
| Unreachable
| Response (status_code : Z) (text : string).

Section Fetch.

(** [html5lib.parse(text, namespaceHTMLElements=False)] *)
Variable html5lib_parse : string -> element.

Definition fetch (net : http_outcome) : result element :=
  match net with
  | Unreachable => Raise ConnectionError
  | Response _ text => Ok (html5lib_parse text)
  end.

(** gov_data.py, lines 56-59: the body is used only below status 400. *)
Definition gov_data_request (net : http_outcome) : result string :=
  match net with
  | Unreachable => Raise ConnectionError
  | Response status_code text =>
      if status_code >=? 400 then Raise RuntimeError else Ok text
  end.

End Fetch.

(** ** The aggregation of create_heatmap (ingest.py, lines 237-248, 267-270)

    numpy holds the columns as int64 and the sums as float64.  The floats
    that occur are sums of integers and so have integer values: such a float
    is written here as the integer it equals.  (Sums of int64 counts stay
    far below the largest float, so no sum is infinite.) *)

Module Heatmap.

Definition INT64_MIN : Z := - 2 ^ 63.
Definition INT64_MAX : Z := 2 ^ 63 - 1.

(** An entry of [np.array(heatdata)] read back with [.astype(int)]: the
    array holds the entry as text or as the object itself, int() reads it,
    and the integer has to fit an int64. *)
Definition astype_int (v : value) : result Z :=
  z <- match v with
       | VInt z => Ok z
       | VStr s => match PyInt.int s with
                   | Some z => Ok z
                   | None => Raise ValueError
                   end
       end ;;
  if (INT64_MIN <=? z) && (z <=? INT64_MAX) then Ok z else Raise OverflowError.

(** [heatarray[:,k].astype(int)] *)
Definition column (k : nat) (heatarray : list (list value)) : result (list Z) :=
  mapM (fun row => v <- getitem row k ;; astype_int v) heatarray.

(** The float64 nearest to the integer [x], halfway cases going to the even
    neighbour: an integer of at most 53 bits is a float, and among the
    larger ones the multiples of [2 ^ (e - 52)] are, where [e] is the
    position of the leading bit. *)
Definition float64 (x : Z) : Z :=
  let a := Z.abs x in
  let e := Z.log2 a in
  if e <? 53 then x
  else
    let ulp := 2 ^ (e - 52) in
    let q := a / ulp in
    let r := a mod ulp in
    let q' := if 2 * r <? ulp then q
              else if ulp <? 2 * r then q + 1
              else if Z.even q then q else q + 1 in
    Z.sgn x * (q' * ulp).

(** Bucket [j] after the loop [ans[x[i]] += weights[i]] of np.bincount, run
    from left to right on float64 weights and sums, starting from [acc]. *)
Fixpoint bucket_sum (acc j : Z) (x weights : list Z) : Z :=
  match x, weights with
  | d :: x', v :: weights' =>
      bucket_sum (if d =? j then float64 (acc + float64 v) else acc)
                 j x' weights'
  | _, _ => acc
  end.

(** [np.bincount(x, weights=weights)]: one bucket per index from 0 to the
    largest entry of [x], and no bucket at all for an empty [x]. *)
Definition bincount (x weights : list Z) : result (list Z) :=
  if existsb (fun d => d <? 0) x then Raise ValueError
  else
    let n := Z.to_nat (fold_right Z.max (-1) x + 1) in
    Ok (map (fun j => bucket_sum 0 (Z.of_nat j) x weights) (seq 0 n)).

(** [np.array(heatdata)] is two-dimensional only for a non-empty list of
    rows of one length; otherwise [heatarray[:,0]] is an [IndexError]. *)
Definition two_dimensional (heatdata : list (list value)) : result unit :=
  match heatdata with
  | [] => Raise IndexError
  | row :: rest =>
      if forallb (fun r => Nat.eqb (List.length r) (List.length row)) rest
      then Ok tt else Raise IndexError
  end.

(** [plotarray], as computed by lines 239-248. *)
Definition plotarray (heatdata : list (list value)) : result (list (list Z)) :=
  two_dimensional heatdata ;;;
  days <- column 0 heatdata ;;
  studentvals <- column 3 heatdata ;;
  staffvals <- column 2 heatdata ;;
  studentsums <- bincount days studentvals ;;
  staffsums <- bincount days staffvals ;;
  Ok [studentsums; staffsums].

Definition casevals : list string := ["Students"; "Staff"].

Definition days : list string :=
  ["Monday"; "Tuesday"; "Wednesday"; "Thursday"; "Friday"; "Saturday";
   "Sunday"].

(** [plotarray[i, j]] *)
Definition getitem2 (a : list (list Z)) (i j : nat) : result Z :=
  row <- getitem a i ;; getitem row j.

(** The aggregation followed by the annotation loop, which reads
    [plotarray[i, j]] for every case row [i] and every day [j]; the result
    is the grid of annotated values. *)
Definition create_heatmap (heatdata : list (list value))
  : result (list (list Z)) :=
  a <- plotarray heatdata ;;
  mapM (fun i => mapM (fun j => getitem2 a i j) (seq 0 (List.length days)))
       (seq 0 (List.length casevals)).

End Heatmap.

(** ** A fragment of dateutil.parser.parse

    The dashboard writes its dates as day, English month name and four-digit
    year separated by single spaces ("11 October 2020").  [parse_dmy] reads
    that form only and declines everything else, which dateutil does not;
    it serves to run the pipeline on concrete rows. *)

Module Dateutil.

Definition MONTHS : list string :=
  ["January"; "February"; "March"; "April"; "May"; "June"; "July";
   "August"; "September"; "October"; "November"; "December"].

Fixpoint month_index (name : string) (names : list string) (i : Z) : option Z :=
  match names with
  | [] => None
  | n :: names' => if String.eqb n name then Some i
                   else month_index name names' (i + 1)
  end.

(** [s.split(" ")] *)
Fixpoint split_space (s : string) : list string :=
  match s with
  | EmptyString => [EmptyString]
  | String c s' =>
      if Ascii.eqb c " " then EmptyString :: split_space s'
      else match split_space s' with
           | w :: ws => String c w :: ws
           | [] => [String c EmptyString]
           end
  end.

Definition number (s : string) : option Z :=
  if PyInt.purely_numeric s then PyInt.int s else None.

Definition dmy (s : string) : option date :=
  match split_space s with
  | [d; m; y] =>
      match number d, month_index m MONTHS 1, number y with
      | Some dd, Some mm, Some yy =>
          let dt := mkdate yy mm dd in
          if Nat.eqb (String.length y) 4 && validb dt then Some dt else None
      | _, _, _ => None
      end
  | _ => None
  end.

Definition parse_dmy (s : string) : result date :=
  match dmy s with
  | Some d => Ok d
  | None => Raise ValueError
  end.

End Dateutil.

(** ** The columns of create_visualisations (ingest.py, lines 178-190) *)

(** The loop that gathers [dates], [staff_values] and [student_values]:
    columns 0, 1 and 2 of every row, in that order. *)
Fixpoint chart_columns (data : list (list value))
  : result (list value * list value * list value) :=
  match data with
  | [] => Ok ([], [], [])
  | row :: data' =>
      d <- getitem row 0 ;;
      a <- getitem row 1 ;;
      b <- getitem row 2 ;;
      rest <- chart_columns data' ;;
      let '(dates, staff_values, student_values) := rest in
      Ok (d :: dates, a :: staff_values, b :: student_values)
  end.

(** ** csv.writer with the default dialect (ingest.py, lines 83-86)

    A field is quoted when it holds the delimiter, the quote character or a
    character of the line terminator; quotes inside are doubled; a record
    that would be empty although the row has a field is written as two
    quotes. *)

Module Csv.

Definition quotechar : ascii := "034"%char.
Definition CR : ascii := "013"%char.
Definition LF : ascii := "010"%char.

Definition special (c : ascii) : bool :=
  Ascii.eqb c "," || Ascii.eqb c quotechar || Ascii.eqb c CR || Ascii.eqb c LF.

Fixpoint needs_quote (s : string) : bool :=
  match s with
  | EmptyString => false
  | String c s' => special c || needs_quote s'
  end.

Fixpoint double_quotes (s : string) : string :=
  match s with
  | EmptyString => EmptyString
  | String c s' =>
      if Ascii.eqb c quotechar then String c (String c (double_quotes s'))
      else String c (double_quotes s')
  end.

(** [str(v)] for a string or an int. *)
Definition text (v : value) : string :=
  match v with
  | VStr s => s
  | VInt z => PyInt.str z
  end.

Definition field (v : value) : string :=
  let s := text v in
  if needs_quote s
  then String quotechar (double_quotes s ++ String quotechar EmptyString)
  else s.

Definition lineterminator : string := String CR (String LF EmptyString).

Definition writerow (row : list value) : string :=
  let rec := String.concat "," (map field row) in
  match row, rec with
  | _ :: _, EmptyString =>
      String quotechar (String quotechar EmptyString) ++ lineterminator
  | _, _ => rec ++ lineterminator
  end.

Definition writerows (rows : list (list value)) : string :=
  String.concat EmptyString (map writerow rows).

(** The file main writes for [--csv]. *)
Definition output (data : list (list value)) : string :=
  writerow [VStr "Date"; VStr "New staff cases"; VStr "New student cases"]
  ++ writerows data.

End Csv.

(** ** json.dumps on a list of rows (ingest.py, line 90)

    The default encoder: items separated by a comma and a space, strings
    between quotes with the quote, the backslash and everything outside the
    printable ASCII characters escaped. *)

Module Json.

Definition quote : ascii := "034"%char.
Definition backslash : ascii := "092"%char.

Definition hex_digit (n : N) : ascii :=
  if (n <? 10)%N then ascii_of_N (48 + n) else ascii_of_N (87 + n).

Definition escape (c : ascii) : string :=
  let n := N_of_ascii c in
  if (n =? 34)%N then String backslash (String quote EmptyString)
  else if (n =? 92)%N then String backslash (String backslash EmptyString)
  else if (n =? 10)%N then String backslash "n"
  else if (n =? 13)%N then String backslash "r"
  else if (n =? 9)%N then String backslash "t"
  else if (n =? 8)%N then String backslash "b"
  else if (n =? 12)%N then String backslash "f"
  else if ((32 <=? n) && (n <=? 126))%N then String c EmptyString
  else String backslash
         (String "u" (String "0" (String "0"
            (String (hex_digit (n / 16)) (String (hex_digit (n mod 16))
               EmptyString))))).

Fixpoint escape_string (s : string) : string :=
  match s with
  | EmptyString => EmptyString
  | String c s' => escape c ++ escape_string s'
  end.

Definition encode_value (v : value) : string :=
  match v with
  | VStr s => String quote (escape_string s ++ String quote EmptyString)
  | VInt z => PyInt.str z
  end.

Definition encode_row (row : list value) : string :=
  "[" ++ String.concat ", " (map encode_value row) ++ "]".

Definition dumps (data : list (list value)) : string :=
  "[" ++ String.concat ", " (map encode_row data) ++ "]".

End Json.

(** ** main (ingest.py, lines 48-90)

    What a run does to the outside is kept as the list of its events, in
    order; an exception ends the run and keeps the events before it. *)

Inductive event : Type :=
| Print (row : list value)
| SaveFig (filename : string)
| WriteFile (file content : string).

(** What a run asks of matplotlib and of the file system:
    - [AxesBar]: lines 193-219, the bars of the chart and their labels;
    - [Imshow]: lines 254-264, the grid of the heatmap and its ticks;
    - [AxText]: line 269, one annotation of the grid;
    - [Savefig]: lines 222 and 272-275, the layout and the image file;
    - [OpenWrite]: lines 83-86 and 89-90, the data file opened for writing
      and written. *)
Inductive call : Type :=
| AxesBar (dates staff_values student_values : list value)
| Imshow (plotarray : list (list Z))
| AxText (j i : nat) (v : Z)
| Savefig (filename : string)
| OpenWrite (file content : string).

Definition io (A : Type) : Type := (list event * result A)%type.

Definition io_ret {A : Type} (a : A) : io A := ([], Ok a).

Definition io_bind {A B : Type} (m : io A) (k : A -> io B) : io B :=
  match m with
  | (l, Ok a) => let (l', r) := k a in ((l ++ l')%list, r)
  | (l, Raise e) => (l, Raise e)
  end.

Notation "x <~ m ;; k" := (io_bind m (fun x => k))
  (at level 61, m at next level, right associativity).

Definition lift {A : Type} (r : result A) : io A := ([], r).

Definition emit (e : event) : io unit := ([e], Ok tt).

(** [for row in data: print(row)] *)
Fixpoint print_rows (data : list (list value)) : io unit :=
  match data with
  | [] => io_ret tt
  | row :: data' => _ <~ emit (Print row) ;; print_rows data'
  end.

(** The two optional arguments of the command line. *)
Record args : Type := mkargs { csv_file : option string; json_file : option string }.

Section Main.

Variable html5lib_parse : string -> element.
Variable parse : string -> result date.

(** matplotlib and the file system: a call returns or raises, for instance
    an OverflowError for a bar too high for a float, or an OSError for a
    path that cannot be written. *)
Variable env : call -> result unit.

(** [date.today()], taken as the same day for both images. *)
Variable today : date.

(** [plt.savefig(filename, dpi=600)] *)
Definition savefig (filename : string) : io unit :=
  _ <~ lift (env (Savefig filename)) ;; emit (SaveFig filename).

(** [with open(file, "w") as f:] and the writing of [content]. *)
Definition write_file (file content : string) : io unit :=
  _ <~ lift (env (OpenWrite file content)) ;; emit (WriteFile file content).

Definition create_visualisations (data : list (list value)) : io unit :=
  columns <~ lift (chart_columns data) ;;
  let '(dates, staff_values, student_values) := columns in
  _ <~ lift (env (AxesBar dates staff_values student_values)) ;;
  savefig (isoformat today ++ "-staff-student-covid-cases.png").

(** The annotation loop of lines 267-270: [ax.text(j, i, plotarray[i, j])]
    for every case row [i] and every day [j]. *)
Definition annotate (plotarray : list (list Z)) : result (list (list unit)) :=
  mapM (fun i =>
          mapM (fun j => v <- Heatmap.getitem2 plotarray i j ;; env (AxText j i v))
               (seq 0 (List.length Heatmap.days)))
       (seq 0 (List.length Heatmap.casevals)).

Definition create_heatmap (heatdata : list (list value)) : io unit :=
  plotarray <~ lift (Heatmap.plotarray heatdata) ;;
  _ <~ lift (env (Imshow plotarray)) ;;
  _ <~ lift (annotate plotarray) ;;
  savefig (isoformat today ++ "-covid-cases-by-weekday.png").

Definition main (a : args) (net : http_outcome) : io unit :=
  dom <~ lift (fetch html5lib_parse net) ;;
  let table := extract dom in
  validated <~ lift (validate table) ;;
  data <~ lift (transform parse validated) ;;
  _ <~ print_rows data ;;
  heatdata <~ lift (heat_transform parse validated) ;;
  _ <~ create_visualisations data ;;
  _ <~ create_heatmap heatdata ;;
  match csv_file a with
  | Some file => write_file file (Csv.output data)
  | None =>
      match json_file a with
      | Some file => write_file file (Json.dumps data)
      | None => io_ret tt
      end
  end.

End Main.

(** ** Vocabulary of the specification *)

(** [sub in c] for a cell that is known to be a string. *)
Definition cell_contains (sub : string) (c : cell) : bool :=
  match c with
  | Some s => contains sub s
  | None => false
  end.

(** The first cell of the row contains "Day". *)
Definition day_row (row : list cell) : bool :=
  match row with
  | c0 :: _ => cell_contains "Day" c0
  | [] => false
  end.

(** A header row: "Day" in the first cell, "New staff" in the second and
    "New student" in the third. *)
Definition header_row (row : list cell) : bool :=
  match row with
  | c0 :: c1 :: c2 :: _ =>
      cell_contains "Day" c0 && cell_contains "New staff" c1
      && cell_contains "New student" c2
  | _ => false
  end.

(** A row of strings: no cell is [None]. *)
Definition text_row (row : list cell) : bool :=
  forallb (fun c => match c with Some _ => true | None => false end) row.

(** A non-empty row of strings. *)
Definition filled_row (row : list cell) : bool :=
  match row with
  | [] => false
  | _ :: _ => text_row row
  end.

(** A data row: a non-empty row of strings whose first cell lacks "Day". *)
Definition data_row (row : list cell) : bool :=
  match row with
  | [] => false
  | _ :: _ => text_row row && negb (day_row row)
  end.

Definition strip_string (s : string) : string :=
  if endswith "*" s then slice_to_minus1 s else s.

Definition strip_row (row : list cell) : list cell :=
  map (option_map strip_string) row.

(** An output row of [k] leading strings followed by ints only. *)
Fixpoint shaped (k : nat) (r : list value) : bool :=
  match k, r with
  | O, _ => forallb (fun v => match v with VInt _ => true | VStr _ => false end) r
  | S k', VStr _ :: r' => shaped k' r'
  | S _, _ => false
  end.

(** [c'] is the cell [c] without one trailing asterisk, or [c] itself when
    [c] does not end in an asterisk. *)
Definition stripped (c c' : cell) : Prop :=
  exists s s', c = Some s /\ c' = Some s'
               /\ (s = s' ++ "*" \/ (forall t, s <> t ++ "*") /\ s' = s).

(** The first column of an output row. *)
Definition first_text (r : list value) : string :=
  match r with
  | VStr s :: _ => s
  | _ => EmptyString
  end.

(** The second column of an output row. *)
Definition second_text (r : list value) : string :=
  match r with
  | _ :: VStr s :: _ => s
  | _ => EmptyString
  end.

(** The dates [dateutil] reads in the first cells of the rows. *)
Definition row_date (parse : string -> result date) (row : list cell)
  : result date :=
  c0 <- getitem row 0 ;; parse_cell parse c0.

(** The value of a run of decimal digits. *)
Fixpoint decimal_value (acc : Z) (s : string) : Z :=
  match s with
  | EmptyString => acc
  | String c s' => decimal_value (10 * acc + PyInt.digit_value c) s'
  end.

(** The shape YYYY-MM-DD. *)
Definition iso_shape (s : string) : bool :=
  match s with
  | String y1 (String y2 (String y3 (String y4 (String h1
      (String m1 (String m2 (String h2 (String d1 (String d2 EmptyString)))))))))
    => PyInt.is_digit y1 && PyInt.is_digit y2 && PyInt.is_digit y3
       && PyInt.is_digit y4 && Ascii.eqb h1 "-"
       && PyInt.is_digit m1 && PyInt.is_digit m2 && Ascii.eqb h2 "-"
       && PyInt.is_digit d1 && PyInt.is_digit d2
  | _ => false
  end.

(** The year, month and day written in a string of the shape YYYY-MM-DD,
    each read with [int]. *)
Definition iso_fields (s : string) : option (Z * Z * Z) :=
  match PyInt.int (substring 0 4 s), PyInt.int (substring 5 2 s),
        PyInt.int (substring 8 2 s) with
  | Some y, Some m, Some d => Some (y, m, d)
  | _, _, _ => None
  end.

(** A string that [int] rejects. *)
Definition int_rejects (c : cell) : bool :=
  match c with
  | Some t => match PyInt.int t with
              | None => true
              | Some _ => false
              end
  | None => false
  end.

(** A date cell that [dateutil] rejects with its ParserError, or, after a
    date cell that it reads, a value cell that [int] rejects. *)
Definition bad_cell_row (parse : string -> result date) (row : list cell)
  : bool :=
  match row with
  | Some s :: rest =>
      match parse s with
      | Raise ValueError => true
      | Raise _ => false
      | Ok _ => existsb int_rejects rest
      end
  | _ => false
  end.

(** On the date cells of the rows, [dateutil] raises nothing but its
    ParserError. *)
Definition parser_errors_only (parse : string -> result date)
           (rows : list (list cell)) : Prop :=
  forall row s rest e,
    In row rows -> row = Some s :: rest -> parse s = Raise e -> e = ValueError.

(** The whitespace int() skips and the digits it reads, among the code
    points below 256. *)
Definition WHITESPACE : list ascii :=
  ["009"; "010"; "011"; "012"; "013"; " "; "133"; "160"]%char.

Definition DIGITS : list ascii :=
  ["0"; "1"; "2"; "3"; "4"; "5"; "6"; "7"; "8"; "9"]%char.

Definition made_of (alphabet : list ascii) (s : string) : Prop :=
  Forall (fun c => In c alphabet) (list_ascii_of_string s).

(** A non-empty run of digits. *)
Definition digit_group (g : string) : Prop :=
  g <> EmptyString /\ made_of DIGITS g.

(** The integer literals of Python in base 10: whitespace, an optional
    sign, groups of digits separated by single underscores, whitespace. *)
Definition literal_text (ws1 : string) (negative : option bool)
           (groups : list string) (ws2 : string) : string :=
  ws1 ++ match negative with
         | None => EmptyString
         | Some false => "+"
         | Some true => "-"
         end
      ++ String.concat "_" groups ++ ws2.

(** The groups that follow the first one, each after its underscore. *)
Fixpoint more_groups (groups : list string) : string :=
  match groups with
  | [] => EmptyString
  | g :: groups' => "_" ++ g ++ more_groups groups'
  end.

Definition literal_value (negative : option bool) (groups : list string) : Z :=
  let n := decimal_value 0 (String.concat EmptyString groups) in
  match negative with
  | Some true => - n
  | _ => n
  end.

(** The number of digits of the literal. *)
Definition literal_digits (groups : list string) : Z :=
  Z.of_nat (String.length (String.concat EmptyString groups)).

(** A cell after the first that is not purely numeric. *)
Definition non_numeric_value_cell (row : list cell) : bool :=
  existsb (fun c => match c with
                    | Some t => negb (PyInt.purely_numeric t)
                    | None => true
                    end) (skipn 1 row).

(** No cell of the row ends in an asterisk. *)
Definition star_free_row (row : list cell) : bool :=
  forallb (fun c => match c with
                    | Some s => negb (endswith "*" s)
                    | None => true
                    end) row.

(** The characters an int() literal is made of. *)
Definition int_char (c : ascii) : bool :=
  PyInt.is_space c || PyInt.is_digit c
  || Ascii.eqb c "_" || Ascii.eqb c "+" || Ascii.eqb c "-".

(** A row as heat_transform builds it from a date and two counts: weekday
    text, ISO date, staff count, student count. *)
Definition heat_record (r : list value) : Prop :=
  exists w iso staff student,
    r = [VStr (PyInt.str w); VStr iso; VInt staff; VInt student]
    /\ 0 <= w <= 6.

Definition record_weekday (r : list value) : Z :=
  match r with
  | VStr s :: _ => match PyInt.int s with Some w => w | None => 0 end
  | _ => 0
  end.

Definition record_staff (r : list value) : Z :=
  match r with
  | _ :: _ :: VInt a :: _ => a
  | _ => 0
  end.

Definition record_student (r : list value) : Z :=
  match r with
  | _ :: _ :: _ :: VInt b :: _ => b
  | _ => 0
  end.

Definition zsum (l : list Z) : Z := fold_right Z.add 0 l.

(** The counts are small enough for float64 to add them without rounding,
    in any order: their absolute values add up to less than 2^53. *)
Definition exact_counts (heatdata : list (list value)) : Prop :=
  zsum (map (fun r => Z.abs (record_staff r)) heatdata) < 2 ^ 53
  /\ zsum (map (fun r => Z.abs (record_student r)) heatdata) < 2 ^ 53.

(** An integer that does not fit an int64. *)
Definition outside_int64 (z : Z) : bool := (z <? - 2 ^ 63) || (2 ^ 63 <=? z).

(** An integer that str() writes: it has at most 4300 digits. *)
Definition printable_int (v : value) : Prop :=
  match v with
  | VInt z => Z.abs z < 10 ^ 4300
  | VStr _ => True
  end.

(** The total of the count [f] over the records of weekday [j]. *)
Definition weekday_total (f : list value -> Z) (j : Z)
           (heatdata : list (list value)) : Z :=
  zsum (map f (filter (fun r => record_weekday r =? j) heatdata)).

(** The characters of a string. *)
Definition chars (s : string) : list ascii := list_ascii_of_string s.

(** A printable ASCII character, from the space to the tilde. *)
Definition printable (c : ascii) : bool :=
  let n := N_of_ascii c in ((32 <=? n) && (n <=? 126))%N.

(** [e] lies below [root]: it is a child of [root] or lies below one. *)
Inductive below (e : element) : element -> Prop :=
| below_child (root : element) :
    In e (children_of root) -> below e root
| below_deeper (c root : element) :
    In c (children_of root) -> below e c -> below e root.

(** The row extract makes of a [tr] element: the texts of its children. *)
Definition row_of (tr : element) : list cell := map text_of (children_of tr).

Definition is_tr (e : element) : bool := String.eqb (tag_of e) "tr".

(** The seven weekday indices. *)
Definition WEEK : list Z := [0; 1; 2; 3; 4; 5; 6].

(** The 2 x 7 grid of the heatmap: student totals, then staff totals. *)
Definition weekday_grid (heatdata : list (list value)) : list (list Z) :=
  [ map (fun j => weekday_total record_student j heatdata) WEEK;
    map (fun j => weekday_total record_staff j heatdata) WEEK ].

(** Some record falls on a Sunday. *)
Definition has_sunday (heatdata : list (list value)) : bool :=
  existsb (fun r => record_weekday r =? 6) heatdata.

(** The data file a run writes once both images are saved: the CSV file
    when [--csv] is given, else the JSON file when [--json] is given. *)
Definition written (a : args) (data : list (list value)) : list event :=
  match csv_file a with
  | Some file => [WriteFile file (Csv.output data)]
  | None =>
      match json_file a with
      | Some file => [WriteFile file (Json.dumps data)]
      | None => []
      end
  end.

(** The names of the two images. *)
Definition bar_chart_name (today : date) : string :=
  isoformat today ++ "-staff-student-covid-cases.png".

Definition heatmap_name (today : date) : string :=
  isoformat today ++ "-covid-cases-by-weekday.png".

(** The date of the row falls on a Sunday. *)
Definition sunday_row (parse : string -> result date) (row : list cell) : bool :=
  match row_date parse row with
  | Ok d => weekday d =? 6
  | Raise _ => false
  end.

(** A record written without any quoting: its fields between commas. *)
Definition csv_line (r : list value) : string :=
  String.concat "," (map Csv.text r) ++ Csv.lineterminator.

(** A value written without any escape. *)
Definition json_plain (v : value) : string :=
  match v with
  | VStr s => String Json.quote (s ++ String Json.quote EmptyString)
  | VInt z => PyInt.str z
  end.

(** A digit or the minus sign. *)
Definition plain_char (c : ascii) : bool := PyInt.is_digit c || Ascii.eqb c "-".

(** Every record has a date and at least two counts. *)
Definition three_columns (data : list (list value)) : bool :=
  forallb (fun r => (3 <=? List.length r)%nat) data.

(** * Properties *)

(** ** Running the pipeline on the rows of the specification *)

Example validate_spec_example :
  validate [ [Some "Day"; Some "New staff cases"; Some "New student cases"];
             [Some "11 October 2020*"; Some "5*"; Some "12"] ]
  = Ok [ [Some "11 October 2020"; Some "5"; Some "12"] ].
Proof. reflexivity. Qed.

Example validate_bad_header :
  validate [ [Some "Day"; Some "Foo"; Some "Bar"] ] = Raise AssertionError.
Proof. reflexivity. Qed.

Example parse_dmy_example :
  Dateutil.parse_dmy "11 October 2020" = Ok (mkdate 2020 10 11).
Proof. reflexivity. Qed.

Example weekday_example : weekday (mkdate 2020 10 11) = 6.
Proof. reflexivity. Qed.

Example transform_spec_example :
  transform Dateutil.parse_dmy
    [ [Some "12 October 2020"; Some "7"; Some "3"];
      [Some "11 October 2020"; Some "5"; Some "12"] ]
  = Ok [ [VStr "2020-10-11"; VInt 5; VInt 12];
         [VStr "2020-10-12"; VInt 7; VInt 3] ].
Proof. reflexivity. Qed.

Example heat_transform_example :
  heat_transform Dateutil.parse_dmy
    [ [Some "11 October 2020"; Some "5"; Some "12"];
      [Some "12 October 2020"; Some "7"; Some "3"] ]
  = Ok [ [VStr "0"; VStr "2020-10-12"; VInt 7; VInt 3];
         [VStr "6"; VStr "2020-10-11"; VInt 5; VInt 12] ].
Proof. reflexivity. Qed.

Example int_examples :
  PyInt.int "12" = Some 12 /\ PyInt.int "-5" = Some (-5) /\
  PyInt.int " 5 " = Some 5 /\ PyInt.int "1_000" = Some 1000 /\
  PyInt.int "" = None /\ PyInt.int "5*" = None /\ PyInt.int "1__0" = None /\
  PyInt.int "+" = None /\ PyInt.int "1 2" = None /\ PyInt.int "- 5" = None.
Proof. repeat split; reflexivity. Qed.

Example create_heatmap_full_week :
  Heatmap.create_heatmap
    [ [VStr "0"; VStr "2020-10-12"; VInt 7; VInt 3];
      [VStr "0"; VStr "2020-10-19"; VInt 1; VInt 2];
      [VStr "6"; VStr "2020-10-11"; VInt 5; VInt 12] ]
  = Ok [ [5; 0; 0; 0; 0; 0; 12]; [8; 0; 0; 0; 0; 0; 5] ].
Proof. reflexivity. Qed.

(** ** The error monad *)

Lemma bind_Ok_inv {A B : Type} (m : result A) (k : A -> result B) (b : B) :
  bind m k = Ok b -> exists a, m = Ok a /\ k a = Ok b.
Proof. destruct m as [a|e]; simpl; intros H; [eauto | discriminate]. Qed.

Lemma mapM_Ok_map {A B : Type} (f : A -> result B) (g : A -> B) (xs : list A) :
  Forall (fun x => f x = Ok (g x)) xs -> mapM f xs = Ok (map g xs).
Proof.
  induction 1 as [|x xs Hx _ IH]; simpl; [reflexivity|].
  now rewrite Hx, IH.
Qed.

Lemma mapM_Ok_Forall2 {A B : Type} (f : A -> result B) (xs : list A) (ys : list B) :
  mapM f xs = Ok ys <-> Forall2 (fun x y => f x = Ok y) xs ys.
Proof.
  revert ys; induction xs as [|x xs IH]; intros ys; simpl.
  - split; intros H; [injection H as <-; constructor | inversion H; reflexivity].
  - split.
    + intros H. apply bind_Ok_inv in H as (y & Hy & H).
      apply bind_Ok_inv in H as (ys' & Hys & H). injection H as <-.
      constructor; [assumption | now apply IH].
    + intros H. inversion H as [|? y ? ys' Hy Hys]; subst.
      apply IH in Hys. now rewrite Hy, Hys.
Qed.


(** ** Strings: slices, suffixes and substrings *)

Lemma substring_0_app (t u : string) :
  substring 0 (String.length t) (t ++ u) = t.
Proof.
  induction t as [|c t IH]; simpl.
  - destruct u; reflexivity.
  - now rewrite IH.
Qed.

Lemma length_snoc (t : string) (c : ascii) :
  String.length (t ++ String c EmptyString) = S (String.length t).
Proof. induction t as [|a t IH]; simpl; [reflexivity | now rewrite IH]. Qed.

Lemma slice_to_minus1_snoc (t : string) (c : ascii) :
  slice_to_minus1 (t ++ String c EmptyString) = t.
Proof.
  unfold slice_to_minus1. rewrite length_snoc.
  replace (S (String.length t) - 1)%nat with (String.length t) by lia.
  apply substring_0_app.
Qed.

Lemma substring_last_snoc (t : string) (c : ascii) :
  substring (String.length t) 1 (t ++ String c EmptyString) = String c EmptyString.
Proof. induction t as [|a t IH]; simpl; [reflexivity | exact IH]. Qed.

Lemma string_snoc_cases (s : string) :
  s = EmptyString \/ exists t c, s = t ++ String c EmptyString.
Proof.
  induction s as [|a s IH]; [now left | right].
  destruct IH as [-> | (t & c & ->)].
  - now exists EmptyString, a.
  - now exists (String a t), c.
Qed.

Lemma endswith_snoc (t : string) (c : ascii) :
  endswith "*" (t ++ String c EmptyString) = Ascii.eqb c "*".
Proof.
  unfold endswith. rewrite length_snoc. simpl String.length.
  replace (S (String.length t) - 1)%nat with (String.length t) by lia.
  rewrite substring_last_snoc. simpl.
  destruct (Ascii.eqb c "*"); reflexivity.
Qed.

Lemma endswith_star_iff (s : string) :
  endswith "*" s = true <-> exists t, s = t ++ "*".
Proof.
  split.
  - destruct (string_snoc_cases s) as [-> | (t & c & ->)]; [discriminate|].
    rewrite endswith_snoc. intros H; apply Ascii.eqb_eq in H; subst. now exists t.
  - intros (t & ->). now rewrite endswith_snoc.
Qed.

Lemma startswith_app (p t u : string) :
  startswith p t = true -> startswith p (t ++ u) = true.
Proof.
  revert t; induction p as [|a p IH]; intros t; [reflexivity|].
  destruct t as [|b t]; simpl; [discriminate|].
  intros H; apply andb_true_iff in H as [-> H]. simpl. now apply IH.
Qed.

Lemma contains_app (p t u : string) :
  contains p t = true -> contains p (t ++ u) = true.
Proof.
  induction t as [|b t IH]; simpl.
  - rewrite orb_false_r. destruct p; [|discriminate].
    intros _. destruct u; reflexivity.
  - intros H; apply orb_true_iff in H as [H|H]; apply orb_true_iff.
    + left. now apply (startswith_app p (String b t) u).
    + right. now apply IH.
Qed.

Lemma startswith_iff (p s : string) :
  startswith p s = true <-> exists post, s = p ++ post.
Proof.
  revert s; induction p as [|a p IH]; intros s; simpl.
  - split; [intros _; now exists s | reflexivity].
  - destruct s as [|b s].
    + split; [discriminate | intros (post & H); discriminate].
    + rewrite andb_true_iff, Ascii.eqb_eq, IH. split.
      * intros [-> (post & ->)]. now exists post.
      * intros (post & H). injection H as -> ->. split; [reflexivity | now exists post].
Qed.

Lemma contains_iff (sub s : string) :
  contains sub s = true <-> exists pre post, s = pre ++ sub ++ post.
Proof.
  induction s as [|b s IH]; simpl; rewrite orb_true_iff.
  - split.
    + intros [H|H]; [|discriminate]. apply startswith_iff in H as (post & H).
      now exists EmptyString, post.
    + intros ([|c pre] & post & H); [|discriminate]. left.
      apply startswith_iff. now exists post.
  - rewrite IH. split.
    + intros [H|(pre & post & ->)].
      * apply startswith_iff in H as (post & H). now exists EmptyString, post.
      * now exists (String b pre), post.
    + intros ([|c pre] & post & H).
      * left. apply startswith_iff. now exists post.
      * right. injection H as -> ->. now exists pre, post.
Qed.

Lemma strip_string_spec (s : string) :
  if endswith "*" s then s = strip_string s ++ "*" else strip_string s = s.
Proof.
  unfold strip_string. destruct (endswith "*" s) eqn:E; [|reflexivity].
  apply endswith_star_iff in E as (t & ->). now rewrite slice_to_minus1_snoc.
Qed.

Lemma contains_strip_string (p s : string) :
  contains p (strip_string s) = true -> contains p s = true.
Proof.
  pose proof (strip_string_spec s) as H.
  destruct (endswith "*" s); [|now rewrite H].
  intros Hc. rewrite H. now apply contains_app.
Qed.

(** ** validate, row by row *)

Lemma strip_cell_Some (s : string) : strip_cell (Some s) = Ok (Some (strip_string s)).
Proof. unfold strip_cell, strip_string; simpl. now destruct (endswith "*" s). Qed.

Lemma mapM_strip_text_row (row : list cell) :
  text_row row = true -> mapM strip_cell row = Ok (strip_row row).
Proof.
  intros H. apply mapM_Ok_map. unfold text_row in H.
  rewrite forallb_forall in H. apply Forall_forall. intros [s|] Hin.
  - apply strip_cell_Some.
  - now apply H in Hin.
Qed.

Lemma mapM_strip_None (row : list cell) :
  In None row -> mapM strip_cell row = Raise AttributeError.
Proof.
  induction row as [|[s|] row IH]; simpl; [contradiction | | reflexivity].
  intros [H|H]; [discriminate|].
  rewrite strip_cell_Some; simpl. now rewrite IH.
Qed.

Lemma mapM_strip_Ok_inv (row row' : list cell) :
  mapM strip_cell row = Ok row' -> text_row row = true /\ row' = strip_row row.
Proof.
  intros H. assert (Ht : text_row row = true).
  { unfold text_row. apply forallb_forall. intros [s|] Hin; [reflexivity|].
    apply mapM_strip_None in Hin. congruence. }
  split; [assumption|]. rewrite (mapM_strip_text_row _ Ht) in H. congruence.
Qed.

Lemma data_row_not_header (row : list cell) :
  data_row row = true -> header_row row = false.
Proof.
  destruct row as [|c0 [|c1 [|c2 row]]]; try reflexivity.
  unfold data_row, day_row, header_row.
  intros H; apply andb_true_iff in H as [_ H].
  apply negb_true_iff in H. now rewrite H.
Qed.

Lemma validate_row_header (row : list cell) :
  header_row row = true -> validate_row row = Ok None.
Proof.
  destruct row as [|c0 [|c1 [|c2 row]]]; try discriminate.
  unfold header_row.
  intros H; apply andb_true_iff in H as [H Hc]; apply andb_true_iff in H as [Ha Hb].
  destruct c0 as [a|], c1 as [b|], c2 as [c|]; try discriminate.
  simpl in Ha, Hb, Hc. unfold validate_row; simpl.
  now rewrite Ha, Hb, Hc.
Qed.

Lemma validate_row_data (row : list cell) :
  data_row row = true -> validate_row row = Ok (Some (strip_row row)).
Proof.
  destruct row as [|[a|] row]; try discriminate.
  unfold data_row, day_row, validate_row. cbn [getitem nth_error bind contains_cell cell_contains].
  intros H; apply andb_true_iff in H as [Ht H]. apply negb_true_iff in H.
  rewrite H. now rewrite (mapM_strip_text_row _ Ht).
Qed.

Lemma validate_row_Ok_inv (row : list cell) (r : option (list cell)) :
  validate_row row = Ok r ->
  match r with
  | None => header_row row = true
  | Some row' => data_row row = true /\ row' = strip_row row
  end.
Proof.
  destruct row as [|[a|] row]; try discriminate.
  unfold validate_row. cbn [getitem nth_error bind contains_cell].
  destruct (contains "Day" a) eqn:Ha.
  - destruct row as [|[b|] [|[c|] row]]; try discriminate;
      cbn [getitem nth_error bind contains_cell];
      destruct (contains "New staff" b) eqn:Hb; try discriminate.
    cbn [assert bind getitem nth_error contains_cell].
    destruct (contains "New student" c) eqn:Hc; try discriminate.
    cbn [assert bind]. intros H; injection H as <-.
    unfold header_row; simpl. now rewrite Ha, Hb, Hc.
  - intros H; apply bind_Ok_inv in H as (row' & Hm & H). injection H as <-.
    apply mapM_strip_Ok_inv in Hm as [Ht ->]. split; [|reflexivity].
    unfold data_row, day_row; simpl cell_contains. rewrite Ha, Ht. reflexivity.
Qed.

Lemma day_row_strip_row (row : list cell) :
  day_row row = false -> day_row (strip_row row) = false.
Proof.
  destruct row as [|[a|] row]; simpl; try reflexivity.
  intros H. destruct (contains "Day" (strip_string a)) eqn:E; [|reflexivity].
  apply contains_strip_string in E. congruence.
Qed.

(** ** validate on a table *)

Lemma validate_app (pre l : list (list cell)) (v : list (list cell)) :
  validate pre = Ok v ->
  validate (pre ++ l) = (w <- validate l ;; Ok (v ++ w)%list).
Proof.
  revert v; induction pre as [|row pre IH]; intros v; simpl.
  - intros H; injection H as <-. now destruct (validate l).
  - destruct (validate_row row) as [r|e]; simpl; [|discriminate].
    destruct (validate pre) as [v'|e]; simpl; [|discriminate].
    intros H; injection H as <-. rewrite (IH v' eq_refl).
    destruct (validate l) as [w|e]; simpl; [|reflexivity]. now destruct r.
Qed.

Lemma validate_raise_at (pre post : list (list cell)) (row : list cell)
      (v : list (list cell)) (e : exn) :
  validate pre = Ok v -> validate_row row = Raise e ->
  validate (pre ++ row :: post) = Raise e.
Proof.
  intros Hpre Hrow. rewrite (validate_app _ _ _ Hpre). simpl. now rewrite Hrow.
Qed.

Lemma validate_Ok_iff (table out : list (list cell)) :
  validate table = Ok out <->
  Forall (fun row => header_row row = true \/ data_row row = true) table
  /\ out = map strip_row (filter (fun row => negb (header_row row)) table).
Proof.
  revert out; induction table as [|row table IH]; intros out; simpl.
  - split; [intros H; injection H as <-; now split | intros [_ ->]; reflexivity].
  - split.
    + intros H. apply bind_Ok_inv in H as (r & Hr & H).
      apply bind_Ok_inv in H as (v & Hv & H). injection H as <-.
      apply IH in Hv as [Hall ->]. apply validate_row_Ok_inv in Hr.
      destruct r as [row'|].
      * destruct Hr as [Hd ->]. rewrite (data_row_not_header _ Hd). simpl.
        split; [constructor; auto | reflexivity].
      * rewrite Hr. simpl. split; [constructor; auto | reflexivity].
    + intros [Hall ->]. inversion Hall as [|? ? Hrow Hall']; subst.
      rewrite (proj2 (IH _) (conj Hall' eq_refl)).
      destruct Hrow as [Hh|Hd].
      * rewrite (validate_row_header _ Hh), Hh. reflexivity.
      * rewrite (validate_row_data _ Hd), (data_row_not_header _ Hd). reflexivity.
Qed.

Lemma validate_output_rows (table out : list (list cell)) :
  validate table = Ok out ->
  Forall (fun row => data_row row = true) out.
Proof.
  intros H. apply validate_Ok_iff in H as [Hall ->].
  induction Hall as [|row table Hrow _ IH]; simpl; [constructor|].
  destruct Hrow as [Hh|Hd].
  - rewrite Hh. exact IH.
  - rewrite (data_row_not_header _ Hd). simpl. constructor; [|exact IH].
    destruct row as [|c0 row]; [discriminate|].
    unfold data_row in *. apply andb_true_iff in Hd as [Ht Hn].
    apply negb_true_iff in Hn. apply andb_true_iff. split.
    + unfold text_row in *. rewrite forallb_forall in Ht.
      apply forallb_forall. intros c Hin. unfold strip_row in Hin.
      apply in_map_iff in Hin as ([s|] & <- & Hin); [reflexivity|].
      now apply Ht in Hin.
    + apply negb_true_iff. now apply (day_row_strip_row (c0 :: row)).
Qed.

(** ** int() on runs of digits *)

Lemma is_digit_cases (c : ascii) :
  PyInt.is_digit c = true ->
  In c ["0"; "1"; "2"; "3"; "4"; "5"; "6"; "7"; "8"; "9"]%char.
Proof.
  destruct c as [[] [] [] [] [] [] [] []]; intros H;
    try discriminate H; simpl; tauto.
Qed.

Lemma literal_digit_head (c : ascii) (s : string) :
  PyInt.is_digit c = true ->
  PyInt.literal (String c s) = PyInt.scan_digits 0 PyInt.Start (String c s).
Proof.
  intros H. apply is_digit_cases in H. simpl in H.
  repeat (destruct H as [<-|H]; [reflexivity|]). contradiction.
Qed.

Lemma int_of_literal (s : string) (z : Z) :
  PyInt.literal s = Some z -> PyInt.count_digits s <= PyInt.MAX_STR_DIGITS ->
  PyInt.int s = Some z.
Proof.
  unfold PyInt.int. intros -> H. apply Z.leb_le in H. now rewrite H.
Qed.

Lemma int_Some_inv (s : string) (z : Z) :
  PyInt.int s = Some z ->
  PyInt.literal s = Some z /\ PyInt.count_digits s <= PyInt.MAX_STR_DIGITS.
Proof.
  unfold PyInt.int. destruct (PyInt.literal s) as [y|]; [|discriminate].
  destruct (Z.leb_spec (PyInt.count_digits s) PyInt.MAX_STR_DIGITS) as [L|L];
    [|discriminate].
  intros E; injection E as <-. now split.
Qed.

Lemma int_too_long (s : string) :
  PyInt.MAX_STR_DIGITS < PyInt.count_digits s -> PyInt.int s = None.
Proof.
  unfold PyInt.int. intros H. destruct (PyInt.literal s); [|reflexivity].
  destruct (Z.leb_spec (PyInt.count_digits s) PyInt.MAX_STR_DIGITS);
    [lia | reflexivity].
Qed.

Lemma count_digits_nonneg (s : string) : 0 <= PyInt.count_digits s.
Proof.
  induction s as [|c s IH]; simpl; [lia|]. destruct (PyInt.is_digit c); lia.
Qed.

Lemma count_digits_le_length (s : string) :
  PyInt.count_digits s <= Z.of_nat (String.length s).
Proof.
  induction s as [|c s IH]; [simpl; lia|].
  cbn [PyInt.count_digits String.length]. destruct (PyInt.is_digit c); lia.
Qed.

Lemma count_all_digits (s : string) :
  PyInt.all_digits s = true ->
  PyInt.count_digits s = Z.of_nat (String.length s).
Proof.
  induction s as [|c s IH]; [reflexivity|].
  cbn [PyInt.all_digits PyInt.count_digits String.length].
  intros H; apply andb_true_iff in H as [-> Hs]. rewrite (IH Hs). lia.
Qed.

Lemma count_digits_app (s t : string) :
  PyInt.count_digits (s ++ t) = PyInt.count_digits s + PyInt.count_digits t.
Proof.
  induction s as [|c s IH]; [reflexivity|].
  cbn [append PyInt.count_digits]. rewrite IH. lia.
Qed.

Lemma scan_all_digits (s : string) :
  PyInt.all_digits s = true ->
  forall acc p, s <> EmptyString \/ p = PyInt.Digit ->
  PyInt.scan_digits acc p s = Some (decimal_value acc s).
Proof.
  induction s as [|c s IH]; simpl; intros Hd acc p Hp.
  - destruct Hp as [Hp | ->]; [congruence | reflexivity].
  - apply andb_true_iff in Hd as [Hc Hs]. rewrite Hc.
    apply IH; [assumption | now right].
Qed.

Lemma literal_purely_numeric (s : string) :
  PyInt.purely_numeric s = true -> PyInt.literal s = Some (decimal_value 0 s).
Proof.
  unfold PyInt.purely_numeric. intros H; apply andb_true_iff in H as [Hne Hd].
  destruct s as [|c s]; [discriminate|].
  pose proof Hd as Hd'. simpl in Hd'. apply andb_true_iff in Hd' as [Hc _].
  rewrite (literal_digit_head _ _ Hc).
  apply scan_all_digits; [assumption | left; discriminate].
Qed.

Lemma int_purely_numeric (s : string) :
  PyInt.purely_numeric s = true ->
  Z.of_nat (String.length s) <= PyInt.MAX_STR_DIGITS ->
  PyInt.int s = Some (decimal_value 0 s).
Proof.
  intros H Hlen. apply int_of_literal; [now apply literal_purely_numeric|].
  pose proof (count_digits_le_length s). lia.
Qed.


(** ** int() on the literals of Python *)

Lemma all_ascii_check (P : ascii -> bool) :
  forallb P (map ascii_of_nat (seq 0 256)) = true -> forall c, P c = true.
Proof.
  intros H c. rewrite forallb_forall in H. apply H.
  apply in_map_iff. exists (nat_of_ascii c). split.
  - apply ascii_nat_embedding.
  - apply in_seq. pose proof (nat_ascii_bounded c). lia.
Qed.

Lemma literal_cases (s : string) :
  PyInt.literal s
  = match PyInt.lstrip s with
    | EmptyString => None
    | String c t =>
        if Ascii.eqb c "+" then PyInt.scan_digits 0 PyInt.Start t
        else if Ascii.eqb c "-"
             then option_map Z.opp (PyInt.scan_digits 0 PyInt.Start t)
             else PyInt.scan_digits 0 PyInt.Start (String c t)
    end.
Proof.
  unfold PyInt.literal. destruct (PyInt.lstrip s) as [|c t]; [reflexivity|].
  destruct c as [[] [] [] [] [] [] [] []]; reflexivity.
Qed.

Lemma is_space_other (c : ascii) :
  PyInt.is_space c = true ->
  PyInt.is_digit c = false /\ Ascii.eqb c "_" = false.
Proof.
  intros H.
  assert (K : implb (PyInt.is_space c)
                    (negb (PyInt.is_digit c) && negb (Ascii.eqb c "_")) = true).
  { clear H. revert c. apply all_ascii_check. vm_compute. reflexivity. }
  rewrite H in K. cbn [implb] in K. apply andb_true_iff in K as [K1 K2].
  now apply negb_true_iff in K1, K2.
Qed.

Lemma is_digit_other (c : ascii) :
  PyInt.is_digit c = true ->
  PyInt.is_space c = false /\ Ascii.eqb c "+" = false /\ Ascii.eqb c "-" = false.
Proof.
  intros H. apply is_digit_cases in H. simpl in H.
  repeat (destruct H as [<-|H]; [repeat split|]). contradiction.
Qed.

Lemma WHITESPACE_is_space (c : ascii) :
  In c WHITESPACE -> PyInt.is_space c = true.
Proof.
  unfold WHITESPACE. simpl. intros H.
  repeat (destruct H as [<-|H]; [reflexivity|]). contradiction.
Qed.

Lemma DIGITS_is_digit (c : ascii) : In c DIGITS -> PyInt.is_digit c = true.
Proof.
  unfold DIGITS. simpl. intros H.
  repeat (destruct H as [<-|H]; [reflexivity|]). contradiction.
Qed.

Lemma made_of_WHITESPACE (ws : string) :
  made_of WHITESPACE ws -> PyInt.all_space ws = true.
Proof.
  unfold made_of. induction ws as [|c ws IH]; simpl; [reflexivity|].
  intros H. inversion H as [|? ? Hc Hws]; subst.
  now rewrite (WHITESPACE_is_space c Hc), (IH Hws).
Qed.

Lemma made_of_DIGITS (g : string) :
  made_of DIGITS g -> PyInt.all_digits g = true.
Proof.
  unfold made_of. induction g as [|c g IH]; simpl; [reflexivity|].
  intros H. inversion H as [|? ? Hc Hg]; subst.
  now rewrite (DIGITS_is_digit c Hc), (IH Hg).
Qed.

Lemma append_assoc (a b c : string) : (a ++ b) ++ c = a ++ b ++ c.
Proof. induction a as [|x a IH]; simpl; [reflexivity | now rewrite IH]. Qed.

Lemma length_append (a b : string) :
  String.length (a ++ b) = (String.length a + String.length b)%nat.
Proof. induction a as [|x a IH]; simpl; [reflexivity | now rewrite IH]. Qed.

Lemma decimal_value_app (a b : string) (acc : Z) :
  decimal_value acc (a ++ b) = decimal_value (decimal_value acc a) b.
Proof. revert acc; induction a as [|c a IH]; intros acc; simpl; auto. Qed.

Lemma lstrip_spaces (ws t : string) :
  PyInt.all_space ws = true -> PyInt.lstrip (ws ++ t) = PyInt.lstrip t.
Proof.
  induction ws as [|c ws IH]; simpl; [reflexivity|].
  intros H; apply andb_true_iff in H as [-> H]. now apply IH.
Qed.

Lemma literal_spaces (ws t : string) :
  PyInt.all_space ws = true -> PyInt.literal (ws ++ t) = PyInt.literal t.
Proof. intros H. unfold PyInt.literal. now rewrite (lstrip_spaces ws t H). Qed.

Lemma count_digits_spaces (ws : string) :
  PyInt.all_space ws = true -> PyInt.count_digits ws = 0.
Proof.
  induction ws as [|c ws IH]; simpl; [reflexivity|].
  intros H; apply andb_true_iff in H as [Hc H].
  apply is_space_other in Hc as [-> _]. now rewrite (IH H).
Qed.

Lemma scan_trailing_spaces (ws : string) (acc : Z) :
  PyInt.all_space ws = true ->
  PyInt.scan_digits acc PyInt.Digit ws = Some acc.
Proof.
  destruct ws as [|c ws]; [reflexivity|]. intros H.
  cbn [PyInt.scan_digits]. rewrite H.
  cbn [PyInt.all_space] in H. apply andb_true_iff in H as [Hc _].
  apply is_space_other in Hc as [-> ->]. reflexivity.
Qed.

Lemma scan_digits_run (g rest : string) (acc : Z) :
  PyInt.all_digits g = true ->
  PyInt.scan_digits acc PyInt.Digit (g ++ rest)
  = PyInt.scan_digits (decimal_value acc g) PyInt.Digit rest.
Proof.
  revert acc; induction g as [|c g IH]; intros acc; simpl; [reflexivity|].
  intros H; apply andb_true_iff in H as [-> H]. now apply IH.
Qed.

Lemma scan_digits_group (g rest : string) (acc : Z) (p : PyInt.prev) :
  g <> EmptyString -> PyInt.all_digits g = true ->
  PyInt.scan_digits acc p (g ++ rest)
  = PyInt.scan_digits (decimal_value acc g) PyInt.Digit rest.
Proof.
  destruct g as [|c g]; [congruence|]. intros _. simpl.
  intros H; apply andb_true_iff in H as [-> H]. now apply scan_digits_run.
Qed.

Lemma digit_group_all_digits (g : string) :
  digit_group g -> g <> EmptyString /\ PyInt.all_digits g = true.
Proof. intros [Hne Hd]. split; [assumption | now apply made_of_DIGITS]. Qed.

Lemma concat_cons (sep g : string) (groups : list string) :
  String.concat sep (g :: groups)
  = g ++ match groups with
         | [] => EmptyString
         | _ :: _ => sep ++ String.concat sep groups
         end.
Proof.
  destruct groups; simpl; [|reflexivity].
  induction g as [|c g IH]; simpl; [reflexivity | now rewrite <- IH].
Qed.

Lemma scan_digits_groups (groups : list string) (ws : string) :
  PyInt.all_space ws = true ->
  forall g acc p,
    Forall digit_group (g :: groups) ->
    PyInt.scan_digits acc p (String.concat "_" (g :: groups) ++ ws)
    = Some (decimal_value acc (String.concat EmptyString (g :: groups))).
Proof.
  intros Hws. induction groups as [|g' groups IH]; intros g acc p H;
    inversion H as [|? ? Hg Hrest]; subst;
    apply digit_group_all_digits in Hg as [Hne Hd].
  - rewrite !concat_cons, !append_assoc. cbn [append].
    rewrite (scan_digits_group g ws acc p Hne Hd).
    rewrite (scan_trailing_spaces ws _ Hws).
    f_equal. now rewrite decimal_value_app.
  - rewrite (concat_cons "_" g), (concat_cons EmptyString g), !append_assoc.
    cbn [append].
    rewrite (scan_digits_group g _ acc p Hne Hd).
    cbn [PyInt.scan_digits].
    change (PyInt.is_digit "_") with false. change (Ascii.eqb "_" "_") with true.
    cbn iota. rewrite (IH g' _ PyInt.Underscore Hrest).
    f_equal. now rewrite decimal_value_app.
Qed.

Lemma count_digits_groups (groups : list string) :
  Forall digit_group groups ->
  PyInt.count_digits (String.concat "_" groups) = literal_digits groups.
Proof.
  unfold literal_digits. induction 1 as [|g groups Hg _ IH]; [reflexivity|].
  apply digit_group_all_digits in Hg as [_ Hd].
  rewrite !concat_cons, count_digits_app, (count_all_digits g Hd).
  destruct groups as [|g' groups].
  - rewrite !length_append. simpl. lia.
  - cbn [append]. rewrite !length_append. cbn [PyInt.count_digits String.length].
    change (PyInt.is_digit "_") with false. rewrite IH. lia.
Qed.

Lemma literal_of_groups (negative : option bool) (g : string)
      (groups : list string) (ws : string) :
  PyInt.all_space ws = true -> Forall digit_group (g :: groups) ->
  PyInt.literal
    (match negative with
     | None => EmptyString
     | Some false => "+"
     | Some true => "-"
     end ++ String.concat "_" (g :: groups) ++ ws)
  = Some (literal_value negative (g :: groups)).
Proof.
  intros Hws H. pose proof (scan_digits_groups groups ws Hws g 0) as S.
  unfold literal_value. destruct negative as [[|]|]; cbn [append].
  - unfold PyInt.literal. cbn [PyInt.lstrip].
    change (PyInt.is_space "-") with false. cbn iota.
    now rewrite (S PyInt.Start H).
  - unfold PyInt.literal. cbn [PyInt.lstrip].
    change (PyInt.is_space "+") with false. cbn iota.
    now rewrite (S PyInt.Start H).
  - rewrite <- (S PyInt.Start H).
    inversion H as [|? ? Hg _]; subst.
    apply digit_group_all_digits in Hg as [Hne Hd].
    destruct g as [|c g]; [congruence|].
    rewrite concat_cons. cbn [append].
    apply literal_digit_head. cbn [PyInt.all_digits] in Hd.
    now apply andb_true_iff in Hd as [Hd _].
Qed.

Lemma int_literal_text (ws1 : string) (negative : option bool) (g : string)
      (groups : list string) (ws2 : string) :
  made_of WHITESPACE ws1 -> made_of WHITESPACE ws2 ->
  Forall digit_group (g :: groups) ->
  literal_digits (g :: groups) <= 4300 ->
  PyInt.int (literal_text ws1 negative (g :: groups) ws2)
  = Some (literal_value negative (g :: groups)).
Proof.
  intros H1 H2 Hg Hlen.
  apply made_of_WHITESPACE in H1, H2. unfold literal_text.
  apply int_of_literal.
  - rewrite (literal_spaces ws1 _ H1). now apply literal_of_groups.
  - rewrite !count_digits_app, (count_digits_spaces ws1 H1),
      (count_digits_spaces ws2 H2), (count_digits_groups _ Hg).
    unfold PyInt.MAX_STR_DIGITS.
    destruct negative as [[|]|]; simpl PyInt.count_digits; lia.
Qed.

Lemma int_long_literal (ws1 : string) (negative : option bool)
      (groups : list string) (ws2 : string) :
  Forall digit_group groups ->
  4300 < literal_digits groups ->
  PyInt.int (literal_text ws1 negative groups ws2) = None.
Proof.
  intros Hg Hlen. apply int_too_long. unfold literal_text.
  rewrite !count_digits_app, (count_digits_groups _ Hg).
  pose proof (count_digits_nonneg ws1). pose proof (count_digits_nonneg ws2).
  pose proof (count_digits_nonneg
                match negative with
                | None => EmptyString
                | Some false => "+"
                | Some true => "-"
                end).
  unfold PyInt.MAX_STR_DIGITS. lia.
Qed.

(** *** Conversely, what int() accepts is such a literal *)

Lemma is_space_WHITESPACE (c : ascii) :
  PyInt.is_space c = true -> In c WHITESPACE.
Proof.
  destruct c as [[] [] [] [] [] [] [] []]; intros H;
    try discriminate H; simpl; tauto.
Qed.

Lemma all_space_made_of (ws : string) :
  PyInt.all_space ws = true -> made_of WHITESPACE ws.
Proof.
  unfold made_of. induction ws as [|c ws IH]; simpl; [constructor|].
  intros H; apply andb_true_iff in H as [Hc Hws].
  constructor; [now apply is_space_WHITESPACE | now apply IH].
Qed.

Lemma all_digits_made_of (g : string) :
  PyInt.all_digits g = true -> made_of DIGITS g.
Proof.
  unfold made_of. induction g as [|c g IH]; simpl; [constructor|].
  intros H; apply andb_true_iff in H as [Hc Hg].
  constructor; [now apply is_digit_cases | now apply IH].
Qed.

Lemma lstrip_split (s : string) :
  exists ws, PyInt.all_space ws = true /\ s = ws ++ PyInt.lstrip s.
Proof.
  induction s as [|c s (ws & Hws & E)]; [now exists EmptyString|].
  cbn [PyInt.lstrip]. destruct (PyInt.is_space c) eqn:Hc.
  - exists (String c ws). cbn [PyInt.all_space append]. rewrite Hc, Hws.
    split; [reflexivity | now rewrite <- E].
  - now exists EmptyString.
Qed.

Lemma concat_more_groups (g : string) (groups : list string) :
  String.concat "_" (g :: groups) = g ++ more_groups groups.
Proof.
  revert g; induction groups as [|g' groups IH]; intros g.
  - rewrite concat_cons. reflexivity.
  - rewrite concat_cons, IH. reflexivity.
Qed.

Lemma concat_empty_cons (g : string) (groups : list string) :
  String.concat EmptyString (g :: groups)
  = g ++ String.concat EmptyString groups.
Proof. rewrite concat_cons. now destruct groups. Qed.

Lemma scan_digits_shape (s : string) :
  forall acc p z,
    PyInt.scan_digits acc p s = Some z ->
    exists g groups ws,
      PyInt.all_digits g = true
      /\ (p <> PyInt.Digit -> g <> EmptyString)
      /\ Forall digit_group groups
      /\ PyInt.all_space ws = true
      /\ s = g ++ more_groups groups ++ ws
      /\ z = decimal_value acc (g ++ String.concat EmptyString groups).
Proof.
  induction s as [|c s IH]; intros acc p z.
  - destruct p; try discriminate. intros H; injection H as <-.
    exists EmptyString, [], EmptyString.
    split; [reflexivity|]. split; [congruence|]. split; [constructor|].
    now repeat split.
  - cbn [PyInt.scan_digits]. destruct (PyInt.is_digit c) eqn:Hd.
    + intros H. apply IH in H as (g & groups & ws & Hg & _ & Hgs & Hws & -> & ->).
      exists (String c g), groups, ws. cbn [PyInt.all_digits append decimal_value].
      rewrite Hd, Hg.
      split; [reflexivity|]. split; [discriminate|]. now repeat split.
    + destruct (Ascii.eqb c "_") eqn:Hu.
      * apply Ascii.eqb_eq in Hu; subst c.
        destruct p; try discriminate. intros H.
        apply IH in H as (g & groups & ws & Hg & Hne & Hgs & Hws & -> & ->).
        exists EmptyString, (g :: groups), ws.
        split; [reflexivity|]. split; [congruence|]. split.
        { constructor; [|assumption].
          split; [apply Hne; discriminate | now apply all_digits_made_of]. }
        split; [assumption|]. split.
        -- cbn [more_groups append]. now rewrite !append_assoc.
        -- cbn [append]. now rewrite concat_empty_cons.
      * destruct p; try discriminate.
        destruct (PyInt.all_space (String c s)) eqn:Hs; [|discriminate].
        intros H; injection H as <-.
        exists EmptyString, [], (String c s).
        split; [reflexivity|]. split; [congruence|]. split; [constructor|].
        now repeat split.
Qed.

Lemma scan_digits_literal (t : string) (z : Z) :
  PyInt.scan_digits 0 PyInt.Start t = Some z ->
  exists g groups ws,
    Forall digit_group (g :: groups) /\ made_of WHITESPACE ws
    /\ t = String.concat "_" (g :: groups) ++ ws
    /\ z = decimal_value 0 (String.concat EmptyString (g :: groups)).
Proof.
  intros H. apply scan_digits_shape in H
    as (g & groups & ws & Hg & Hne & Hgs & Hws & -> & ->).
  exists g, groups, ws. split; [|split; [|split]].
  - constructor; [|assumption].
    split; [apply Hne; discriminate | now apply all_digits_made_of].
  - now apply all_space_made_of.
  - now rewrite concat_more_groups, append_assoc.
  - now rewrite concat_empty_cons.
Qed.

Lemma literal_shape (s : string) (z : Z) :
  PyInt.literal s = Some z ->
  exists ws1 negative g groups ws2,
    made_of WHITESPACE ws1 /\ made_of WHITESPACE ws2
    /\ Forall digit_group (g :: groups)
    /\ s = literal_text ws1 negative (g :: groups) ws2
    /\ z = literal_value negative (g :: groups).
Proof.
  rewrite literal_cases. destruct (lstrip_split s) as (ws1 & Hws1 & E).
  apply all_space_made_of in Hws1.
  destruct (PyInt.lstrip s) as [|c t]; [discriminate|].
  unfold literal_text, literal_value.
  destruct (Ascii.eqb c "+") eqn:Hplus.
  - apply Ascii.eqb_eq in Hplus; subst c. intros H.
    apply scan_digits_literal in H as (g & groups & ws2 & Hg & Hws2 & -> & ->).
    now exists ws1, (Some false), g, groups, ws2.
  - destruct (Ascii.eqb c "-") eqn:Hminus.
    + apply Ascii.eqb_eq in Hminus; subst c.
      destruct (PyInt.scan_digits 0 PyInt.Start t) as [y|] eqn:H; [|discriminate].
      intros Hz; injection Hz as <-.
      apply scan_digits_literal in H as (g & groups & ws2 & Hg & Hws2 & -> & ->).
      now exists ws1, (Some true), g, groups, ws2.
    + intros H.
      apply scan_digits_literal in H as (g & groups & ws2 & Hg & Hws2 & Et & ->).
      exists ws1, None, g, groups, ws2. rewrite E, Et. now repeat split.
Qed.

Lemma int_shape (s : string) (z : Z) :
  PyInt.int s = Some z ->
  exists ws1 negative g groups ws2,
    made_of WHITESPACE ws1 /\ made_of WHITESPACE ws2
    /\ Forall digit_group (g :: groups)
    /\ literal_digits (g :: groups) <= 4300
    /\ s = literal_text ws1 negative (g :: groups) ws2
    /\ z = literal_value negative (g :: groups).
Proof.
  intros H. apply int_Some_inv in H as [H Hlen].
  apply literal_shape in H as (ws1 & negative & g & groups & ws2
                               & H1 & H2 & Hg & -> & ->).
  exists ws1, negative, g, groups, ws2. repeat split; try assumption.
  revert Hlen. unfold literal_text.
  rewrite !count_digits_app, (count_digits_groups _ Hg).
  rewrite (count_digits_spaces ws1 (made_of_WHITESPACE _ H1)),
    (count_digits_spaces ws2 (made_of_WHITESPACE _ H2)).
  unfold PyInt.MAX_STR_DIGITS.
  destruct negative as [[|]|]; simpl PyInt.count_digits; lia.
Qed.

Lemma int_str_weekday (w : Z) :
  0 <= w <= 6 -> PyInt.int (PyInt.str w) = Some w.
Proof.
  intros H.
  assert (C : w = 0 \/ w = 1 \/ w = 2 \/ w = 3 \/ w = 4 \/ w = 5 \/ w = 6) by lia.
  repeat (destruct C as [->|C]; [reflexivity|]). subst; reflexivity.
Qed.

Lemma astype_int_in_range (v : value) (z : Z) :
  match v with
  | VInt y => y = z
  | VStr s => PyInt.int s = Some z
  end ->
  Heatmap.INT64_MIN <= z <= Heatmap.INT64_MAX ->
  Heatmap.astype_int v = Ok z.
Proof.
  intros Hv [Hlo Hhi]. unfold Heatmap.astype_int.
  apply Z.leb_le in Hlo, Hhi.
  destruct v as [s|y]; [rewrite Hv | subst y]; cbn [bind]; now rewrite Hlo, Hhi.
Qed.

Lemma astype_int_weekday (w : Z) :
  0 <= w <= 6 -> Heatmap.astype_int (VStr (PyInt.str w)) = Ok w.
Proof.
  intros H. apply astype_int_in_range; [now apply int_str_weekday|].
  unfold Heatmap.INT64_MIN, Heatmap.INT64_MAX. lia.
Qed.

Lemma str_weekday_ltb (v w : Z) :
  0 <= v <= 6 -> 0 <= w <= 6 ->
  String.ltb (PyInt.str v) (PyInt.str w) = (v <? w).
Proof.
  intros Hv Hw.
  assert (Cv : v = 0 \/ v = 1 \/ v = 2 \/ v = 3 \/ v = 4 \/ v = 5 \/ v = 6) by lia.
  assert (Cw : w = 0 \/ w = 1 \/ w = 2 \/ w = 3 \/ w = 4 \/ w = 5 \/ w = 6) by lia.
  repeat (destruct Cv as [->|Cv]);
    repeat (destruct Cw as [->|Cw]); subst; reflexivity.
Qed.

(** ** Dates: weekday and the ISO rendering *)

Lemma weekday_range (d : date) : 0 <= weekday d <= 6.
Proof.
  unfold weekday. pose proof (Z.mod_pos_bound (toordinal d + 6) 7). lia.
Qed.

Lemma days_in_month_le_31 (y m : Z) : days_in_month y m <= 31.
Proof.
  unfold days_in_month. destruct ((m =? 2) && is_leap y); [lia|].
  destruct (Z.to_nat m) as [|[|[|[|[|[|[|[|[|[|[|[|[|[|n]]]]]]]]]]]]]];
    simpl; lia.
Qed.

Lemma N_of_digit_char (x : Z) :
  0 <= x < 10 -> N_of_ascii (digit_char x) = (48 + Z.to_N x)%N.
Proof.
  intros H. unfold digit_char. apply N_ascii_embedding. lia.
Qed.

Lemma digit_char_compare (x y : Z) :
  0 <= x < 10 -> 0 <= y < 10 ->
  Ascii.compare (digit_char x) (digit_char y) = (x ?= y).
Proof.
  intros Hx Hy. unfold Ascii.compare.
  rewrite (N_of_digit_char _ Hx), (N_of_digit_char _ Hy).
  destruct (Z.compare_spec x y) as [E|L|G].
  - subst. apply N.compare_refl.
  - apply N.compare_lt_iff. lia.
  - apply N.compare_gt_iff. lia.
Qed.

Lemma is_digit_digit_char (x : Z) :
  0 <= x < 10 -> PyInt.is_digit (digit_char x) = true.
Proof.
  intros H. unfold PyInt.is_digit. rewrite (N_of_digit_char _ H).
  apply andb_true_iff. split; apply N.leb_le; lia.
Qed.

Lemma length_zfill (w : nat) (n : Z) : String.length (zfill w n) = w.
Proof. induction w as [|w IH]; simpl; [reflexivity | now rewrite IH]. Qed.

Lemma zfill_compare (w : nat) (a b : Z) :
  String.compare (zfill w a) (zfill w b)
  = (a mod 10 ^ Z.of_nat w ?= b mod 10 ^ Z.of_nat w).
Proof.
  induction w as [|w IH].
  - simpl. now rewrite !Z.mod_1_r.
  - cbn [zfill String.compare].
    set (p := 10 ^ Z.of_nat w) in *.
    assert (Hp : 0 < p) by (apply Z.pow_pos_nonneg; lia).
    replace (10 ^ Z.of_nat (S w)) with (p * 10)
      by (rewrite Nat2Z.inj_succ, Z.pow_succ_r by lia; subst p; ring).
    rewrite !(Z.rem_mul_r _ p 10) by lia.
    pose proof (Z.mod_pos_bound (a / p) 10 ltac:(lia)) as Hqa.
    pose proof (Z.mod_pos_bound (b / p) 10 ltac:(lia)) as Hqb.
    pose proof (Z.mod_pos_bound a p Hp) as Hra.
    pose proof (Z.mod_pos_bound b p Hp) as Hrb.
    rewrite (digit_char_compare _ _ Hqa Hqb), IH.
    set (qa := (a / p) mod 10) in *. set (qb := (b / p) mod 10) in *.
    set (ra := a mod p) in *. set (rb := b mod p) in *.
    destruct (Z.compare_spec qa qb) as [E|L|G].
    + subst qb. rewrite <- E.
      destruct (Z.compare_spec ra rb) as [E'|L'|G']; symmetry.
      * apply Z.compare_eq_iff. lia.
      * apply Z.compare_lt_iff. lia.
      * apply Z.compare_gt_iff. lia.
    + symmetry. apply Z.compare_lt_iff. nia.
    + symmetry. apply Z.compare_gt_iff. nia.
Qed.

Lemma compare_app (s1 s2 t1 t2 : string) :
  String.length s1 = String.length s2 ->
  String.compare (s1 ++ t1) (s2 ++ t2)
  = match String.compare s1 s2 with
    | Eq => String.compare t1 t2
    | c => c
    end.
Proof.
  revert s2; induction s1 as [|a s1 IH]; intros [|b s2]; simpl;
    try discriminate; [reflexivity|].
  intros H; injection H as H.
  destruct (Ascii.compare a b); [now apply IH | reflexivity | reflexivity].
Qed.

Lemma isoformat_compare (a b : date) :
  valid a -> valid b ->
  String.compare (isoformat a) (isoformat b) = Datetime.compare a b.
Proof.
  intros (Hya & Hma & Hda) (Hyb & Hmb & Hdb).
  pose proof (days_in_month_le_31 (year a) (month a)).
  pose proof (days_in_month_le_31 (year b) (month b)).
  unfold isoformat, Datetime.compare.
  rewrite compare_app by now rewrite !length_zfill.
  rewrite zfill_compare.
  change (10 ^ Z.of_nat 4) with 10000. rewrite !Z.mod_small by lia.
  destruct (year a ?= year b); try reflexivity.
  rewrite (compare_app "-" "-") by reflexivity. simpl (String.compare "-" "-").
  rewrite compare_app by now rewrite !length_zfill.
  rewrite zfill_compare.
  change (10 ^ Z.of_nat 2) with 100. rewrite !Z.mod_small by lia.
  destruct (month a ?= month b); try reflexivity.
  rewrite (compare_app "-" "-") by reflexivity. simpl (String.compare "-" "-").
  rewrite zfill_compare.
  change (10 ^ Z.of_nat 2) with 100. now rewrite !Z.mod_small by lia.
Qed.

Lemma compare_before (a b : date) : Datetime.compare a b = Lt <-> before a b.
Proof.
  unfold Datetime.compare, before.
  destruct (Z.compare_spec (year a) (year b));
    destruct (Z.compare_spec (month a) (month b));
    destruct (Z.compare_spec (day a) (day b));
    split; intros; try discriminate; try reflexivity; lia.
Qed.

Lemma compare_Eq_date (a b : date) : Datetime.compare a b = Eq -> a = b.
Proof.
  unfold Datetime.compare. destruct a as [ya ma da], b as [yb mb db]; simpl.
  destruct (Z.compare_spec ya yb); try discriminate.
  destruct (Z.compare_spec ma mb); try discriminate.
  destruct (Z.compare_spec da db); try discriminate.
  intros _. congruence.
Qed.

Lemma isoformat_ltb (a b : date) :
  valid a -> valid b ->
  (String.ltb (isoformat a) (isoformat b) = true <-> before a b).
Proof.
  intros Ha Hb. unfold String.ltb. rewrite (isoformat_compare a b Ha Hb).
  rewrite <- compare_before.
  destruct (Datetime.compare a b); split; congruence.
Qed.

Lemma isoformat_inj (a b : date) :
  valid a -> valid b -> isoformat a = isoformat b -> a = b.
Proof.
  intros Ha Hb E. apply compare_Eq_date.
  rewrite <- (isoformat_compare a b Ha Hb), E.
  destruct (String.compare (isoformat b) (isoformat b)) eqn:C; [reflexivity| |].
  - pose proof (String.compare_antisym (isoformat b) (isoformat b)) as S.
    rewrite C in S. discriminate.
  - pose proof (String.compare_antisym (isoformat b) (isoformat b)) as S.
    rewrite C in S. discriminate.
Qed.

Lemma iso_shape_isoformat (d : date) : iso_shape (isoformat d) = true.
Proof.
  unfold isoformat. cbn [zfill append iso_shape].
  rewrite !is_digit_digit_char by (apply Z.mod_pos_bound; lia).
  reflexivity.
Qed.

(** ** sorted(): it cannot raise on rows of one shape, and it sorts *)

Lemma Forall_Permutation {A : Type} (P : A -> Prop) (l l' : list A) :
  Permutation l l' -> Forall P l -> Forall P l'.
Proof.
  intros Hp H. apply Forall_forall. intros x Hx. rewrite Forall_forall in H.
  apply H. now apply (Permutation_in x (Permutation_sym Hp)).
Qed.

Lemma ltb_asym (s t : string) : String.ltb s t = true -> String.ltb t s = false.
Proof.
  unfold String.ltb. rewrite (String.compare_antisym s t).
  now destruct (String.compare t s).
Qed.

Lemma ltb_irrefl (s : string) : String.ltb s s = false.
Proof.
  destruct (String.ltb s s) eqn:E; [|reflexivity].
  pose proof (ltb_asym _ _ E). congruence.
Qed.

Lemma value_eq_sym (x y : value) : PySort.value_eq x y = PySort.value_eq y x.
Proof.
  destruct x, y; simpl; try reflexivity;
    [apply String.eqb_sym | apply Z.eqb_sym].
Qed.

Lemma value_lt_asym (x y : value) :
  PySort.value_lt x y = Ok true -> PySort.value_lt y x = Ok false.
Proof.
  destruct x as [s|a], y as [t|b]; simpl; try discriminate; intros H;
    injection H as H; f_equal; [now apply ltb_asym | lia].
Qed.

Lemma list_lt_asym (a b : list value) :
  PySort.list_lt a b = Ok true -> PySort.list_lt b a = Ok false.
Proof.
  revert b; induction a as [|x a IH]; intros [|y b]; simpl;
    try discriminate; try reflexivity.
  rewrite (value_eq_sym y x). destruct (PySort.value_eq x y).
  - apply IH.
  - apply value_lt_asym.
Qed.

Lemma list_lt_shaped (k : nat) (a b : list value) :
  shaped k a = true -> shaped k b = true ->
  exists c, PySort.list_lt a b = Ok c.
Proof.
  revert a b; induction k as [|k IH].
  - induction a as [|[s|x] a IHa]; intros [|[t|y] b]; simpl;
      try discriminate; eauto.
    intros Ha Hb. destruct (x =? y); eauto.
  - intros [|[s|x] a] [|[t|y] b]; simpl; try discriminate.
    intros Ha Hb. destruct (String.eqb s t); eauto.
Qed.

Lemma insert_total (k : nat) (x : list value) (l : list (list value)) :
  shaped k x = true -> Forall (fun r => shaped k r = true) l ->
  exists r, PySort.insert x l = Ok r /\ Permutation (x :: l) r.
Proof.
  intros Hx. induction 1 as [|y l Hy Hl IH]; simpl.
  - eauto.
  - destruct (list_lt_shaped k y x Hy Hx) as ([|] & ->); simpl.
    + destruct IH as (r & -> & Hp). simpl. exists (y :: r). split; [reflexivity|].
      rewrite perm_swap. now constructor.
    + eauto.
Qed.

Lemma sorted_total (k : nat) (l : list (list value)) :
  Forall (fun r => shaped k r = true) l ->
  exists r, PySort.sorted l = Ok r /\ Permutation l r.
Proof.
  induction 1 as [|x l Hx Hl IH]; simpl.
  - eauto.
  - destruct IH as (s & -> & Hp). simpl.
    assert (Hs : Forall (fun r => shaped k r = true) s).
    { apply Forall_forall. intros r Hr. rewrite Forall_forall in Hl.
      apply Hl. now apply (Permutation_in r (Permutation_sym Hp)). }
    destruct (insert_total k x s Hx Hs) as (r & -> & Hp').
    exists r. split; [reflexivity|].
    transitivity (x :: s); [now constructor | assumption].
Qed.

Lemma insert_HdRel (y x : list value) (l r : list (list value)) :
  PySort.insert x l = Ok r ->
  PySort.row_le y x -> HdRel PySort.row_le y l -> HdRel PySort.row_le y r.
Proof.
  destruct l as [|z l]; simpl.
  - intros H; injection H as <-. now constructor.
  - destruct (PySort.list_lt z x) as [[|]|e]; simpl; try discriminate.
    + destruct (PySort.insert x l); simpl; [|discriminate].
      intros H; injection H as <-. intros _ Hd. inversion Hd; now constructor.
    + intros H; injection H as <-. now constructor.
Qed.

Lemma insert_Sorted (x : list value) (l r : list (list value)) :
  PySort.insert x l = Ok r ->
  Sorted PySort.row_le l -> Sorted PySort.row_le r.
Proof.
  revert r; induction l as [|y l IH]; intros r; simpl.
  - intros H; injection H as <-. repeat constructor.
  - destruct (PySort.list_lt y x) as [[|]|e] eqn:Hc; simpl; try discriminate.
    + destruct (PySort.insert x l) as [r'|e] eqn:Hi; simpl; [|discriminate].
      intros H; injection H as <-. intros Hs. inversion Hs; subst.
      constructor; [now apply IH|].
      apply (insert_HdRel y x l r' Hi); [|assumption].
      now apply list_lt_asym.
    + intros H; injection H as <-. intros Hs.
      constructor; [assumption | now constructor].
Qed.

Lemma sorted_Sorted (l r : list (list value)) :
  PySort.sorted l = Ok r -> Sorted PySort.row_le r.
Proof.
  revert r; induction l as [|x l IH]; intros r; simpl.
  - intros H; injection H as <-. constructor.
  - destruct (PySort.sorted l) as [s|e]; simpl; [|discriminate].
    intros H. apply (insert_Sorted x s r H). now apply IH.
Qed.

(** *** The order of the rows is total, so the sorted list is unique *)

Lemma ltb_trans (s t u : string) :
  String.ltb s t = true -> String.ltb t u = true -> String.ltb s u = true.
Proof.
  unfold String.ltb.
  destruct (String.compare s t) eqn:E1; try discriminate.
  destruct (String.compare t u) eqn:E2; try discriminate.
  intros _ _. apply String_as_OT.cmp_lt in E1, E2.
  pose proof (String_as_OT.lt_trans _ _ _ E1 E2) as E3.
  apply String_as_OT.cmp_lt in E3. unfold String_as_OT.cmp in E3.
  now rewrite E3.
Qed.

Lemma ltb_total (s t : string) :
  s = t \/ String.ltb s t = true \/ String.ltb t s = true.
Proof.
  unfold String.ltb. rewrite (String.compare_antisym t s).
  destruct (String.compare s t) eqn:E; simpl; auto.
  left. now apply String.compare_eq_iff.
Qed.

Lemma value_lt_trans (x y z : value) :
  PySort.value_lt x y = Ok true -> PySort.value_lt y z = Ok true ->
  PySort.value_lt x z = Ok true.
Proof.
  destruct x as [s|a], y as [t|b], z as [u|c]; simpl; try discriminate;
    intros H1 H2; injection H1 as H1; injection H2 as H2; f_equal.
  - now apply (ltb_trans s t u).
  - lia.
Qed.

Lemma value_eq_eq (x y : value) : PySort.value_eq x y = true <-> x = y.
Proof.
  destruct x as [s|a], y as [t|b]; simpl; split; try discriminate.
  - intros H; apply String.eqb_eq in H. now subst.
  - intros H; injection H as ->. apply String.eqb_refl.
  - intros H; apply Z.eqb_eq in H. now subst.
  - intros H; injection H as ->. apply Z.eqb_refl.
Qed.

Lemma value_lt_irrefl (x : value) : PySort.value_lt x x <> Ok true.
Proof.
  destruct x as [s|a]; simpl; intros H; injection H as H.
  - rewrite ltb_irrefl in H. discriminate.
  - lia.
Qed.

Lemma list_lt_trans (a b c : list value) :
  PySort.list_lt a b = Ok true -> PySort.list_lt b c = Ok true ->
  PySort.list_lt a c = Ok true.
Proof.
  revert b c; induction a as [|x a IH]; intros [|y b] [|z c]; simpl;
    try discriminate; try reflexivity.
  destruct (PySort.value_eq x y) eqn:Exy.
  - apply value_eq_eq in Exy; subst y.
    destruct (PySort.value_eq x z) eqn:Exz; [apply IH | auto].
  - destruct (PySort.value_eq y z) eqn:Eyz.
    + apply value_eq_eq in Eyz; subst z. rewrite Exy. auto.
    + intros H1 H2. pose proof (value_lt_trans _ _ _ H1 H2) as H3.
      destruct (PySort.value_eq x z) eqn:Exz; [|assumption].
      apply value_eq_eq in Exz; subst z.
      apply value_lt_asym in H1. congruence.
Qed.

Lemma list_lt_total (k : nat) (a b : list value) :
  shaped k a = true -> shaped k b = true ->
  a = b \/ PySort.list_lt a b = Ok true \/ PySort.list_lt b a = Ok true.
Proof.
  revert a b; induction k as [|k IH].
  - induction a as [|[s|x] a IHa]; intros [|[t|y] b]; simpl;
      try discriminate; auto.
    intros Ha Hb. rewrite (Z.eqb_sym y x).
    destruct (Z.eqb_spec x y) as [->|Hne].
    + destruct (IHa b Ha Hb) as [->|[H|H]]; auto.
    + destruct (Z.ltb_spec x y); destruct (Z.ltb_spec y x); auto; lia.
  - intros [|[s|x] a] [|[t|y] b]; simpl; try discriminate.
    intros Ha Hb. rewrite (String.eqb_sym t s).
    destruct (String.eqb_spec s t) as [->|Hne].
    + destruct (IH a b Ha Hb) as [->|[H|H]]; auto.
    + destruct (ltb_total s t) as [E|[E|E]]; [contradiction | |]; rewrite E; auto.
Qed.

Lemma row_le_trans (k : nat) (a b c : list value) :
  shaped k a = true -> shaped k b = true -> shaped k c = true ->
  PySort.row_le a b -> PySort.row_le b c -> PySort.row_le a c.
Proof.
  unfold PySort.row_le. intros Ha Hb Hc Hab Hbc.
  destruct (list_lt_shaped k c a Hc Ha) as ([|] & Hca); [|assumption].
  exfalso.
  destruct (list_lt_total k a b Ha Hb) as [->|[H|H]]; [congruence | | congruence].
  pose proof (list_lt_trans _ _ _ Hca H) as Hcb. congruence.
Qed.

Lemma row_le_antisym (k : nat) (a b : list value) :
  shaped k a = true -> shaped k b = true ->
  PySort.row_le a b -> PySort.row_le b a -> a = b.
Proof.
  unfold PySort.row_le. intros Ha Hb Hab Hba.
  destruct (list_lt_total k a b Ha Hb) as [E|[H|H]]; [assumption | |]; congruence.
Qed.

Lemma Sorted_rows_strongly (k : nat) (l : list (list value)) :
  Forall (fun r => shaped k r = true) l ->
  Sorted PySort.row_le l -> StronglySorted PySort.row_le l.
Proof.
  intros Hsh Hs. induction Hs as [|a l Hs IH Hd]; [constructor|].
  inversion Hsh as [|? ? Ha Hl]; subst. specialize (IH Hl).
  constructor; [assumption|].
  destruct Hd as [|b l Hab]; constructor; [assumption|].
  inversion IH as [|? ? _ Hall]; subst. inversion Hl as [|? ? Hb Hl']; subst.
  rewrite Forall_forall in *. intros c Hc.
  apply (row_le_trans k a b c); auto.
Qed.

Lemma sorted_rows_unique (k : nat) (l1 l2 : list (list value)) :
  Forall (fun r => shaped k r = true) l1 ->
  StronglySorted PySort.row_le l1 -> StronglySorted PySort.row_le l2 ->
  Permutation l1 l2 -> l1 = l2.
Proof.
  revert l2; induction l1 as [|a l1 IH]; intros l2 Hsh S1 S2 Hp.
  - now apply Permutation_nil in Hp.
  - destruct l2 as [|b l2]; [now apply Permutation_sym, Permutation_nil in Hp|].
    inversion Hsh as [|? ? Ha Hl1]; subst.
    inversion S1 as [|? ? S1' A1]; subst. inversion S2 as [|? ? S2' A2]; subst.
    rewrite Forall_forall in A1, A2.
    assert (Hb : shaped k b = true).
    { apply (Forall_Permutation _ _ _ Hp) in Hsh. now inversion Hsh. }
    assert (E : a = b).
    { assert (Ia : In a (b :: l2)) by (apply (Permutation_in _ Hp); now left).
      assert (Ib : In b (a :: l1))
        by (apply (Permutation_in _ (Permutation_sym Hp)); now left).
      destruct Ia as [->|Ia]; [reflexivity|].
      destruct Ib as [->|Ib]; [reflexivity|].
      apply (row_le_antisym k); auto. }
    subst b. f_equal. apply IH; try assumption.
    now apply Permutation_cons_inv in Hp.
Qed.

(** Whatever algorithm [sorted()] runs, it returns a rearrangement of its
    input that is ascending for [<]; on rows of one shape there is only one,
    and it is the list the insertion above builds. *)
Lemma sorted_is_the_sorted_permutation (k : nat) (l out : list (list value)) :
  Forall (fun r => shaped k r = true) l ->
  Permutation l out -> Sorted PySort.row_le out ->
  PySort.sorted l = Ok out.
Proof.
  intros Hsh Hp Hs.
  destruct (sorted_total k l Hsh) as (r & Hr & Hpr). rewrite Hr. f_equal.
  assert (Hshr : Forall (fun r => shaped k r = true) r)
    by now apply (Forall_Permutation _ l).
  apply (sorted_rows_unique k); try assumption.
  - apply (Sorted_rows_strongly k); [assumption | now apply (sorted_Sorted l)].
  - apply (Sorted_rows_strongly k); [|assumption].
    now apply (Forall_Permutation _ l).
  - transitivity l; [now apply Permutation_sym | assumption].
Qed.

Lemma row_le_first_text (k : nat) (a b : list value) :
  shaped (S k) a = true -> shaped (S k) b = true -> PySort.row_le a b ->
  String.ltb (first_text b) (first_text a) = false.
Proof.
  destruct a as [|[s|x] a], b as [|[t|y] b]; simpl; try discriminate.
  intros _ _. unfold PySort.row_le; simpl.
  destruct (String.eqb t s) eqn:E.
  - apply String.eqb_eq in E; subst. intros _. apply ltb_irrefl.
  - intros H; now injection H.
Qed.

Lemma Sorted_first_text (k : nat) (out : list (list value)) :
  Forall (fun r => shaped (S k) r = true) out ->
  Sorted PySort.row_le out ->
  Sorted (fun s t => String.ltb t s = false) (map first_text out).
Proof.
  intros Hsh Hs. induction Hs as [|a out Hs IH Hd]; simpl; [constructor|].
  inversion Hsh as [|? ? Ha Hout]; subst.
  constructor; [now apply IH|].
  destruct Hd as [|b out Hab]; simpl; constructor.
  inversion Hout; subst. now apply (row_le_first_text k).
Qed.

Lemma Sorted_map_inv {A B : Type} (f : A -> B) (R : B -> B -> Prop) (l : list A) :
  Sorted R (map f l) -> Sorted (fun a b => R (f a) (f b)) l.
Proof.
  induction l as [|a l IH]; simpl; intros H; [constructor|].
  inversion H as [|? ? Hs Hd]; subst. constructor; [now apply IH|].
  destruct l; simpl in *; constructor. now inversion Hd.
Qed.

Lemma StronglySorted_map {A B : Type} (f : A -> B) (R : A -> A -> Prop)
      (Q : B -> B -> Prop) (P : A -> Prop) (l : list A) :
  (forall a b, P a -> P b -> R a b -> Q (f a) (f b)) ->
  Forall P l -> StronglySorted R l -> StronglySorted Q (map f l).
Proof.
  intros HRQ HP Hs. induction Hs as [|a l Hs IH Hall]; simpl; [constructor|].
  inversion HP as [|? ? Pa Pl]; subst. constructor; [now apply IH|].
  apply Forall_forall. intros y Hy. apply in_map_iff in Hy as (b & <- & Hb).
  rewrite Forall_forall in Hall, Pl. apply HRQ; auto.
Qed.

Lemma StronglySorted_after {A : Type} (R : A -> A -> Prop) (l1 l2 : list A) (x : A) :
  StronglySorted R (l1 ++ x :: l2) -> Forall (R x) l2.
Proof.
  induction l1 as [|a l1 IH]; simpl; intros H; inversion H; subst; auto.
Qed.

(** ** Chronological order *)

Lemma before_trans (a b c : date) : before a b -> before b c -> before a c.
Proof. unfold before. lia. Qed.

Lemma before_total (a b : date) : a = b \/ before a b \/ before b a.
Proof.
  destruct a as [ya ma da], b as [yb mb db]. unfold before; simpl.
  destruct (Z.eq_dec ya yb) as [->|]; [|lia].
  destruct (Z.eq_dec ma mb) as [->|]; [|lia].
  destruct (Z.eq_dec da db) as [->|]; [now left | lia].
Qed.


Lemma Sorted_before (ds : list date) :
  Forall valid ds -> NoDup ds ->
  Sorted (fun a b => String.ltb (isoformat b) (isoformat a) = false) ds ->
  Sorted before ds.
Proof.
  intros Hv Hn Hs. induction Hs as [|a ds Hs IH Hd]; [constructor|].
  inversion Hv as [|? ? Va Vds]; subst. inversion Hn as [|? ? Hnotin Hn']; subst.
  constructor; [now apply IH|].
  destruct Hd as [|b ds Hab]; constructor.
  inversion Vds as [|? ? Vb _]; subst.
  destruct (before_total a b) as [->|[H|H]]; [|assumption|].
  - exfalso. apply Hnotin. now left.
  - apply (isoformat_ltb b a Vb Va) in H. congruence.
Qed.

(** ** The rows transform and heat_transform build *)

Lemma mapM_int_cell_shaped (cs : list cell) (ints : list value) :
  mapM int_cell cs = Ok ints -> shaped 0 ints = true.
Proof.
  revert ints; induction cs as [|c cs IH]; intros ints; simpl.
  - intros H; injection H as <-. reflexivity.
  - intros H. apply bind_Ok_inv in H as (v & Hv & H).
    apply bind_Ok_inv in H as (vs & Hvs & H). injection H as <-.
    destruct c as [s|]; simpl in Hv; [|discriminate].
    destruct (PyInt.int s); [|discriminate]. injection Hv as <-.
    exact (IH _ Hvs).
Qed.

Section TransformRows.

Variable parse : string -> result date.

Lemma transform_row_Ok_inv (row : list cell) (r : list value) :
  transform_row parse row = Ok r ->
  exists d ints,
    row_date parse row = Ok d
    /\ mapM int_cell (skipn 1 row) = Ok ints
    /\ r = VStr (isoformat d) :: ints.
Proof.
  unfold transform_row, row_date. intros H.
  apply bind_Ok_inv in H as (c0 & -> & H).
  apply bind_Ok_inv in H as (d & Hd & H).
  apply bind_Ok_inv in H as (ints & Hints & H). injection H as <-.
  exists d, ints. auto.
Qed.

Lemma heat_transform_row_Ok_inv (row : list cell) (r : list value) :
  heat_transform_row parse row = Ok r ->
  exists d ints,
    row_date parse row = Ok d
    /\ mapM int_cell (skipn 1 row) = Ok ints
    /\ r = VStr (PyInt.str (weekday d)) :: VStr (isoformat d) :: ints.
Proof.
  unfold heat_transform_row, row_date. intros H.
  apply bind_Ok_inv in H as (c0 & Hc0 & H).
  apply bind_Ok_inv in H as (d & Hd & H).
  rewrite Hc0 in H. cbn [bind] in H. rewrite Hd in H. cbn [bind] in H.
  apply bind_Ok_inv in H as (ints & Hints & H). injection H as <-.
  exists d, ints. rewrite Hc0. auto.
Qed.

Lemma transform_row_of_parts (row : list cell) (d : date) (ints : list value) :
  row_date parse row = Ok d -> mapM int_cell (skipn 1 row) = Ok ints ->
  transform_row parse row = Ok (VStr (isoformat d) :: ints).
Proof.
  unfold transform_row, row_date. intros Hd Hi.
  destruct (getitem row 0) as [c0|e]; simpl in *; [|discriminate].
  rewrite Hd. simpl. now rewrite Hi.
Qed.

Lemma heat_transform_row_of_parts (row : list cell) (d : date) (ints : list value) :
  row_date parse row = Ok d -> mapM int_cell (skipn 1 row) = Ok ints ->
  heat_transform_row parse row
  = Ok (VStr (PyInt.str (weekday d)) :: VStr (isoformat d) :: ints).
Proof.
  unfold heat_transform_row, row_date. intros Hd Hi.
  destruct (getitem row 0) as [c0|e]; cbn [bind] in *; [|discriminate].
  rewrite Hd. cbn [bind]. now rewrite Hi.
Qed.

Lemma transform_rows_columns (rows : list (list cell))
      (res : list (list value)) (ds : list date) :
  mapM (transform_row parse) rows = Ok res ->
  mapM (row_date parse) rows = Ok ds ->
  map first_text res = map isoformat ds
  /\ Forall (fun r => shaped 1 r = true) res.
Proof.
  revert res ds; induction rows as [|row rows IH]; intros res ds; simpl.
  - intros H1 H2. injection H1 as <-. injection H2 as <-. now split.
  - intros H1 H2.
    apply bind_Ok_inv in H1 as (r & Hr & H1).
    apply bind_Ok_inv in H1 as (rs & Hrs & H1). injection H1 as <-.
    apply bind_Ok_inv in H2 as (d & Hd & H2).
    apply bind_Ok_inv in H2 as (ds' & Hds & H2). injection H2 as <-.
    destruct (IH _ _ Hrs Hds) as [E F].
    apply transform_row_Ok_inv in Hr as (d' & ints & Hd' & Hi & ->).
    assert (d' = d) by congruence; subst d'.
    simpl. rewrite E. split; [reflexivity|].
    constructor; [|assumption]. simpl. now apply (mapM_int_cell_shaped _ _ Hi).
Qed.

Lemma heat_transform_rows_columns (rows : list (list cell))
      (res : list (list value)) (ds : list date) :
  mapM (heat_transform_row parse) rows = Ok res ->
  mapM (row_date parse) rows = Ok ds ->
  map (fun r => (first_text r, second_text r)) res
  = map (fun d => (PyInt.str (weekday d), isoformat d)) ds
  /\ Forall (fun r => shaped 2 r = true) res.
Proof.
  revert res ds; induction rows as [|row rows IH]; intros res ds; simpl.
  - intros H1 H2. injection H1 as <-. injection H2 as <-. now split.
  - intros H1 H2.
    apply bind_Ok_inv in H1 as (r & Hr & H1).
    apply bind_Ok_inv in H1 as (rs & Hrs & H1). injection H1 as <-.
    apply bind_Ok_inv in H2 as (d & Hd & H2).
    apply bind_Ok_inv in H2 as (ds' & Hds & H2). injection H2 as <-.
    destruct (IH _ _ Hrs Hds) as [E F].
    apply heat_transform_row_Ok_inv in Hr as (d' & ints & Hd' & Hi & ->).
    assert (d' = d) by congruence; subst d'.
    simpl. rewrite E. split; [reflexivity|].
    constructor; [|assumption]. simpl. now apply (mapM_int_cell_shaped _ _ Hi).
Qed.

Lemma row_dates_valid (rows : list (list cell)) (ds : list date) :
  (forall s d, parse s = Ok d -> valid d) ->
  mapM (row_date parse) rows = Ok ds -> Forall valid ds.
Proof.
  intros Hv H. apply mapM_Ok_Forall2 in H.
  induction H as [|row d rows ds Hd _ IH]; constructor; [|assumption].
  unfold row_date in Hd. apply bind_Ok_inv in Hd as ([s|] & _ & Hd);
    simpl in Hd; [|discriminate].
  now apply (Hv s).
Qed.

End TransformRows.

(** ** C5: transform returns its records in chronological order *)

(** C5.  When every row converts and the dates read from the rows are
    pairwise distinct, transform returns the converted rows rearranged so
    that the list is ascending for Python's list order, the ISO date strings
    of its first column are strictly ascending, and the dates they render
    are in chronological order; no other rearrangement of the converted rows
    is ascending. *)
Theorem transform_sorted_by_date
        (parse : string -> result date)
        (parse_valid : forall s d, parse s = Ok d -> valid d)
        (rows : list (list cell)) (res : list (list value)) (ds : list date) :
  mapM (transform_row parse) rows = Ok res ->
  mapM (row_date parse) rows = Ok ds ->
  NoDup ds ->
  exists out ds',
    transform parse rows = Ok out
    /\ Permutation res out
    /\ Sorted PySort.row_le out
    /\ Permutation ds ds'
    /\ map first_text out = map isoformat ds'
    /\ StronglySorted before ds'
    /\ StronglySorted (fun s t => String.ltb s t = true) (map first_text out)
    /\ (forall out', Permutation res out' -> Sorted PySort.row_le out' ->
                     out' = out).
Proof.
  intros Hres Hds Hnd.
  destruct (transform_rows_columns parse rows res ds Hres Hds) as [Hcol Hsh].
  destruct (sorted_total 1 res Hsh) as (out & Hsorted & Hperm).
  assert (Hp : Permutation (map first_text out) (map isoformat ds)).
  { rewrite <- Hcol. apply Permutation_map. now apply Permutation_sym. }
  apply Permutation_map_inv in Hp as (ds' & Hout & Hp').
  assert (Hv : Forall valid ds').
  { apply (Forall_Permutation _ ds); [assumption|].
    now apply (row_dates_valid parse rows). }
  assert (Hs : StronglySorted before ds').
  { apply Sorted_StronglySorted; [exact before_trans|].
    apply Sorted_before; [assumption | |].
    - now apply (Permutation_NoDup Hp').
    - apply Sorted_map_inv with (f := isoformat)
        (R := fun s t => String.ltb t s = false).
      rewrite <- Hout. apply (Sorted_first_text 0).
      + now apply (Forall_Permutation _ res).
      + now apply (sorted_Sorted res). }
  exists out, ds'. unfold transform. rewrite Hres. simpl.
  repeat split; try assumption.
  - now apply (sorted_Sorted res).
  - rewrite Hout.
    apply (StronglySorted_map isoformat before _ valid); try assumption.
    intros a b Va Vb Hab. now apply isoformat_ltb.
  - intros out' Hp1 Hs1.
    pose proof (sorted_is_the_sorted_permutation 1 res out' Hsh Hp1 Hs1).
    congruence.
Qed.

Lemma validb_valid (d : date) : validb d = true -> valid d.
Proof.
  unfold validb, valid. rewrite !andb_true_iff, !Z.leb_le. tauto.
Qed.

Lemma parse_dmy_valid (s : string) (d : date) :
  Dateutil.parse_dmy s = Ok d -> valid d.
Proof.
  unfold Dateutil.parse_dmy, Dateutil.dmy.
  destruct (Dateutil.split_space s) as [|dd [|mm [|yy [|? ?]]]]; try discriminate.
  destruct (Dateutil.number dd) as [x|]; try discriminate.
  destruct (Dateutil.month_index mm Dateutil.MONTHS 1) as [y|]; try discriminate.
  destruct (Dateutil.number yy) as [z|]; try discriminate.
  destruct (Nat.eqb (String.length yy) 4 && validb (mkdate z y x)) eqn:E;
    try discriminate.
  intros H; injection H as <-. apply validb_valid.
  now apply andb_true_iff in E as [_ E].
Qed.

Lemma transform_sorted_by_date_witness :
  exists out ds',
    transform Dateutil.parse_dmy
      [ [Some "12 October 2020"; Some "7"; Some "3"];
        [Some "11 October 2020"; Some "5"; Some "12"] ] = Ok out
    /\ Permutation [ [VStr "2020-10-12"; VInt 7; VInt 3];
                     [VStr "2020-10-11"; VInt 5; VInt 12] ] out
    /\ Sorted PySort.row_le out
    /\ Permutation [mkdate 2020 10 12; mkdate 2020 10 11] ds'
    /\ map first_text out = map isoformat ds'
    /\ StronglySorted before ds'
    /\ StronglySorted (fun s t => String.ltb s t = true) (map first_text out)
    /\ (forall out',
        Permutation [ [VStr "2020-10-12"; VInt 7; VInt 3];
                      [VStr "2020-10-11"; VInt 5; VInt 12] ] out' ->
        Sorted PySort.row_le out' -> out' = out).
Proof.
  apply (transform_sorted_by_date Dateutil.parse_dmy parse_dmy_valid).
  - reflexivity.
  - reflexivity.
  - constructor.
    + simpl. intros [H|[]]. discriminate H.
    + constructor; [simpl; tauto | constructor].
Defined.

(** ** C8: heat_transform groups its records by weekday *)

Lemma le_weekday_trans (a b c : date) :
  weekday a <= weekday b -> weekday b <= weekday c -> weekday a <= weekday c.
Proof. lia. Qed.

Lemma in_two_split {A : Type} (x y : A) (l : list A) :
  x <> y -> In x l -> In y l ->
  (exists l1 l2 l3, l = l1 ++ x :: l2 ++ y :: l3)%list
  \/ (exists l1 l2 l3, l = l1 ++ y :: l2 ++ x :: l3)%list.
Proof.
  intros Hne Hx Hy. apply in_split in Hx as (l1 & l2 & ->).
  apply in_app_or in Hy as [Hy|[Hy|Hy]]; [| congruence |].
  - right. apply in_split in Hy as (m1 & m2 & ->).
    exists m1, m2, l2. now rewrite <- app_assoc.
  - left. apply in_split in Hy as (m1 & m2 & ->). now exists l1, m1, m2.
Qed.

(** C8.  When every row converts, heat_transform returns the converted rows
    rearranged so that the list is ascending for Python's list order on the
    whole rows, whose first column is the weekday: the weekdays never
    decrease along the output, and whenever one row is earlier by date than
    another but later by weekday, the later date comes first in the output;
    no other rearrangement of the converted rows is ascending. *)
Theorem heat_transform_sorted_by_weekday
        (parse : string -> result date)
        (rows : list (list cell)) (res : list (list value)) (ds : list date) :
  mapM (heat_transform_row parse) rows = Ok res ->
  mapM (row_date parse) rows = Ok ds ->
  exists out ds',
    heat_transform parse rows = Ok out
    /\ Permutation res out
    /\ Sorted PySort.row_le out
    /\ Permutation ds ds'
    /\ map first_text out = map (fun d => PyInt.str (weekday d)) ds'
    /\ map second_text out = map isoformat ds'
    /\ StronglySorted (fun a b => weekday a <= weekday b) ds'
    /\ (forall d1 d2, In d1 ds -> In d2 ds ->
        before d1 d2 -> weekday d2 < weekday d1 ->
        exists l1 l2 l3, ds' = l1 ++ d2 :: l2 ++ d1 :: l3)%list
    /\ (forall out', Permutation res out' -> Sorted PySort.row_le out' ->
                     out' = out).
Proof.
  intros Hres Hds.
  destruct (heat_transform_rows_columns parse rows res ds Hres Hds) as [Hcol Hsh].
  destruct (sorted_total 2 res Hsh) as (out & Hsorted & Hperm).
  pose (key := fun r : list value => (first_text r, second_text r)).
  pose (g := fun d : date => (PyInt.str (weekday d), isoformat d)).
  assert (Hp : Permutation (map key out) (map g ds)).
  { unfold key, g. rewrite <- Hcol. apply Permutation_map. now apply Permutation_sym. }
  apply Permutation_map_inv in Hp as (ds' & Hout & Hp').
  assert (H1 : map first_text out = map (fun d => PyInt.str (weekday d)) ds').
  { transitivity (map fst (map key out)); [now rewrite map_map|].
    rewrite Hout, map_map. reflexivity. }
  assert (H2 : map second_text out = map isoformat ds').
  { transitivity (map snd (map key out)); [now rewrite map_map|].
    rewrite Hout, map_map. reflexivity. }
  assert (Hsrt : Sorted PySort.row_le out) by now apply (sorted_Sorted res).
  assert (Hs : StronglySorted (fun a b => weekday a <= weekday b) ds').
  { apply Sorted_StronglySorted; [exact le_weekday_trans|].
    assert (S1 : Sorted (fun a b => String.ltb (PyInt.str (weekday b))
                                               (PyInt.str (weekday a)) = false) ds').
    { apply Sorted_map_inv with (f := fun d => PyInt.str (weekday d))
        (R := fun s t => String.ltb t s = false).
      rewrite <- H1. apply (Sorted_first_text 1); [|assumption].
      now apply (Forall_Permutation _ res). }
    clear -S1. induction S1 as [|a l _ IH Hd]; constructor; [assumption|].
    destruct Hd as [|b l Hab]; constructor.
    rewrite str_weekday_ltb in Hab by apply weekday_range. lia. }
  exists out, ds'. unfold heat_transform. rewrite Hres. simpl.
  repeat split; try assumption.
  - intros d1 d2 In1 In2 Hbefore Hwd.
    assert (Hne : d2 <> d1) by (intros ->; lia).
    destruct (in_two_split d2 d1 ds' Hne) as [H|(l1 & l2 & l3 & ->)];
      [now apply (Permutation_in _ Hp') | now apply (Permutation_in _ Hp')
       | assumption |].
    exfalso. apply StronglySorted_after in Hs.
    rewrite Forall_forall in Hs.
    assert (weekday d1 <= weekday d2) by (apply Hs, in_or_app; right; now left).
    lia.
  - intros out' Hp1 Hs1.
    pose proof (sorted_is_the_sorted_permutation 2 res out' Hsh Hp1 Hs1).
    congruence.
Qed.

Lemma heat_transform_sorted_by_weekday_witness :
  exists out ds',
    heat_transform Dateutil.parse_dmy
      [ [Some "11 October 2020"; Some "5"; Some "12"];
        [Some "12 October 2020"; Some "7"; Some "3"] ] = Ok out
    /\ Permutation [ [VStr "6"; VStr "2020-10-11"; VInt 5; VInt 12];
                     [VStr "0"; VStr "2020-10-12"; VInt 7; VInt 3] ] out
    /\ Sorted PySort.row_le out
    /\ Permutation [mkdate 2020 10 11; mkdate 2020 10 12] ds'
    /\ map first_text out = map (fun d => PyInt.str (weekday d)) ds'
    /\ map second_text out = map isoformat ds'
    /\ StronglySorted (fun a b => weekday a <= weekday b) ds'
    /\ (forall d1 d2,
        In d1 [mkdate 2020 10 11; mkdate 2020 10 12] ->
        In d2 [mkdate 2020 10 11; mkdate 2020 10 12] ->
        before d1 d2 -> weekday d2 < weekday d1 ->
        exists l1 l2 l3, ds' = l1 ++ d2 :: l2 ++ d1 :: l3)%list
    /\ (forall out',
        Permutation [ [VStr "6"; VStr "2020-10-11"; VInt 5; VInt 12];
                      [VStr "0"; VStr "2020-10-12"; VInt 7; VInt 3] ] out' ->
        Sorted PySort.row_le out' -> out' = out).
Proof.
  apply (heat_transform_sorted_by_weekday Dateutil.parse_dmy); reflexivity.
Defined.

Lemma insert_Permutation (x : list value) (l r : list (list value)) :
  PySort.insert x l = Ok r -> Permutation (x :: l) r.
Proof.
  revert r; induction l as [|y l IH]; intros r; simpl.
  - intros H; injection H as <-. reflexivity.
  - destruct (PySort.list_lt y x) as [[|]|e]; simpl; try discriminate.
    + destruct (PySort.insert x l) as [r'|e]; simpl; [|discriminate].
      intros H; injection H as <-. rewrite perm_swap. constructor. now apply IH.
    + intros H; injection H as <-. reflexivity.
Qed.

Lemma sorted_Permutation (l r : list (list value)) :
  PySort.sorted l = Ok r -> Permutation l r.
Proof.
  revert r; induction l as [|x l IH]; intros r; simpl.
  - intros H; injection H as <-. constructor.
  - destruct (PySort.sorted l) as [s|e]; simpl; [|discriminate].
    intros H. apply insert_Permutation in H.
    transitivity (x :: s); [constructor; now apply IH | assumption].
Qed.

Lemma Forall2_In_r {A B : Type} (R : A -> B -> Prop) (xs : list A) (ys : list B) (y : B) :
  Forall2 R xs ys -> In y ys -> exists x, In x xs /\ R x y.
Proof.
  induction 1 as [|x y' xs ys Hxy _ IH]; simpl; [contradiction|].
  intros [->|Hin]; [eauto|]. destruct (IH Hin) as (x' & Hx' & HR); eauto.
Qed.

(** ** C2: the weekday column of heat_transform *)

(** C2.  For the row of Sunday 11 October 2020, the value heat_transform
    puts first in the output row is the text "6" and not the integer 6 that
    the comment on that line of the source ("days stored as 0-6 ints")
    announces. *)
Lemma heat_transform_weekday_is_text :
  exists r,
    heat_transform Dateutil.parse_dmy
      [ [Some "11 October 2020"; Some "5"; Some "12"] ] = Ok [r]
    /\ nth_error r 0 = Some (VStr "6")
    /\ nth_error r 0 <> Some (VInt 6).
Proof.
  exists [VStr "6"; VStr "2020-10-11"; VInt 5; VInt 12].
  repeat split; try reflexivity. discriminate.
Qed.

(** What does hold of the weekday column: every row heat_transform returns
    comes from an input row whose first cell parses to a date [d], and starts
    with the decimal text of [weekday d]; that number lies in [0,6], is what
    int() and the heatmap's astype(int) read back from the text, and follows
    the Monday = 0 convention: Monday 12 October 2020 has weekday 0, the
    Sunday before it weekday 6, and the weekday advances by one, modulo 7,
    from a day to the next day of the month. *)
Theorem heat_transform_weekday_text
        (parse : string -> result date)
        (rows : list (list cell)) (out : list (list value)) (r : list value) :
  heat_transform parse rows = Ok out -> In r out ->
  (exists row d rest,
      In row rows /\ row_date parse row = Ok d
      /\ r = VStr (PyInt.str (weekday d)) :: VStr (isoformat d) :: rest
      /\ 0 <= weekday d <= 6
      /\ PyInt.int (PyInt.str (weekday d)) = Some (weekday d)
      /\ Heatmap.astype_int (VStr (PyInt.str (weekday d))) = Ok (weekday d))
  /\ weekday (mkdate 2020 10 12) = 0
  /\ weekday (mkdate 2020 10 11) = 6
  /\ (forall y m dd,
         weekday (mkdate y m (dd + 1)) = (weekday (mkdate y m dd) + 1) mod 7).
Proof.
  intros H Hin. split; [|repeat split].
  - unfold heat_transform in H. apply bind_Ok_inv in H as (res & Hres & Hs).
    apply sorted_Permutation in Hs.
    apply (Permutation_in r (Permutation_sym Hs)) in Hin.
    apply mapM_Ok_Forall2 in Hres.
    destruct (Forall2_In_r _ _ _ _ Hres Hin) as (row & Hrow & Hr).
    apply heat_transform_row_Ok_inv in Hr as (d & ints & Hd & _ & ->).
    exists row, d, ints. pose proof (weekday_range d) as Hw.
    repeat split; try assumption; try lia.
    + now apply int_str_weekday.
    + now apply astype_int_weekday.
  - intros y m dd. unfold weekday, toordinal, ymd2ord; simpl.
    rewrite Zplus_mod_idemp_l. f_equal. ring.
Qed.

Lemma heat_transform_weekday_text_witness :
  (exists row d rest,
      In row [ [Some "11 October 2020"; Some "5"; Some "12"] ]
      /\ row_date Dateutil.parse_dmy row = Ok d
      /\ [VStr "6"; VStr "2020-10-11"; VInt 5; VInt 12]
         = VStr (PyInt.str (weekday d)) :: VStr (isoformat d) :: rest
      /\ 0 <= weekday d <= 6
      /\ PyInt.int (PyInt.str (weekday d)) = Some (weekday d)
      /\ Heatmap.astype_int (VStr (PyInt.str (weekday d))) = Ok (weekday d))
  /\ weekday (mkdate 2020 10 12) = 0
  /\ weekday (mkdate 2020 10 11) = 6
  /\ (forall y m dd,
         weekday (mkdate y m (dd + 1)) = (weekday (mkdate y m dd) + 1) mod 7).
Proof.
  apply (heat_transform_weekday_text Dateutil.parse_dmy
           [ [Some "11 October 2020"; Some "5"; Some "12"] ]
           [ [VStr "6"; VStr "2020-10-11"; VInt 5; VInt 12] ]).
  - reflexivity.
  - simpl. left. reflexivity.
Defined.

(** ** Reading an ISO date back *)

Lemma digit_value_digit_char (x : Z) :
  0 <= x < 10 -> PyInt.digit_value (digit_char x) = x.
Proof.
  intros H. unfold PyInt.digit_value. rewrite (N_of_digit_char _ H). lia.
Qed.

Lemma all_digits_zfill (w : nat) (n : Z) : PyInt.all_digits (zfill w n) = true.
Proof.
  induction w as [|w IH]; simpl; [reflexivity|].
  rewrite is_digit_digit_char by (apply Z.mod_pos_bound; lia). exact IH.
Qed.

Lemma decimal_value_zfill (w : nat) (n acc : Z) :
  decimal_value acc (zfill w n) = acc * 10 ^ Z.of_nat w + n mod 10 ^ Z.of_nat w.
Proof.
  revert acc; induction w as [|w IH]; intros acc.
  - simpl. rewrite Z.mod_1_r. lia.
  - cbn [zfill decimal_value]. rewrite IH.
    set (p := 10 ^ Z.of_nat w).
    assert (Hp : 0 < p) by (apply Z.pow_pos_nonneg; lia).
    replace (10 ^ Z.of_nat (S w)) with (p * 10)
      by (rewrite Nat2Z.inj_succ, Z.pow_succ_r by lia; subst p; ring).
    rewrite (Z.rem_mul_r n p 10) by lia.
    rewrite digit_value_digit_char by (apply Z.mod_pos_bound; lia). ring.
Qed.

Lemma int_zfill (w : nat) (n : Z) :
  0 <= n < 10 ^ Z.of_nat (S w) -> Z.of_nat (S w) <= PyInt.MAX_STR_DIGITS ->
  PyInt.int (zfill (S w) n) = Some n.
Proof.
  intros H Hw. rewrite int_purely_numeric.
  - rewrite decimal_value_zfill, Z.mod_small by assumption. reflexivity.
  - unfold PyInt.purely_numeric. rewrite all_digits_zfill. reflexivity.
  - now rewrite length_zfill.
Qed.

Lemma substring_prefix (n : nat) (a b : string) :
  String.length a = n -> substring 0 n (a ++ b) = a.
Proof. intros <-. apply substring_0_app. Qed.

Lemma substring_skip (k n m : nat) (a b : string) :
  String.length a = k -> substring (k + n) m (a ++ b) = substring n m b.
Proof. intros <-. induction a as [|c a IH]; simpl; [reflexivity | exact IH]. Qed.

Lemma substring_all (n : nat) (a : string) :
  String.length a = n -> substring 0 n a = a.
Proof. intros <-. induction a as [|c a IH]; simpl; [reflexivity | now rewrite IH]. Qed.

Lemma iso_fields_isoformat (d : date) :
  valid d -> iso_fields (isoformat d) = Some (year d, month d, day d).
Proof.
  intros (Hy & Hm & Hd).
  pose proof (days_in_month_le_31 (year d) (month d)).
  unfold iso_fields, isoformat.
  rewrite (substring_prefix 4) by apply length_zfill.
  rewrite (substring_skip 4 1 2), (substring_skip 4 4 2) by apply length_zfill.
  rewrite (substring_skip 1 0 2 "-"), (substring_skip 1 3 2 "-") by reflexivity.
  rewrite (substring_prefix 2) by apply length_zfill.
  rewrite (substring_skip 2 1 2) by apply length_zfill.
  rewrite (substring_skip 1 0 2 "-") by reflexivity.
  rewrite (substring_all 2) by apply length_zfill.
  rewrite !int_zfill; [reflexivity | ..];
    try (unfold PyInt.MAX_STR_DIGITS; lia);
    (change (10 ^ Z.of_nat 2) with 100 || change (10 ^ Z.of_nat 4) with 10000);
    lia.
Qed.

(** ** C4: what transform makes of a row *)

Lemma mapM_int_cell_values (rest : list cell) (zs : list Z) :
  Forall2 (fun c z => exists t, c = Some t /\ PyInt.int t = Some z) rest zs ->
  mapM int_cell rest = Ok (map VInt zs).
Proof.
  induction 1 as [|c z rest zs (t & -> & Ht) _ IH]; simpl; [reflexivity|].
  now rewrite Ht, IH.
Qed.

(** C4.  For a row whose first cell dateutil reads as the date [d] and whose
    other cells int() reads as the integers [zs], transform returns the row
    made of the ISO text of [d], which has the shape YYYY-MM-DD and reads
    back as the year, month and day of [d], followed by [zs]; a purely
    numeric cell of at most 4300 digits is read as its base-10 value, and a
    longer one is refused; in particular the row
    ["11 October 2020", "5", "12"] becomes ["2020-10-11", 5, 12]. *)
Theorem transform_converts_row
        (parse : string -> result date)
        (s : string) (rest : list cell) (d : date) (zs : list Z) :
  parse s = Ok d ->
  Forall2 (fun c z => exists t, c = Some t /\ PyInt.int t = Some z) rest zs ->
  transform_row parse (Some s :: rest) = Ok (VStr (isoformat d) :: map VInt zs)
  /\ transform parse [Some s :: rest] = Ok [VStr (isoformat d) :: map VInt zs]
  /\ iso_shape (isoformat d) = true
  /\ (valid d -> iso_fields (isoformat d) = Some (year d, month d, day d))
  /\ (forall t, PyInt.purely_numeric t = true ->
                Z.of_nat (String.length t) <= 4300 ->
                int_cell (Some t) = Ok (VInt (decimal_value 0 t)))
  /\ (forall t, PyInt.purely_numeric t = true ->
                4300 < Z.of_nat (String.length t) ->
                int_cell (Some t) = Raise ValueError)
  /\ (parse "11 October 2020" = Ok (mkdate 2020 10 11) ->
      transform parse [ [Some "11 October 2020"; Some "5"; Some "12"] ]
      = Ok [ [VStr "2020-10-11"; VInt 5; VInt 12] ]).
Proof.
  intros Hd Hz.
  assert (Hrow : transform_row parse (Some s :: rest)
                 = Ok (VStr (isoformat d) :: map VInt zs)).
  { apply transform_row_of_parts.
    - unfold row_date; simpl. now rewrite Hd.
    - simpl. now apply mapM_int_cell_values. }
  repeat split.
  - exact Hrow.
  - unfold transform. simpl mapM. rewrite Hrow. reflexivity.
  - apply iso_shape_isoformat.
  - apply iso_fields_isoformat.
  - intros t Ht Hlen. simpl. now rewrite (int_purely_numeric t Ht Hlen).
  - intros t Ht Hlen. simpl. rewrite int_too_long; [reflexivity|].
    unfold PyInt.purely_numeric in Ht. apply andb_true_iff in Ht as [_ Ht].
    rewrite (count_all_digits t Ht). exact Hlen.
  - intros H. unfold transform, transform_row. simpl. rewrite H. reflexivity.
Qed.

Lemma transform_converts_row_witness :
  transform_row Dateutil.parse_dmy [Some "11 October 2020"; Some "5"; Some "12"]
  = Ok [VStr "2020-10-11"; VInt 5; VInt 12]
  /\ transform Dateutil.parse_dmy [ [Some "11 October 2020"; Some "5"; Some "12"] ]
     = Ok [ [VStr "2020-10-11"; VInt 5; VInt 12] ].
Proof.
  destruct (transform_converts_row Dateutil.parse_dmy "11 October 2020"
              [Some "5"; Some "12"] (mkdate 2020 10 11) [5; 12])
    as (H1 & H2 & _ & _ & _ & _ & H5).
  - reflexivity.
  - constructor; [exists "5"; split; reflexivity|].
    constructor; [exists "12"; split; reflexivity|]. constructor.
  - split; [exact H1 | apply H5; reflexivity].
Defined.

(** ** C7: when transform fails with a format error *)

Lemma mapM_dichotomy {A B : Type} (f : A -> result B) (bad : A -> bool)
      (e : exn) (xs : list A) :
  Forall (fun x => if bad x then f x = Raise e else exists y, f x = Ok y) xs ->
  if existsb bad xs then mapM f xs = Raise e else exists ys, mapM f xs = Ok ys.
Proof.
  induction 1 as [|x xs Hx _ IH]; simpl; [eauto|].
  destruct (bad x); simpl.
  - now rewrite Hx.
  - destruct Hx as (y & ->). simpl.
    destruct (existsb bad xs).
    + now rewrite IH.
    + destruct IH as (ys & ->). simpl. eauto.
Qed.

Lemma mapM_Raise_inv {A B : Type} (f : A -> result B) (xs : list A) (e : exn) :
  mapM f xs = Raise e ->
  exists pre x post ys,
    xs = (pre ++ x :: post)%list /\ mapM f pre = Ok ys /\ f x = Raise e.
Proof.
  induction xs as [|x xs IH]; simpl; [discriminate|].
  destruct (f x) as [y|e'] eqn:Hx; simpl.
  - destruct (mapM f xs) as [ys|e'] eqn:Hxs; simpl; [discriminate|].
    intros H; injection H as ->.
    destruct (IH eq_refl) as (pre & x' & post & ys & -> & Hpre & Hx').
    exists (x :: pre), x', post, (y :: ys). simpl. now rewrite Hx, Hpre.
  - intros H; injection H as ->. now exists [], x, xs, [].
Qed.

Lemma int_cells_filled (rest : list cell) :
  text_row rest = true ->
  if existsb int_rejects rest then mapM int_cell rest = Raise ValueError
  else exists ints, mapM int_cell rest = Ok ints.
Proof.
  intros Ht. apply mapM_dichotomy. apply Forall_forall. intros [t|] Hin.
  - simpl. destruct (PyInt.int t); eauto.
  - unfold text_row in Ht. rewrite forallb_forall in Ht. now apply Ht in Hin.
Qed.

Lemma transform_row_filled (parse : string -> result date)
      (s : string) (rest : list cell) :
  text_row rest = true ->
  match parse s with
  | Raise e => transform_row parse (Some s :: rest) = Raise e
  | Ok d =>
      if existsb int_rejects rest
      then transform_row parse (Some s :: rest) = Raise ValueError
      else exists r, transform_row parse (Some s :: rest) = Ok r
  end.
Proof.
  intros Ht. apply int_cells_filled in Ht.
  unfold transform_row. cbn [getitem nth_error bind parse_cell skipn].
  destruct (parse s) as [d|e]; cbn [bind]; [|reflexivity].
  unfold cell in *. destruct (existsb _ rest).
  - now rewrite Ht.
  - destruct Ht as (ints & ->). simpl. eauto.
Qed.

Lemma transform_row_ValueError (parse : string -> result date) (row : list cell) :
  filled_row row = true -> transform_row parse row = Raise ValueError ->
  bad_cell_row parse row = true.
Proof.
  destruct row as [|[s|] rest]; try discriminate.
  unfold filled_row, text_row. cbn [forallb andb]. intros Ht H.
  pose proof (transform_row_filled parse s rest Ht) as C.
  unfold bad_cell_row. unfold cell in *. destruct (parse s) as [d|e].
  - destruct (existsb _ rest); [reflexivity|].
    destruct C as (r & C). congruence.
  - rewrite C in H. now injection H as ->.
Qed.

Lemma mapM_app_raise {A B : Type} (f : A -> result B) (pre post : list A)
      (x : A) (ys : list B) (e : exn) :
  mapM f pre = Ok ys -> f x = Raise e -> mapM f (pre ++ x :: post) = Raise e.
Proof.
  revert ys; induction pre as [|a pre IH]; intros ys; simpl.
  - intros _ ->. reflexivity.
  - intros H Hx. apply bind_Ok_inv in H as (b & -> & H).
    apply bind_Ok_inv in H as (ys' & Hys & _). simpl.
    now rewrite (IH _ Hys Hx).
Qed.

Lemma transform_raise_at (parse : string -> result date)
      (pre post : list (list cell)) (row : list cell)
      (res : list (list value)) (e : exn) :
  mapM (transform_row parse) pre = Ok res ->
  transform_row parse row = Raise e ->
  transform parse (pre ++ row :: post) = Raise e.
Proof.
  intros Hpre Hrow. unfold transform.
  now rewrite (mapM_app_raise _ pre post row res e Hpre Hrow).
Qed.

Lemma transform_row_bad (parse : string -> result date) (row : list cell) :
  filled_row row = true -> bad_cell_row parse row = true ->
  transform_row parse row = Raise ValueError.
Proof.
  destruct row as [|[s|] rest]; try discriminate.
  unfold filled_row, text_row. cbn [forallb andb]. intros Ht.
  pose proof (transform_row_filled parse s rest Ht) as C.
  unfold bad_cell_row. unfold cell in *. destruct (parse s) as [d|e].
  - intros E. now rewrite E in C.
  - destruct e; try discriminate. intros _. exact C.
Qed.

Lemma transform_row_dichotomy (parse : string -> result date) (row : list cell) :
  filled_row row = true ->
  (forall s rest e, row = Some s :: rest -> parse s = Raise e -> e = ValueError) ->
  if bad_cell_row parse row then transform_row parse row = Raise ValueError
  else exists r, transform_row parse row = Ok r.
Proof.
  destruct row as [|[s|] rest]; try discriminate.
  unfold filled_row, text_row. cbn [forallb andb]. intros Ht Honly.
  pose proof (transform_row_filled parse s rest Ht) as C.
  unfold bad_cell_row. unfold cell in *.
  destruct (parse s) as [d|e] eqn:E; [exact C|].
  rewrite (Honly s rest e eq_refl E) in *. exact C.
Qed.

Lemma transform_rows_return (parse : string -> result date)
      (rows : list (list cell)) (res : list (list value)) :
  mapM (transform_row parse) rows = Ok res ->
  exists out, transform parse rows = Ok out.
Proof.
  intros Hres.
  assert (Hsh : Forall (fun r => shaped 1 r = true) res).
  { apply mapM_Ok_Forall2 in Hres. apply Forall_forall. intros r Hr.
    destruct (Forall2_In_r _ _ _ _ Hres Hr) as (row & _ & Hrow).
    apply transform_row_Ok_inv in Hrow as (d & ints & _ & Hi & ->).
    simpl. now apply (mapM_int_cell_shaped _ _ Hi). }
  destruct (sorted_total 1 res Hsh) as (out & Hout & _).
  exists out. unfold transform. now rewrite Hres.
Qed.




(** ** C3: validate drops the header rows and nothing else *)

Lemma validate_drop_header (pre post : list (list cell)) (row : list cell) :
  header_row row = true ->
  validate (pre ++ row :: post) = validate (pre ++ post).
Proof.
  intros H. induction pre as [|r pre IH]; simpl.
  - rewrite (validate_row_header row H). simpl. now destruct (validate post).
  - now rewrite IH.
Qed.

Lemma validate_row_AssertionError (row : list cell) :
  day_row row = true ->
  (validate_row row = Raise AssertionError <->
   exists a b rest,
     row = Some a :: Some b :: rest
     /\ (contains "New staff" b = false
         \/ exists c rest', rest = Some c :: rest'
                            /\ contains "New student" c = false)).
Proof.
  destruct row as [|[a|] row]; try discriminate.
  unfold day_row, cell_contains. intros Ha.
  unfold validate_row. cbn [getitem nth_error bind contains_cell]. rewrite Ha.
  destruct row as [|[b|] row]; cbn [getitem nth_error bind contains_cell].
  - split; [discriminate | intros (? & ? & ? & E & _); discriminate].
  - destruct (contains "New staff" b) eqn:Hb; cbn [assert bind].
    + destruct row as [|[c|] row]; cbn [getitem nth_error bind contains_cell].
      * split; [discriminate|].
        intros (? & ? & ? & E & [Hn|(? & ? & E' & _)]); injection E as <- <- <-;
          [congruence | discriminate].
      * destruct (contains "New student" c) eqn:Hc; cbn [assert bind].
        -- split; [discriminate|].
           intros (? & ? & ? & E & [Hn|(? & ? & E' & Hn)]);
             injection E as <- <- <-; [congruence|].
           injection E' as <- <-. congruence.
        -- split; [|reflexivity]. intros _.
           exists a, b, (Some c :: row). split; [reflexivity|].
           right. now exists c, row.
      * split; [discriminate|].
        intros (? & ? & ? & E & [Hn|(? & ? & E' & _)]); injection E as <- <- <-;
          [congruence | discriminate].
    + split; [|reflexivity]. intros _.
      exists a, b, row. split; [reflexivity | now left].
  - split; [discriminate | intros (? & ? & ? & E & _); discriminate].
Qed.

(** C3, the claim as stated fails: a row with "Day" in its first cell whose
    third cell holds no label at all, being [None] or missing, does not make
    validate raise the assertion error but a TypeError or an IndexError. *)
Lemma validate_header_without_third_label :
  day_row [Some "Day"; Some "New staff cases"; None] = true
  /\ cell_contains "New student" None = false
  /\ validate [ [Some "Day"; Some "New staff cases"; None] ] = Raise TypeError
  /\ validate [ [Some "Day"; Some "New staff cases"; None] ]
     <> Raise AssertionError
  /\ day_row [Some "Day"; Some "New staff cases"] = true
  /\ nth_error [Some "Day"; Some "New staff cases"] 2 = None
  /\ validate [ [Some "Day"; Some "New staff cases"] ] = Raise IndexError
  /\ validate [ [Some "Day"; Some "New staff cases"] ] <> Raise AssertionError.
Proof. repeat split; try reflexivity; discriminate. Qed.

(** C3, amended.  validate returns a table exactly when every row is a
    header row ("Day" in the first cell, "New staff" in the second,
    "New student" in the third) or a data row, and the table it returns is
    made of the rows that are not header rows, in order, each with its
    asterisks stripped; no returned row has "Day" in its first cell, and a
    header row counts for nothing in the result.  A row with "Day" in its
    first cell makes validate raise the assertion error exactly when its
    second cell is a string without "New staff", whatever follows, or its
    second cell is a string with "New staff" and its third cell a string
    without "New student"; after rows that validate accepts such a row
    makes the whole call raise it.  A cell contains a label when the label
    occurs somewhere inside it. *)
Theorem validate_drops_header_rows (table : list (list cell)) :
  (forall out,
      validate table = Ok out <->
      Forall (fun row => header_row row = true \/ data_row row = true) table
      /\ out = map strip_row (filter (fun row => negb (header_row row)) table))
  /\ (forall out,
      validate table = Ok out ->
      Forall (fun row => day_row row = false /\ header_row row = false) out)
  /\ (forall pre row post,
      table = (pre ++ row :: post)%list -> header_row row = true ->
      validate table = validate (pre ++ post))
  /\ (forall row,
      day_row row = true ->
      (validate [row] = Raise AssertionError <->
       exists a b rest,
         row = Some a :: Some b :: rest
         /\ (contains "New staff" b = false
             \/ exists c rest', rest = Some c :: rest'
                                /\ contains "New student" c = false)))
  /\ (forall pre v row post,
      table = (pre ++ row :: post)%list -> validate pre = Ok v ->
      validate [row] = Raise AssertionError ->
      validate table = Raise AssertionError)
  /\ (forall sub s,
      contains sub s = true <-> exists pre post, s = pre ++ sub ++ post).
Proof.
  assert (One : forall row e, validate [row] = Raise e <-> validate_row row = Raise e).
  { intros row e. simpl. destruct (validate_row row) as [r|e']; simpl.
    - split; discriminate.
    - split; intros E; injection E as ->; reflexivity. }
  split; [|split; [|split; [|split; [|split]]]]; [| | | | |exact contains_iff].
  - intros out. apply validate_Ok_iff.
  - intros out H. apply validate_output_rows in H.
    apply Forall_forall. intros row Hin. rewrite Forall_forall in H.
    specialize (H row Hin). split; [|now apply data_row_not_header].
    destruct row as [|c0 row]; [reflexivity|].
    unfold data_row in H. apply andb_true_iff in H as [_ H].
    now apply negb_true_iff in H.
  - intros pre row post -> H. now apply validate_drop_header.
  - intros row Hd. rewrite One. now apply validate_row_AssertionError.
  - intros pre v row post -> Hpre H. apply One in H.
    now apply (validate_raise_at pre post row v).
Qed.

Lemma validate_drops_header_rows_witness :
  validate [ [Some "Day"; Some "New staff cases"; Some "New student cases"];
             [Some "11 October 2020*"; Some "5*"; Some "12"] ]
  = Ok [ [Some "11 October 2020"; Some "5"; Some "12"] ]
  /\ validate [ [Some "Day"; Some "Foo"] ] = Raise AssertionError
  /\ validate [ [Some "11 October 2020*"; Some "5*"; Some "12"];
                [Some "Day"; Some "New staff cases"; Some "Bar"] ]
     = Raise AssertionError.
Proof.
  split; [|split].
  - apply (validate_drops_header_rows
             [ [Some "Day"; Some "New staff cases"; Some "New student cases"];
               [Some "11 October 2020*"; Some "5*"; Some "12"] ]).
    split; [|reflexivity].
    constructor; [left; reflexivity|].
    constructor; [right; reflexivity | constructor].
  - apply (validate_drops_header_rows []); [reflexivity|].
    exists "Day", "Foo", []. split; [reflexivity | now left].
  - apply (proj1 (proj2 (proj2 (proj2 (proj2 (validate_drops_header_rows
             [ [Some "11 October 2020*"; Some "5*"; Some "12"];
               [Some "Day"; Some "New staff cases"; Some "Bar"] ])))))
             [ [Some "11 October 2020*"; Some "5*"; Some "12"] ]
             [ [Some "11 October 2020"; Some "5"; Some "12"] ]
             [Some "Day"; Some "New staff cases"; Some "Bar"] []).
    + reflexivity.
    + reflexivity.
    + apply (validate_drops_header_rows []); [reflexivity|].
      exists "Day", "New staff cases", [Some "Bar"]. split; [reflexivity|].
      right. now exists "Bar", [].
Defined.

(** ** C6: validate strips one trailing asterisk *)

Lemma stripped_strip_string (s : string) : stripped (Some s) (Some (strip_string s)).
Proof.
  exists s, (strip_string s). repeat split.
  pose proof (strip_string_spec s) as H.
  destruct (endswith "*" s) eqn:E; [now left | right].
  split; [|assumption]. intros t ->.
  assert (E' : endswith "*" (t ++ "*") = true) by (apply endswith_star_iff; eauto).
  congruence.
Qed.

Lemma stripped_strip_row (row : list cell) :
  text_row row = true -> Forall2 stripped row (strip_row row).
Proof.
  unfold text_row. induction row as [|[s|] row IH]; simpl; intros H;
    [constructor | | discriminate].
  constructor; [apply stripped_strip_string | now apply IH].
Qed.

(** C6.  In the table validate returns, the rows answer one by one to the
    rows of the input that are not header rows, and the cells of each answer
    one by one to the cells of the input row: a cell that ends in an asterisk
    comes back without that one last character, so that putting the asterisk
    back gives the input cell, and a cell that does not end in an asterisk
    comes back as it was.  A data row on its own is always accepted. *)
Theorem validate_strips_one_asterisk (table : list (list cell)) :
  (forall out,
      validate table = Ok out ->
      Forall2 (Forall2 stripped)
              (filter (fun row => negb (header_row row)) table) out)
  /\ (forall row,
      data_row row = true ->
      exists row', validate [row] = Ok [row'] /\ Forall2 stripped row row').
Proof.
  split.
  - intros out H. apply validate_Ok_iff in H as [Hall ->].
    induction Hall as [|row table Hrow _ IH]; simpl; [constructor|].
    destruct Hrow as [Hh|Hd].
    + rewrite Hh. exact IH.
    + rewrite (data_row_not_header _ Hd). simpl. constructor; [|exact IH].
      apply stripped_strip_row. destruct row; [discriminate|].
      unfold data_row in Hd. now apply andb_true_iff in Hd as [Hd _].
  - intros row Hd. exists (strip_row row). split.
    + simpl. now rewrite (validate_row_data _ Hd).
    + apply stripped_strip_row. destruct row; [discriminate|].
      unfold data_row in Hd. now apply andb_true_iff in Hd as [Hd _].
Qed.

Lemma validate_strips_one_asterisk_witness :
  Forall2 (Forall2 stripped)
          [ [Some "11 October 2020*"; Some "5**"; Some "1*2"] ]
          [ [Some "11 October 2020"; Some "5*"; Some "1*2"] ].
Proof.
  apply (proj1 (validate_strips_one_asterisk
                  [ [Some "Day"; Some "New staff cases"; Some "New student cases"];
                    [Some "11 October 2020*"; Some "5**"; Some "1*2"] ])).
  reflexivity.
Defined.

(** ** C10: rows validate is not written for *)

(** C10, the claim as stated fails twice: a header row with a [None] cell
    after its three labels is dropped without any error, and a two-cell "Day"
    row whose second cell lacks "New staff" raises the assertion error, not
    an IndexError. *)
Lemma validate_none_cell_unnoticed :
  In None [Some "Day"; Some "New staff cases"; Some "New student cases"; None]
  /\ validate [ [Some "Day"; Some "New staff cases"; Some "New student cases"; None] ]
     = Ok []
  /\ day_row [Some "Day"; Some "Foo"] = true
  /\ (List.length [Some "Day"; Some "Foo"] < 3)%nat
  /\ validate [ [Some "Day"; Some "Foo"] ] = Raise AssertionError.
Proof.
  repeat split; try reflexivity.
  - simpl. tauto.
  - simpl. lia.
Qed.

(** C10, amended.  After rows that validate accepts, the first row that
    follows makes it raise
    - an IndexError when the row is empty, or has "Day" in its first cell and
      either no second cell or a second cell with "New staff" and no third;
    - a TypeError when its first cell is [None], or when it has "Day" in its
      first cell and its second cell is [None], or its second cell has
      "New staff" and its third is [None];
    - an AttributeError when its first cell is a string without "Day" and a
      later cell is [None];
    and none of these is the assertion error.  extract does produce [None]
    for a cell element without text. *)
Theorem validate_malformed_rows
        (pre post v : list (list cell)) (Hpre : validate pre = Ok v) :
  validate (pre ++ [] :: post) = Raise IndexError
  /\ (forall s, contains "Day" s = true ->
        validate (pre ++ [Some s] :: post) = Raise IndexError)
  /\ (forall s t, contains "Day" s = true -> contains "New staff" t = true ->
        validate (pre ++ [Some s; Some t] :: post) = Raise IndexError)
  /\ (forall rest, validate (pre ++ (None :: rest) :: post) = Raise TypeError)
  /\ (forall s rest, contains "Day" s = true ->
        validate (pre ++ (Some s :: None :: rest) :: post) = Raise TypeError)
  /\ (forall s t rest, contains "Day" s = true -> contains "New staff" t = true ->
        validate (pre ++ (Some s :: Some t :: None :: rest) :: post)
        = Raise TypeError)
  /\ (forall s rest, contains "Day" s = false -> In None rest ->
        validate (pre ++ (Some s :: rest) :: post) = Raise AttributeError)
  /\ extract (Element "table" None
                [Element "tr" None
                   [Element "td" (Some "11 October 2020") [];
                    Element "td" None []]])
     = [ [Some "11 October 2020"; None] ].
Proof.
  repeat split.
  - now apply (validate_raise_at pre post _ v).
  - intros s Hs. apply (validate_raise_at pre post _ v); [assumption|].
    unfold validate_row; simpl. now rewrite Hs.
  - intros s t Hs Ht. apply (validate_raise_at pre post _ v); [assumption|].
    unfold validate_row; simpl. now rewrite Hs, Ht.
  - intros rest. now apply (validate_raise_at pre post _ v).
  - intros s rest Hs. apply (validate_raise_at pre post _ v); [assumption|].
    unfold validate_row; simpl. now rewrite Hs.
  - intros s t rest Hs Ht. apply (validate_raise_at pre post _ v); [assumption|].
    unfold validate_row; simpl. now rewrite Hs, Ht.
  - intros s rest Hs Hin. apply (validate_raise_at pre post _ v); [assumption|].
    unfold validate_row. cbn [getitem nth_error bind contains_cell]. rewrite Hs.
    rewrite (mapM_strip_None (Some s :: rest)); [reflexivity | now right].
Qed.

Lemma validate_malformed_rows_witness :
  validate [ [Some "11 October 2020"; Some "5"; Some "12"];
             [Some "12 October 2020"; None; Some "3"] ]
  = Raise AttributeError.
Proof.
  apply (validate_malformed_rows
           [ [Some "11 October 2020"; Some "5"; Some "12"] ] []
           [ [Some "11 October 2020"; Some "5"; Some "12"] ] eq_refl).
  - reflexivity.
  - simpl. left. reflexivity.
Defined.

(** ** C1: fetch and the status of the response *)

(** C1.  fetch raises when the request cannot complete, but it never looks
    at the status code: for a 404 response it returns the DOM parsed from the
    body of the error page, where the request of gov_data.py raises. *)
Theorem fetch_ignores_status
        (html5lib_parse : string -> element) (status_code : Z) (text : string) :
  fetch html5lib_parse Unreachable = Raise ConnectionError
  /\ fetch html5lib_parse (Response status_code text) = Ok (html5lib_parse text)
  /\ fetch html5lib_parse (Response 404 "<html>Not Found</html>")
     = Ok (html5lib_parse "<html>Not Found</html>")
  /\ gov_data_request (Response 404 "<html>Not Found</html>") = Raise RuntimeError.
Proof. repeat split. Qed.

(** ** C9: the grid of the heatmap *)

Lemma bincount_length (x weights s : list Z) :
  Heatmap.bincount x weights = Ok s ->
  List.length s = Z.to_nat (fold_right Z.max (-1) x + 1).
Proof.
  unfold Heatmap.bincount. destruct (existsb _ x); [discriminate|].
  intros H; injection H as <-. now rewrite length_map, length_seq.
Qed.

Lemma bincount_nth (x weights s : list Z) (j : nat) :
  Heatmap.bincount x weights = Ok s ->
  (j < List.length s)%nat ->
  nth_error s j = Some (Heatmap.bucket_sum 0 (Z.of_nat j) x weights).
Proof.
  unfold Heatmap.bincount. destruct (existsb _ x); [discriminate|].
  intros H; injection H as <-. rewrite length_map, length_seq. intros Hj.
  rewrite nth_error_map, nth_error_seq.
  destruct (Nat.ltb_spec j (Z.to_nat (fold_right Z.max (-1) x + 1))); [|lia].
  reflexivity.
Qed.

Lemma plotarray_columns (heatdata : list (list value)) (a : list (list Z)) :
  Heatmap.plotarray heatdata = Ok a ->
  exists days studentvals staffvals,
    Heatmap.column 0 heatdata = Ok days
    /\ Heatmap.column 3 heatdata = Ok studentvals
    /\ Heatmap.column 2 heatdata = Ok staffvals
    /\ let n := Z.to_nat (fold_right Z.max (-1) days + 1) in
       a = [ map (fun j => Heatmap.bucket_sum 0 (Z.of_nat j) days studentvals)
                 (seq 0 n);
             map (fun j => Heatmap.bucket_sum 0 (Z.of_nat j) days staffvals)
                 (seq 0 n) ].
Proof.
  unfold Heatmap.plotarray. intros H.
  apply bind_Ok_inv in H as (_ & _ & H).
  apply bind_Ok_inv in H as (days & Hdays & H).
  apply bind_Ok_inv in H as (studentvals & Hst & H).
  apply bind_Ok_inv in H as (staffvals & Hsf & H).
  apply bind_Ok_inv in H as (studentsums & Hss & H).
  apply bind_Ok_inv in H as (staffsums & Hfs & H). injection H as <-.
  exists days, studentvals, staffvals. repeat split; try assumption.
  unfold Heatmap.bincount in Hss, Hfs.
  destruct (existsb _ days); [discriminate|].
  injection Hss as <-. injection Hfs as <-. reflexivity.
Qed.

Lemma create_heatmap_narrow (heatdata : list (list value)) (s t : list Z) :
  Heatmap.plotarray heatdata = Ok [s; t] ->
  (List.length s < 7)%nat ->
  Heatmap.create_heatmap heatdata = Raise IndexError.
Proof.
  intros H Hlen. unfold Heatmap.create_heatmap. rewrite H.
  destruct s as [|? [|? [|? [|? [|? [|? [|? s]]]]]]]; try reflexivity.
  simpl in Hlen. lia.
Qed.

Lemma create_heatmap_seven (heatdata : list (list value)) (s t : list Z) :
  Heatmap.plotarray heatdata = Ok [s; t] ->
  List.length s = 7%nat -> List.length t = 7%nat ->
  Heatmap.create_heatmap heatdata = Ok [s; t].
Proof.
  intros H Hs Ht. unfold Heatmap.create_heatmap. rewrite H.
  destruct s as [|? [|? [|? [|? [|? [|? [|? [|? s]]]]]]]]; try discriminate.
  destruct t as [|? [|? [|? [|? [|? [|? [|? [|? t]]]]]]]]; try discriminate.
  reflexivity.
Qed.

(** C9.  For records of a Monday and a Tuesday only, the aggregation has
    two columns, not seven: each of them is the sum of the student counts
    (first row) or staff counts (second row) of that weekday, there is no
    column for the weekdays after the last one that occurs, and the
    annotation loop, which reads seven columns, raises an IndexError. *)
Theorem create_heatmap_short_week :
  Heatmap.plotarray
    [ [VStr "0"; VStr "2020-10-12"; VInt 7; VInt 3];
      [VStr "0"; VStr "2020-10-19"; VInt 1; VInt 2];
      [VStr "1"; VStr "2020-10-13"; VInt 4; VInt 6] ]
  = Ok [ [5; 6]; [8; 4] ]
  /\ Heatmap.create_heatmap
       [ [VStr "0"; VStr "2020-10-12"; VInt 7; VInt 3];
         [VStr "0"; VStr "2020-10-19"; VInt 1; VInt 2];
         [VStr "1"; VStr "2020-10-13"; VInt 4; VInt 6] ]
     = Raise IndexError.
Proof. split; reflexivity. Qed.

(** * Further properties of the code *)

(** ** validate: what it returns and how it composes *)

Lemma data_row_filled (row : list cell) :
  data_row row = true -> filled_row row = true /\ day_row row = false.
Proof.
  destruct row as [|c row]; [discriminate|]. unfold data_row, filled_row.
  intros H; apply andb_true_iff in H as [Ht Hd].
  now apply negb_true_iff in Hd.
Qed.

Lemma filter_data_rows (out : list (list cell)) :
  Forall (fun row => data_row row = true) out ->
  filter (fun row => negb (header_row row)) out = out.
Proof.
  induction 1 as [|row out H _ IH]; simpl; [reflexivity|].
  now rewrite (data_row_not_header _ H), IH.
Qed.

(** X1.  A table returned by validate has no empty row, no [None] cell and
    no "Day" in a first cell, and validate accepts it again, stripping one
    more asterisk from the cells that still end in one. *)
Theorem validate_accepts_its_output (table out : list (list cell)) :
  validate table = Ok out ->
  Forall (fun row => filled_row row = true /\ day_row row = false) out
  /\ validate out = Ok (map strip_row out).
Proof.
  intros H. apply validate_output_rows in H. split.
  - apply Forall_forall. intros row Hin. rewrite Forall_forall in H.
    now apply data_row_filled, H.
  - apply validate_Ok_iff. split.
    + apply Forall_forall. intros row Hin. rewrite Forall_forall in H.
      right. now apply H.
    + now rewrite (filter_data_rows out H).
Qed.

Lemma validate_accepts_its_output_witness :
  Forall (fun row => filled_row row = true /\ day_row row = false)
         [ [Some "11 October 2020"; Some "5*"] ]
  /\ validate [ [Some "11 October 2020"; Some "5*"] ]
     = Ok (map strip_row [ [Some "11 October 2020"; Some "5*"] ]).
Proof.
  apply (validate_accepts_its_output
           [ [Some "Day"; Some "New staff"; Some "New student"];
             [Some "11 October 2020*"; Some "5**"] ]).
  reflexivity.
Defined.

Lemma strip_string_fixed (s : string) :
  strip_string s = s <-> endswith "*" s = false.
Proof.
  pose proof (strip_string_spec s) as H.
  destruct (endswith "*" s) eqn:E; split; try congruence; try discriminate.
  intros Heq. rewrite Heq in H.
  apply (f_equal String.length) in H. rewrite length_snoc in H. lia.
Qed.

Lemma strip_row_fixed (row : list cell) :
  strip_row row = row <-> star_free_row row = true.
Proof.
  unfold strip_row, star_free_row.
  induction row as [|[s|] row IH]; simpl.
  - tauto.
  - rewrite andb_true_iff, negb_true_iff, <- IH, <- strip_string_fixed.
    split.
    + intros H; injection H as H1 H2. auto.
    + intros [-> ->]. reflexivity.
  - rewrite <- IH. split.
    + intros H; now injection H as H.
    + intros ->. reflexivity.
Qed.

(** X2.  validate leaves a table of its own unchanged exactly when none of
    its cells ends in an asterisk any more: a cell with two trailing
    asterisks needs two passes. *)
Theorem validate_idempotent_iff (table out : list (list cell)) :
  validate table = Ok out ->
  (validate out = Ok out <-> Forall (fun row => star_free_row row = true) out).
Proof.
  intros H. apply validate_output_rows in H.
  assert (Hv : validate out = Ok (map strip_row out)).
  { apply validate_Ok_iff. split.
    - apply Forall_forall. intros row Hin. rewrite Forall_forall in H.
      right. now apply H.
    - now rewrite (filter_data_rows out H). }
  rewrite Hv. clear. split.
  - intros E. injection E as E. induction out as [|row out IH]; constructor.
    + apply strip_row_fixed. simpl in E. now injection E.
    + apply IH. simpl in E. now injection E.
  - intros F. f_equal. induction F as [|row out Hr _ IH]; simpl; [reflexivity|].
    apply strip_row_fixed in Hr. now rewrite Hr, IH.
Qed.

Lemma validate_idempotent_iff_witness :
  validate [ [Some "11 October 2020"; Some "5"] ]
  = Ok [ [Some "11 October 2020"; Some "5"] ].
Proof.
  apply (validate_idempotent_iff
           [ [Some "Day"; Some "New staff"; Some "New student"];
             [Some "11 October 2020*"; Some "5*"] ]).
  - reflexivity.
  - repeat constructor.
Defined.

(** X3.  validate works row by row: on two tables put end to end it gives
    the two results put end to end, and the first table's exception when it
    has one, whatever the second table holds. *)
Theorem validate_concat (t1 t2 : list (list cell)) :
  validate (t1 ++ t2)
  = (v1 <- validate t1 ;; v2 <- validate t2 ;; Ok (v1 ++ v2)%list).
Proof.
  induction t1 as [|row t1 IH]; simpl.
  - now destruct (validate t2).
  - destruct (validate_row row) as [r|e]; simpl; [|reflexivity].
    rewrite IH. destruct (validate t1) as [v1|e]; simpl; [|reflexivity].
    destruct (validate t2) as [v2|e]; simpl; [|reflexivity].
    now destruct r.
Qed.

(** X4.  validate neither adds nor reorders rows: the rows it returns are
    as many as the rows that are not header rows, and each has as many cells
    as the row it comes from. *)
Theorem validate_keeps_counts (table out : list (list cell)) :
  validate table = Ok out ->
  (List.length out + List.length (filter header_row table)
   = List.length table)%nat
  /\ map (@List.length cell) out
     = map (@List.length cell) (filter (fun row => negb (header_row row)) table).
Proof.
  intros H. apply validate_Ok_iff in H as [_ ->]. split.
  - rewrite length_map, Nat.add_comm. apply filter_length.
  - rewrite map_map. apply map_ext. intros row. unfold strip_row.
    apply length_map.
Qed.

Lemma validate_keeps_counts_witness :
  (List.length [ [Some "11 October 2020"; Some "5"] ]
   + List.length (filter header_row
       [ [Some "Day"; Some "New staff"; Some "New student"];
         [Some "11 October 2020*"; Some "5*"] ])
   = List.length
       [ [Some "Day"; Some "New staff"; Some "New student"];
         [Some "11 October 2020*"; Some "5*"] ])%nat
  /\ map (@List.length cell) [ [Some "11 October 2020"; Some "5"] ]
     = map (@List.length cell)
         (filter (fun row => negb (header_row row))
            [ [Some "Day"; Some "New staff"; Some "New student"];
              [Some "11 October 2020*"; Some "5*"] ]).
Proof.
  apply (validate_keeps_counts
           [ [Some "Day"; Some "New staff"; Some "New student"];
             [Some "11 October 2020*"; Some "5*"] ]).
  reflexivity.
Defined.

(** ** int() and str() *)

Lemma is_space_int_char (c : ascii) : PyInt.is_space c = true -> int_char c = true.
Proof. unfold int_char. now intros ->. Qed.

Lemma is_digit_int_char (c : ascii) : PyInt.is_digit c = true -> int_char c = true.
Proof. unfold int_char. intros ->. now rewrite orb_true_r. Qed.

Lemma all_space_chars (s : string) :
  PyInt.all_space s = true -> Forall (fun c => int_char c = true) (chars s).
Proof.
  induction s as [|c s IH]; simpl; [constructor|].
  intros H; apply andb_true_iff in H as [Hc Hs].
  constructor; [now apply is_space_int_char | now apply IH].
Qed.

Lemma scan_digits_chars (s : string) :
  forall acc p z, PyInt.scan_digits acc p s = Some z ->
  Forall (fun c => int_char c = true) (chars s).
Proof.
  induction s as [|c s IH]; intros acc p z; [constructor|].
  cbn [PyInt.scan_digits].
  destruct (PyInt.is_digit c) eqn:Hd.
  - intros H. constructor; [now apply is_digit_int_char | eapply IH; eauto].
  - destruct (Ascii.eqb c "_") eqn:Hu.
    + destruct p; try discriminate. intros H. constructor; [|eapply IH; eauto].
      unfold int_char. rewrite Hu. now rewrite !orb_true_r.
    + destruct p; try discriminate.
      destruct (PyInt.all_space (String c s)) eqn:Hs; [|discriminate].
      intros _. now apply all_space_chars.
Qed.

Lemma lstrip_chars (s : string) :
  Forall (fun c => int_char c = true) (chars (PyInt.lstrip s)) ->
  Forall (fun c => int_char c = true) (chars s).
Proof.
  induction s as [|c s IH]; simpl; [trivial|].
  destruct (PyInt.is_space c) eqn:Hc; [|trivial].
  intros H. constructor; [now apply is_space_int_char | now apply IH].
Qed.

Lemma int_chars (s : string) (z : Z) :
  PyInt.int s = Some z -> Forall (fun c => int_char c = true) (chars s).
Proof.
  intros H. apply int_Some_inv in H as [H _]. revert H.
  rewrite literal_cases. intros H. apply lstrip_chars.
  destruct (PyInt.lstrip s) as [|c t]; [discriminate|].
  destruct (Ascii.eqb c "+") eqn:E1.
  - constructor; [|eapply scan_digits_chars; eauto].
    unfold int_char. rewrite E1. now rewrite !orb_true_r.
  - destruct (Ascii.eqb c "-") eqn:E2.
    + constructor.
      * unfold int_char. rewrite E2. now rewrite !orb_true_r.
      * destruct (PyInt.scan_digits 0 PyInt.Start t) eqn:E; [|discriminate].
        eapply scan_digits_chars; eauto.
    + eapply scan_digits_chars; eauto.
Qed.

(** X5.  transform returns only if every cell after the first, in every
    row, is a string made of digits, underscores, signs and whitespace: a
    cell that keeps an asterisk or any other character makes it raise. *)
Theorem transform_value_cells_alphabet
        (parse : string -> result date)
        (rows : list (list cell)) (out : list (list value)) :
  transform parse rows = Ok out ->
  Forall (fun row =>
            Forall (fun c => exists t, c = Some t
                       /\ Forall (fun a => int_char a = true) (chars t))
                   (skipn 1 row)) rows.
Proof.
  unfold transform. intros H. apply bind_Ok_inv in H as (res & Hres & _).
  apply mapM_Ok_Forall2 in Hres.
  induction Hres as [|row r rows res Hrow _ IH]; constructor; [|exact IH].
  apply transform_row_Ok_inv in Hrow as (d & ints & _ & Hi & _).
  apply mapM_Ok_Forall2 in Hi. unfold cell in *. revert Hi.
  generalize (skipn 1 row). clear. intros cells Hi.
  induction Hi as [|c v cs vs Hc _ IH]; constructor; [|exact IH].
  destruct c as [t|]; simpl in Hc; [|discriminate].
  destruct (PyInt.int t) as [z|] eqn:E; [|discriminate].
  exists t. split; [reflexivity | now apply (int_chars t z)].
Qed.

Lemma transform_value_cells_alphabet_witness :
  Forall (fun row =>
            Forall (fun c => exists t, c = Some t
                       /\ Forall (fun a => int_char a = true) (chars t))
                   (skipn 1 row))
         [ [Some "11 October 2020"; Some " -1_000 "] ].
Proof.
  apply (transform_value_cells_alphabet Dateutil.parse_dmy
           [ [Some "11 October 2020"; Some " -1_000 "] ]
           [ [VStr "2020-10-11"; VInt (-1000)] ]).
  reflexivity.
Defined.

Lemma all_digits_string_of_uint (d : uint) :
  PyInt.all_digits (NilEmpty.string_of_uint d) = true.
Proof. induction d; simpl; trivial. Qed.

Lemma decimal_value_of_uint_acc (d : uint) (p : positive) :
  decimal_value (Z.pos p) (NilEmpty.string_of_uint d)
  = Z.pos (Pos.of_uint_acc d p).
Proof.
  revert p; induction d; intros p; cbn [NilEmpty.string_of_uint decimal_value
                                        Pos.of_uint_acc];
    try reflexivity;
    rewrite <- IHd; f_equal;
    rewrite ?Pos2Z.inj_add, ?Pos2Z.inj_mul;
    match goal with
    | |- context [PyInt.digit_value ?c] =>
        let v := eval vm_compute in (PyInt.digit_value c) in
        change (PyInt.digit_value c) with v
    end; lia.
Qed.

Lemma decimal_value_of_uint (d : uint) :
  decimal_value 0 (NilEmpty.string_of_uint d) = Z.of_N (Pos.of_uint d).
Proof.
  induction d; cbn [NilEmpty.string_of_uint decimal_value Pos.of_uint];
    try reflexivity;
    [exact IHd | ..];
    cbn [Z.of_N]; rewrite <- decimal_value_of_uint_acc; f_equal.
Qed.

Lemma int_string_of_to_uint (p : positive) :
  NilEmpty.string_of_uint (Pos.to_uint p) <> EmptyString
  /\ PyInt.scan_digits 0 PyInt.Start (NilEmpty.string_of_uint (Pos.to_uint p))
     = Some (Z.pos p).
Proof.
  assert (Hne : NilEmpty.string_of_uint (Pos.to_uint p) <> EmptyString).
  { pose proof (Unsigned.to_uint_nonnil p) as H.
    destruct (Pos.to_uint p); simpl; congruence. }
  split; [assumption|].
  rewrite scan_all_digits; [| apply all_digits_string_of_uint | now left].
  now rewrite decimal_value_of_uint, Unsigned.of_to.
Qed.

Lemma literal_str (z : Z) : PyInt.literal (PyInt.str z) = Some z.
Proof.
  unfold PyInt.str. destruct z as [|p|p]; [reflexivity | |].
  - destruct (int_string_of_to_uint p) as [Hne Hs].
    unfold Z.to_int, NilZero.string_of_int, NilZero.string_of_uint.
    pose proof (Unsigned.to_uint_nonnil p) as Hn.
    destruct (Pos.to_uint p) eqn:E; try congruence;
      rewrite literal_purely_numeric;
      try (unfold PyInt.purely_numeric;
           rewrite all_digits_string_of_uint; reflexivity);
      rewrite decimal_value_of_uint, <- E, Unsigned.of_to; reflexivity.
  - destruct (int_string_of_to_uint p) as [Hne Hs].
    unfold Z.to_int, NilZero.string_of_int, NilZero.string_of_uint.
    pose proof (Unsigned.to_uint_nonnil p) as Hn.
    rewrite literal_cases. cbn [PyInt.lstrip].
    change (PyInt.is_space "-") with false. cbn iota.
    change (Ascii.eqb "-" "+") with false.
    change (Ascii.eqb "-" "-") with true. cbn iota.
    destruct (Pos.to_uint p) eqn:E; try congruence; rewrite Hs; reflexivity.
Qed.

(** A number of [n] bits has at most [n] decimal digits. *)
Lemma nb_digits_double (d : uint) :
  (nb_digits (Little.double d) <= S (nb_digits d))%nat
  /\ (nb_digits (Little.succ_double d) <= S (nb_digits d))%nat.
Proof. induction d as [|d [IH1 IH2]|d [IH1 IH2]|d [IH1 IH2]|d [IH1 IH2]
                       |d [IH1 IH2]|d [IH1 IH2]|d [IH1 IH2]|d [IH1 IH2]
                       |d [IH1 IH2]|d [IH1 IH2]]; simpl; lia. Qed.

Lemma nb_digits_to_little_uint (p : positive) :
  (nb_digits (Pos.to_little_uint p) <= Pos.size_nat p)%nat.
Proof.
  induction p as [p IH|p IH|]; simpl; [| |lia].
  - pose proof (proj2 (nb_digits_double (Pos.to_little_uint p))). lia.
  - pose proof (proj1 (nb_digits_double (Pos.to_little_uint p))). lia.
Qed.

Lemma size_nat_bound (p : positive) :
  forall n, 0 <= n -> Z.pos p < 2 ^ n -> Z.of_nat (Pos.size_nat p) <= n.
Proof.
  induction p as [p IH|p IH|]; intros n Hn H; cbn [Pos.size_nat].
  - assert (Hn' : 1 <= n).
    { destruct (Z.eq_dec n 0) as [->|]; [simpl in H; lia | lia]. }
    replace n with (Z.succ (n - 1)) in H by lia.
    rewrite Z.pow_succ_r in H by lia.
    specialize (IH (n - 1) ltac:(lia) ltac:(lia)). lia.
  - assert (Hn' : 1 <= n).
    { destruct (Z.eq_dec n 0) as [->|]; [simpl in H; lia | lia]. }
    replace n with (Z.succ (n - 1)) in H by lia.
    rewrite Z.pow_succ_r in H by lia.
    specialize (IH (n - 1) ltac:(lia) ltac:(lia)). lia.
  - destruct (Z.eq_dec n 0) as [->|]; [simpl in H; lia | simpl; lia].
Qed.

Lemma length_string_of_uint (d : uint) :
  String.length (NilEmpty.string_of_uint d) = nb_digits d.
Proof. induction d; simpl; congruence. Qed.

Lemma count_digits_str (z n : Z) :
  1 <= n -> Z.abs z < 2 ^ n -> PyInt.count_digits (PyInt.str z) <= n.
Proof.
  intros Hn Hz.
  assert (Hp : forall p, Z.pos p < 2 ^ n ->
                 PyInt.count_digits (NilZero.string_of_uint (Pos.to_uint p)) <= n).
  { intros p Hlt. unfold NilZero.string_of_uint.
    pose proof (Unsigned.to_uint_nonnil p) as Hnil.
    assert (L : Z.of_nat (nb_digits (Pos.to_uint p)) <= n).
    { unfold Pos.to_uint. rewrite DecimalFacts.nb_digits_rev.
      pose proof (nb_digits_to_little_uint p).
      pose proof (size_nat_bound p n ltac:(lia) Hlt). lia. }
    destruct (Pos.to_uint p) eqn:E; try congruence;
      rewrite <- E in L |- *;
      pose proof (count_digits_le_length (NilEmpty.string_of_uint (Pos.to_uint p)));
      rewrite length_string_of_uint in *; lia. }
  unfold PyInt.str. destruct z as [|p|p]; [simpl; lia | |].
  - now apply Hp.
  - cbn [Z.to_int NilZero.string_of_int PyInt.count_digits].
    change (PyInt.is_digit "-") with false. cbn iota.
    specialize (Hp p Hz). lia.
Qed.

Lemma int_str (z : Z) : Z.abs z < 2 ^ 4300 -> PyInt.int (PyInt.str z) = Some z.
Proof.
  intros H. apply int_of_literal; [apply literal_str|].
  apply count_digits_str; [unfold PyInt.MAX_STR_DIGITS; lia | exact H].
Qed.

(** X6.  int() reads back what str() writes for an integer, here shown for
    every integer of less than 4300 bits: the text of the weekday, and the
    text of a count, stand for the same number.  An integer of the int64
    range comes back from the heatmap's array with astype(int), read from its
    text or from the object; outside that range astype(int) raises an
    OverflowError. *)
Theorem int_str_round_trip (z : Z) :
  Z.abs z < 2 ^ 4300 ->
  PyInt.int (PyInt.str z) = Some z
  /\ (- 2 ^ 63 <= z < 2 ^ 63 ->
      Heatmap.astype_int (VStr (PyInt.str z)) = Ok z
      /\ Heatmap.astype_int (VInt z) = Ok z)
  /\ (z < - 2 ^ 63 \/ 2 ^ 63 <= z ->
      Heatmap.astype_int (VStr (PyInt.str z)) = Raise OverflowError
      /\ Heatmap.astype_int (VInt z) = Raise OverflowError).
Proof.
  intros H. pose proof (int_str z H) as E. split; [exact E|]. split.
  - intros Hr. split; apply astype_int_in_range; try assumption; try reflexivity;
      unfold Heatmap.INT64_MIN, Heatmap.INT64_MAX; lia.
  - intros Hr. unfold Heatmap.astype_int. rewrite E. cbn [bind].
    unfold Heatmap.INT64_MIN, Heatmap.INT64_MAX.
    destruct (Z.leb_spec (- 2 ^ 63) z), (Z.leb_spec z (2 ^ 63 - 1));
      cbn [andb]; try (split; reflexivity); lia.
Qed.

Lemma int_str_round_trip_witness :
  PyInt.int (PyInt.str (-12)) = Some (-12)
  /\ Heatmap.astype_int (VStr (PyInt.str (-12))) = Ok (-12)
  /\ Heatmap.astype_int (VInt (2 ^ 64)) = Raise OverflowError.
Proof.
  assert (B1 : Z.abs (-12) < 2 ^ 4300).
  { apply Z.lt_trans with (2 ^ 4); [reflexivity | apply Z.pow_lt_mono_r; lia]. }
  assert (B2 : Z.abs (2 ^ 64) < 2 ^ 4300).
  { rewrite Z.abs_eq by (apply Z.pow_nonneg; lia). apply Z.pow_lt_mono_r; lia. }
  destruct (int_str_round_trip (-12) B1) as (H1 & H2 & _).
  destruct (int_str_round_trip (2 ^ 64) B2) as (_ & _ & H3).
  split; [exact H1|]. split.
  - apply H2. lia.
  - apply H3. right. apply Z.pow_le_mono_r; lia.
Defined.

Lemma digit_value_range (c : ascii) :
  PyInt.is_digit c = true -> 0 <= PyInt.digit_value c <= 9.
Proof.
  intros H. apply is_digit_cases in H. simpl in H.
  repeat (destruct H as [<-|H]; [vm_compute; split; discriminate|]).
  contradiction.
Qed.

Lemma decimal_value_bound (s : string) :
  PyInt.all_digits s = true ->
  forall acc, 0 <= acc ->
    acc * 10 ^ Z.of_nat (String.length s)
    <= decimal_value acc s < (acc + 1) * 10 ^ Z.of_nat (String.length s).
Proof.
  induction s as [|c s IH]; intros Hd acc Hacc.
  - simpl. lia.
  - cbn [PyInt.all_digits] in Hd. apply andb_true_iff in Hd as [Hc Hs].
    apply digit_value_range in Hc.
    cbn [decimal_value String.length]. rewrite Nat2Z.inj_succ, Z.pow_succ_r by lia.
    specialize (IH Hs (10 * acc + PyInt.digit_value c) ltac:(lia)).
    assert (0 < 10 ^ Z.of_nat (String.length s)) by (apply Z.pow_pos_nonneg; lia).
    nia.
Qed.

Lemma all_digits_app (a b : string) :
  PyInt.all_digits a = true -> PyInt.all_digits b = true ->
  PyInt.all_digits (a ++ b) = true.
Proof.
  induction a as [|c a IH]; simpl; [trivial|].
  intros H Hb; apply andb_true_iff in H as [-> H]. now apply IH.
Qed.

Lemma all_digits_groups (groups : list string) :
  Forall digit_group groups ->
  PyInt.all_digits (String.concat EmptyString groups) = true.
Proof.
  induction 1 as [|g groups Hg _ IH]; [reflexivity|].
  rewrite concat_empty_cons.
  apply all_digits_app; [now apply digit_group_all_digits in Hg | exact IH].
Qed.

Lemma int_bound (s : string) (z : Z) :
  PyInt.int s = Some z -> Z.abs z < 10 ^ 4300.
Proof.
  intros H. apply int_shape in H
    as (ws1 & negative & g & groups & ws2 & _ & _ & Hg & Hlen & _ & ->).
  unfold literal_digits in Hlen.
  pose proof (decimal_value_bound _ (all_digits_groups _ Hg) 0 ltac:(lia)) as B.
  assert (10 ^ Z.of_nat (String.length (String.concat EmptyString (g :: groups)))
          <= 10 ^ 4300) by (apply Z.pow_le_mono_r; lia).
  unfold literal_value. destruct negative as [[|]|]; lia.
Qed.

(** X24.  Every integer in the rows transform returns has at most 4300
    digits, its absolute value being below 10^4300: str(), csv.writer and
    json.dumps, which refuse to write a longer integer, cannot fail on the
    rows main prints and stores. *)
Theorem transform_values_within_limit
        (parse : string -> result date)
        (rows : list (list cell)) (data : list (list value)) :
  transform parse rows = Ok data ->
  Forall (fun r => Forall printable_int r) data.
Proof.
  unfold transform. intros H. apply bind_Ok_inv in H as (res & Hres & Hs).
  apply sorted_Permutation in Hs. apply (Forall_Permutation _ _ _ Hs).
  apply mapM_Ok_Forall2 in Hres. apply Forall_forall. intros r Hr.
  destruct (Forall2_In_r _ _ _ _ Hres Hr) as (row & _ & Hrow).
  apply transform_row_Ok_inv in Hrow as (d & ints & _ & Hi & ->).
  constructor; [exact I|].
  apply mapM_Ok_Forall2 in Hi. clear -Hi.
  induction Hi as [|c v cs vs Hc _ IH]; constructor; [|exact IH].
  destruct c as [t|]; simpl in Hc; [|discriminate].
  destruct (PyInt.int t) as [z|] eqn:E; [|discriminate]. injection Hc as <-.
  now apply (int_bound t z).
Qed.

Lemma transform_values_within_limit_witness :
  Forall (fun r => Forall printable_int r)
         [ [VStr "2020-10-11"; VInt (-1000); VInt 12] ].
Proof.
  apply (transform_values_within_limit Dateutil.parse_dmy
           [ [Some "11 October 2020"; Some " -1_000 "; Some "12"] ]).
  reflexivity.
Defined.

(** ** transform and heat_transform: order, errors and agreement *)

Lemma mapM_Permutation {A B : Type} (f : A -> result B) (xs xs' : list A) :
  Permutation xs xs' ->
  forall ys, mapM f xs = Ok ys ->
  exists ys', mapM f xs' = Ok ys' /\ Permutation ys ys'.
Proof.
  induction 1 as [|x xs xs' _ IH|x y xs|xs xs' xs'' _ IH1 _ IH2]; intros ys; simpl.
  - intros H; injection H as <-. eauto.
  - intros H. apply bind_Ok_inv in H as (y & Hy & H).
    apply bind_Ok_inv in H as (ys0 & Hys & H). injection H as <-.
    destruct (IH _ Hys) as (ys' & -> & Hp). rewrite Hy. simpl. eauto.
  - intros H. apply bind_Ok_inv in H as (b & Hb & H).
    apply bind_Ok_inv in H as (ys0 & H0 & H). injection H as <-.
    apply bind_Ok_inv in H0 as (a & Ha & H0).
    apply bind_Ok_inv in H0 as (ys1 & Hys & H0). injection H0 as <-.
    rewrite Ha, Hb. simpl. rewrite Hys. simpl.
    exists (a :: b :: ys1). split; [reflexivity | apply perm_swap].
  - intros H. destruct (IH1 _ H) as (ys' & H' & Hp).
    destruct (IH2 _ H') as (ys'' & H'' & Hp').
    exists ys''. split; [assumption | now transitivity ys'].
Qed.

Lemma transform_rows_shaped (parse : string -> result date)
      (rows : list (list cell)) (res : list (list value)) :
  mapM (transform_row parse) rows = Ok res ->
  Forall (fun r => shaped 1 r = true) res.
Proof.
  intros Hres. apply mapM_Ok_Forall2 in Hres. apply Forall_forall. intros r Hr.
  destruct (Forall2_In_r _ _ _ _ Hres Hr) as (row & _ & Hrow).
  apply transform_row_Ok_inv in Hrow as (d & ints & _ & Hi & ->).
  simpl. now apply (mapM_int_cell_shaped _ _ Hi).
Qed.

Lemma heat_transform_rows_shaped (parse : string -> result date)
      (rows : list (list cell)) (res : list (list value)) :
  mapM (heat_transform_row parse) rows = Ok res ->
  Forall (fun r => shaped 2 r = true) res.
Proof.
  intros Hres. apply mapM_Ok_Forall2 in Hres. apply Forall_forall. intros r Hr.
  destruct (Forall2_In_r _ _ _ _ Hres Hr) as (row & _ & Hrow).
  apply heat_transform_row_Ok_inv in Hrow as (d & ints & _ & Hi & ->).
  simpl. now apply (mapM_int_cell_shaped _ _ Hi).
Qed.

(** X7.  What transform returns does not depend on the order of the input
    rows: the same rows in any other order give the same list. *)
Theorem transform_order_independent
        (parse : string -> result date)
        (rows rows' : list (list cell)) (out : list (list value)) :
  transform parse rows = Ok out ->
  Permutation rows rows' ->
  transform parse rows' = Ok out.
Proof.
  unfold transform. intros H Hp.
  apply bind_Ok_inv in H as (res & Hres & Hs).
  destruct (mapM_Permutation _ _ _ Hp _ Hres) as (res' & Hres' & Hp').
  rewrite Hres'. simpl.
  apply (sorted_is_the_sorted_permutation 1).
  - now apply (transform_rows_shaped parse rows').
  - transitivity res; [now apply Permutation_sym|].
    now apply sorted_Permutation.
  - now apply (sorted_Sorted res).
Qed.

Lemma transform_order_independent_witness :
  transform Dateutil.parse_dmy
    [ [Some "11 October 2020"; Some "5"; Some "12"];
      [Some "12 October 2020"; Some "7"; Some "3"] ]
  = Ok [ [VStr "2020-10-11"; VInt 5; VInt 12];
         [VStr "2020-10-12"; VInt 7; VInt 3] ].
Proof.
  apply (transform_order_independent Dateutil.parse_dmy
           [ [Some "12 October 2020"; Some "7"; Some "3"];
             [Some "11 October 2020"; Some "5"; Some "12"] ]).
  - reflexivity.
  - apply perm_swap.
Defined.

(** X8.  What heat_transform returns does not depend on the order of the
    input rows either. *)
Theorem heat_transform_order_independent
        (parse : string -> result date)
        (rows rows' : list (list cell)) (out : list (list value)) :
  heat_transform parse rows = Ok out ->
  Permutation rows rows' ->
  heat_transform parse rows' = Ok out.
Proof.
  unfold heat_transform. intros H Hp.
  apply bind_Ok_inv in H as (res & Hres & Hs).
  destruct (mapM_Permutation _ _ _ Hp _ Hres) as (res' & Hres' & Hp').
  rewrite Hres'. simpl.
  apply (sorted_is_the_sorted_permutation 2).
  - now apply (heat_transform_rows_shaped parse rows').
  - transitivity res; [now apply Permutation_sym|].
    now apply sorted_Permutation.
  - now apply (sorted_Sorted res).
Qed.

Lemma heat_transform_order_independent_witness :
  heat_transform Dateutil.parse_dmy
    [ [Some "12 October 2020"; Some "7"; Some "3"];
      [Some "11 October 2020"; Some "5"; Some "12"] ]
  = Ok [ [VStr "0"; VStr "2020-10-12"; VInt 7; VInt 3];
         [VStr "6"; VStr "2020-10-11"; VInt 5; VInt 12] ].
Proof.
  apply (heat_transform_order_independent Dateutil.parse_dmy
           [ [Some "11 October 2020"; Some "5"; Some "12"];
             [Some "12 October 2020"; Some "7"; Some "3"] ]).
  - reflexivity.
  - apply perm_swap.
Defined.

Lemma transform_filled_rows (parse : string -> result date)
      (rows : list (list cell)) :
  Forall (fun row => filled_row row = true) rows ->
  (exists out, transform parse rows = Ok out)
  \/ transform parse rows = Raise ValueError
  \/ (exists row s rest e,
        In row rows /\ row = Some s :: rest /\ parse s = Raise e
        /\ transform parse rows = Raise e).
Proof.
  intros Hrows. unfold transform.
  destruct (mapM (transform_row parse) rows) as [res|e] eqn:Hres.
  - left. destruct (transform_rows_return parse rows res Hres) as (out & Hout).
    unfold transform in Hout. rewrite Hres in Hout. eauto.
  - right. cbn [bind].
    apply mapM_Raise_inv in Hres as (pre & row & post & ys & -> & _ & Hrow).
    rewrite Forall_forall in Hrows.
    assert (Hin : In row (pre ++ row :: post)) by apply in_elt.
    pose proof (Hrows row Hin) as Hf.
    destruct row as [|[s|] rest]; try discriminate.
    unfold filled_row, text_row in Hf. cbn [forallb andb] in Hf.
    pose proof (transform_row_filled parse s rest Hf) as C.
    unfold cell in *. destruct (parse s) as [d|e'] eqn:E.
    + destruct (existsb _ rest).
      * left. congruence.
      * destruct C as (r & C). congruence.
    + right. exists (Some s :: rest), s, rest, e'.
      repeat split; try assumption. congruence.
Qed.

(** X9.  Once validate has accepted a table, transform can only return,
    fail with a format error (ValueError), or fail with the exception that
    dateutil raised on the first cell of a row: the index, type and
    attribute errors of empty rows and [None] cells cannot come from it any
    more. *)
Theorem transform_after_validate
        (parse : string -> result date)
        (table validated : list (list cell)) :
  validate table = Ok validated ->
  (exists out, transform parse validated = Ok out)
  \/ transform parse validated = Raise ValueError
  \/ (exists row s rest e,
        In row validated /\ row = Some s :: rest /\ parse s = Raise e
        /\ transform parse validated = Raise e).
Proof.
  intros H. apply transform_filled_rows.
  apply validate_output_rows in H. apply Forall_forall. intros row Hin.
  rewrite Forall_forall in H. now apply data_row_filled, H.
Qed.

Lemma transform_after_validate_witness :
  (exists out,
      transform Dateutil.parse_dmy [ [Some "11 October 2020"; Some "5*"] ]
      = Ok out)
  \/ transform Dateutil.parse_dmy [ [Some "11 October 2020"; Some "5*"] ]
     = Raise ValueError
  \/ (exists row s rest e,
        In row [ [Some "11 October 2020"; Some "5*"] ]
        /\ row = Some s :: rest /\ Dateutil.parse_dmy s = Raise e
        /\ transform Dateutil.parse_dmy [ [Some "11 October 2020"; Some "5*"] ]
           = Raise e).
Proof.
  apply (transform_after_validate Dateutil.parse_dmy
           [ [Some "11 October 2020*"; Some "5**"] ]).
  reflexivity.
Defined.

Lemma heat_transform_row_as_transform_row
      (parse : string -> result date) (row : list cell) :
  heat_transform_row parse row
  = (r <- transform_row parse row ;;
     d <- row_date parse row ;;
     Ok (VStr (PyInt.str (weekday d)) :: r)).
Proof.
  unfold heat_transform_row, transform_row, row_date.
  destruct (getitem row 0) as [c0|e]; cbn [bind]; [|reflexivity].
  destruct (parse_cell parse c0) as [d|e]; cbn [bind]; [|reflexivity].
  destruct (mapM int_cell (skipn 1 row)) as [ints|e]; cbn [bind]; reflexivity.
Qed.

Lemma heat_rows_as_transform_rows
      (parse : string -> result date) (rows : list (list cell)) :
  match mapM (transform_row parse) rows with
  | Ok res => exists hres, mapM (heat_transform_row parse) rows = Ok hres
                           /\ map (@tl value) hres = res
  | Raise e => mapM (heat_transform_row parse) rows = Raise e
  end.
Proof.
  induction rows as [|row rows IH]; simpl.
  - exists []. now split.
  - rewrite heat_transform_row_as_transform_row.
    destruct (transform_row parse row) as [r|e] eqn:Hr; cbn [bind]; [|reflexivity].
    apply transform_row_Ok_inv in Hr as (d & ints & Hd & _ & ->).
    rewrite Hd. cbn [bind].
    destruct (mapM (transform_row parse) rows) as [res|e]; cbn [bind].
    + destruct IH as (hres & -> & <-). cbn [bind]. eexists. split; reflexivity.
    + now rewrite IH.
Qed.

(** X10.  heat_transform fails exactly when transform fails, with the same
    exception, and when it returns, its rows without their first column are
    the rows of transform, up to their order. *)
Theorem heat_transform_agrees_with_transform
        (parse : string -> result date) (rows : list (list cell)) :
  (forall e, heat_transform parse rows = Raise e
             <-> transform parse rows = Raise e)
  /\ (forall hout, heat_transform parse rows = Ok hout ->
        exists out, transform parse rows = Ok out
                    /\ Permutation (map (@tl value) hout) out).
Proof.
  pose proof (heat_rows_as_transform_rows parse rows) as H.
  unfold heat_transform, transform.
  destruct (mapM (transform_row parse) rows) as [res|e0] eqn:Hres.
  - destruct H as (hres & Hh & Htl). rewrite Hh. cbn [bind].
    destruct (sorted_total 1 res (transform_rows_shaped parse rows res Hres))
      as (out & Hout & Hp).
    destruct (sorted_total 2 hres
                (heat_transform_rows_shaped parse rows hres Hh))
      as (hout & Hhout & Hhp).
    rewrite Hout, Hhout. split.
    + intros e. split; discriminate.
    + intros hout' E. injection E as <-. exists out. split; [reflexivity|].
      transitivity res; [|assumption]. rewrite <- Htl.
      apply Permutation_map. now apply Permutation_sym.
  - rewrite H. cbn [bind]. split.
    + intros e. tauto.
    + discriminate.
Qed.

Lemma heat_transform_agrees_with_transform_witness :
  exists out,
    transform Dateutil.parse_dmy
      [ [Some "11 October 2020"; Some "5"; Some "12"] ] = Ok out
    /\ Permutation
         (map (@tl value) [ [VStr "6"; VStr "2020-10-11"; VInt 5; VInt 12] ])
         out.
Proof.
  apply (heat_transform_agrees_with_transform Dateutil.parse_dmy
           [ [Some "11 October 2020"; Some "5"; Some "12"] ]).
  reflexivity.
Defined.

(** X11.  After rows that convert, the first row that does not decides the
    exception of transform: an IndexError for an empty row, a TypeError for
    a [None] first cell, the exception of dateutil for a first cell that it
    does not read (a ValueError when the cell is no date), whatever the
    other cells hold, and otherwise the error of the first value cell that
    is not an integer literal, a TypeError when it is [None] and a
    ValueError when it is a string. *)
Theorem transform_malformed_rows
        (parse : string -> result date)
        (pre post : list (list cell)) (res : list (list value))
        (Hpre : mapM (transform_row parse) pre = Ok res) :
  transform parse (pre ++ [] :: post) = Raise IndexError
  /\ (forall rest,
        transform parse (pre ++ (None :: rest) :: post) = Raise TypeError)
  /\ (forall s rest e, parse s = Raise e ->
        transform parse (pre ++ (Some s :: rest) :: post) = Raise e)
  /\ (forall s d good ints rest,
        parse s = Ok d -> mapM int_cell good = Ok ints ->
        transform parse (pre ++ (Some s :: good ++ None :: rest) :: post)
        = Raise TypeError)
  /\ (forall s d good ints t rest,
        parse s = Ok d -> mapM int_cell good = Ok ints ->
        PyInt.int t = None ->
        transform parse (pre ++ (Some s :: good ++ Some t :: rest) :: post)
        = Raise ValueError).
Proof.
  repeat split.
  - now apply (transform_raise_at parse pre post _ res).
  - intros rest. now apply (transform_raise_at parse pre post _ res).
  - intros s rest e Hs. apply (transform_raise_at parse pre post _ res _ Hpre).
    unfold transform_row; simpl. now rewrite Hs.
  - intros s d good ints rest Hs Hg.
    apply (transform_raise_at parse pre post _ res _ Hpre).
    unfold transform_row. cbn [getitem nth_error bind parse_cell skipn].
    rewrite Hs. cbn [bind].
    assert (E : mapM int_cell (good ++ None :: rest) = Raise TypeError)
      by now apply (mapM_app_raise int_cell good rest None ints).
    unfold cell in *. now rewrite E.
  - intros s d good ints t rest Hs Hg Ht.
    apply (transform_raise_at parse pre post _ res _ Hpre).
    unfold transform_row. cbn [getitem nth_error bind parse_cell skipn].
    rewrite Hs. cbn [bind].
    assert (E : mapM int_cell (good ++ Some t :: rest) = Raise ValueError).
    { apply (mapM_app_raise int_cell good rest (Some t) ints); [assumption|].
      simpl. now rewrite Ht. }
    unfold cell in *. now rewrite E.
Qed.

Lemma transform_malformed_rows_witness :
  transform Dateutil.parse_dmy
    [ [Some "11 October 2020"; Some "5"];
      [Some "12 October 2020"; Some "7"; None; Some "x"] ]
  = Raise TypeError.
Proof.
  apply (transform_malformed_rows Dateutil.parse_dmy
           [ [Some "11 October 2020"; Some "5"] ] []
           [ [VStr "2020-10-11"; VInt 5] ] eq_refl)
    with (d := mkdate 2020 10 12) (good := [Some "7"]) (ints := [VInt 7]).
  - reflexivity.
  - reflexivity.
Defined.

Lemma mapM_length {A B : Type} (f : A -> result B) (xs : list A) (ys : list B) :
  mapM f xs = Ok ys -> List.length ys = List.length xs.
Proof.
  intros H. apply mapM_Ok_Forall2 in H. symmetry. now apply (Forall2_length H).
Qed.

(** X12.  transform returns one row for each input row, also when dates
    repeat, and each returned row has as many entries as the row it comes
    from has cells. *)
Theorem transform_keeps_rows
        (parse : string -> result date)
        (rows : list (list cell)) (out : list (list value)) :
  transform parse rows = Ok out ->
  List.length out = List.length rows
  /\ Permutation (map (@List.length value) out) (map (@List.length cell) rows).
Proof.
  unfold transform. intros H. apply bind_Ok_inv in H as (res & Hres & Hs).
  apply sorted_Permutation in Hs.
  assert (Hlen : map (@List.length value) res = map (@List.length cell) rows).
  { apply mapM_Ok_Forall2 in Hres. clear Hs.
    induction Hres as [|row r rows res Hrow _ IH]; simpl; [reflexivity|].
    rewrite IH. f_equal.
    apply transform_row_Ok_inv in Hrow as (d & ints & Hd & Hi & ->).
    apply mapM_length in Hi. simpl. rewrite Hi.
    destruct row; [unfold row_date in Hd; simpl in Hd; discriminate | reflexivity]. }
  split.
  - rewrite <- (Permutation_length Hs). now apply (mapM_length _ _ _ Hres).
  - rewrite <- Hlen. apply Permutation_map. now apply Permutation_sym.
Qed.

Lemma transform_keeps_rows_witness :
  List.length [ [VStr "2020-10-11"; VInt 1]; [VStr "2020-10-11"; VInt 5; VInt 12] ]
  = List.length [ [Some "11 October 2020"; Some "5"; Some "12"];
                  [Some "11 October 2020"; Some "1"] ]
  /\ Permutation
       (map (@List.length value)
            [ [VStr "2020-10-11"; VInt 1]; [VStr "2020-10-11"; VInt 5; VInt 12] ])
       (map (@List.length cell)
            [ [Some "11 October 2020"; Some "5"; Some "12"];
              [Some "11 October 2020"; Some "1"] ]).
Proof.
  apply (transform_keeps_rows Dateutil.parse_dmy).
  reflexivity.
Defined.

(** X13.  On the dates a [date] object can hold, sorting the ISO strings is
    sorting the dates: the strings compare as the dates do, and two dates
    with the same string are the same date. *)
Theorem isoformat_order (a b : date) :
  valid a -> valid b ->
  String.compare (isoformat a) (isoformat b) = Datetime.compare a b
  /\ (String.ltb (isoformat a) (isoformat b) = true <-> before a b)
  /\ (isoformat a = isoformat b <-> a = b).
Proof.
  intros Ha Hb. split; [now apply isoformat_compare|].
  split; [now apply isoformat_ltb|].
  split; [now apply isoformat_inj | now intros ->].
Qed.

Lemma isoformat_order_witness :
  String.compare (isoformat (mkdate 2020 9 30)) (isoformat (mkdate 2020 10 1))
  = Datetime.compare (mkdate 2020 9 30) (mkdate 2020 10 1)
  /\ (String.ltb (isoformat (mkdate 2020 9 30)) (isoformat (mkdate 2020 10 1))
      = true <-> before (mkdate 2020 9 30) (mkdate 2020 10 1))
  /\ (isoformat (mkdate 2020 9 30) = isoformat (mkdate 2020 10 1)
      <-> mkdate 2020 9 30 = mkdate 2020 10 1).
Proof.
  apply isoformat_order; apply validb_valid; reflexivity.
Defined.

(** ** extract: the rows of a document *)

Lemma element_induction (P : element -> Prop) :
  (forall t x cs, Forall P cs -> P (Element t x cs)) ->
  forall e, P e.
Proof.
  intros H. fix IH 1. intros [t x cs]. apply H.
  induction cs as [|c cs IHcs]; constructor; [apply IH | exact IHcs].
Qed.

Lemma descendants_below (root e : element) :
  In e (descendants root) <-> below e root.
Proof.
  revert e. induction root as [t x cs IH] using element_induction.
  intros e. simpl. rewrite in_flat_map. split.
  - intros (c & Hc & [->|Hin]).
    + now apply below_child.
    + apply (below_deeper e c); [assumption|].
      rewrite Forall_forall in IH. now apply (IH c Hc).
  - intros H. inversion H as [root Hc|c root Hc Hb]; subst; simpl in Hc.
    + exists e. split; [assumption | now left].
    + exists c. split; [assumption | right].
      rewrite Forall_forall in IH. now apply (IH c Hc).
Qed.

(** X14.  extract returns the rows of the [tr] elements that lie below the
    root, at any depth and in document order: child by child, the row of the
    child when it is a [tr], then the rows found inside it.  The root's own
    tag and text play no part, and a row holds the texts of the children of
    its [tr], whatever their tags. *)
Theorem extract_rows (t : string) (x : option string) (cs : list element) :
  extract (Element t x cs)
  = flat_map (fun c => ((if is_tr c then [row_of c] else []) ++ extract c)%list)
             cs
  /\ (forall row,
        In row (extract (Element t x cs)) <->
        exists e, below e (Element t x cs) /\ tag_of e = "tr" /\ row = row_of e).
Proof.
  split.
  - unfold extract, findall_tr. simpl descendants.
    induction cs as [|c cs IH]; [reflexivity|]. cbn [flat_map].
    rewrite filter_app, map_app, IH. f_equal.
    unfold is_tr, row_of. cbn [filter].
    now destruct (String.eqb (tag_of c) "tr").
  - intros row. unfold extract, findall_tr. rewrite in_map_iff. split.
    + intros (e & <- & He). apply filter_In in He as [He Ht].
      exists e. repeat split.
      * now apply descendants_below.
      * now apply String.eqb_eq.
    + intros (e & Hb & Ht & ->). exists e. split; [reflexivity|].
      apply filter_In. split.
      * now apply descendants_below.
      * now apply String.eqb_eq.
Qed.

Lemma extract_rows_witness :
  In [Some "11 October 2020"; None]
     (extract (Element "html" None
                 [Element "table" None
                    [Element "tr" None
                       [Element "td" (Some "11 October 2020") [];
                        Element "td" None []]]])).
Proof.
  apply (extract_rows "html" None
           [Element "table" None
              [Element "tr" None
                 [Element "td" (Some "11 October 2020") [];
                  Element "td" None []]]]).
  exists (Element "tr" None
            [Element "td" (Some "11 October 2020") []; Element "td" None []]).
  repeat split.
  apply (below_deeper _
           (Element "table" None
              [Element "tr" None
                 [Element "td" (Some "11 October 2020") [];
                  Element "td" None []]])).
  - simpl. now left.
  - apply below_child. simpl. now left.
Defined.

(** ** create_heatmap: when it works and what it shows *)

Example astype_int_examples :
  Heatmap.astype_int (VStr " 1_000 ") = Ok 1000
  /\ Heatmap.astype_int (VStr "x") = Raise ValueError
  /\ Heatmap.astype_int (VInt (2 ^ 63 - 1)) = Ok (2 ^ 63 - 1)
  /\ Heatmap.astype_int (VInt (2 ^ 63)) = Raise OverflowError
  /\ Heatmap.astype_int (VStr "-9223372036854775809") = Raise OverflowError.
Proof. repeat split; reflexivity. Qed.

(** Above 2^53 the sums of np.bincount are rounded, and depend on the
    order of the records. *)
Example bincount_float64 :
  Heatmap.float64 (2 ^ 53 + 1) = 2 ^ 53
  /\ Heatmap.float64 (2 ^ 53 + 3) = 2 ^ 53 + 4
  /\ Heatmap.bincount [0; 0; 0] [2 ^ 53; 1; 1] = Ok [2 ^ 53]
  /\ Heatmap.bincount [0; 0; 0] [1; 1; 2 ^ 53] = Ok [2 ^ 53 + 2].
Proof. repeat split; reflexivity. Qed.

Example create_heatmap_overflow :
  Heatmap.create_heatmap [ [VStr "6"; VStr "2020-10-11"; VInt (2 ^ 64); VInt 1] ]
  = Raise OverflowError.
Proof. reflexivity. Qed.

Lemma float64_small (x : Z) : Z.abs x < 2 ^ 53 -> Heatmap.float64 x = x.
Proof.
  intros H. unfold Heatmap.float64.
  replace (Z.log2 (Z.abs x) <? 53) with true; [reflexivity|].
  symmetry. apply Z.ltb_lt.
  destruct (Z.eq_dec (Z.abs x) 0) as [->|Hne]; [reflexivity|].
  apply Z.log2_lt_pow2; lia.
Qed.

Lemma zsum_abs_nonneg (f : list value -> Z) (hd : list (list value)) :
  0 <= zsum (map (fun r => Z.abs (f r)) hd).
Proof. induction hd as [|r hd IH]; simpl; lia. Qed.

Lemma abs_le_zsum (f : list value -> Z) (hd : list (list value)) (r : list value) :
  In r hd -> Z.abs (f r) <= zsum (map (fun r => Z.abs (f r)) hd).
Proof.
  induction hd as [|r' hd IH]; simpl; [contradiction|].
  pose proof (zsum_abs_nonneg f hd).
  intros [->|Hin]; [lia | specialize (IH Hin); lia].
Qed.

Lemma bucket_sum_exact (f : list value -> Z) (j : Z) (hd : list (list value)) :
  forall acc,
    Z.abs acc + zsum (map (fun r => Z.abs (f r)) hd) < 2 ^ 53 ->
    Heatmap.bucket_sum acc j (map record_weekday hd) (map f hd)
    = acc + weekday_total f j hd.
Proof.
  unfold weekday_total. induction hd as [|r hd IH]; intros acc H.
  - simpl. lia.
  - cbn [map Heatmap.bucket_sum filter zsum fold_right] in *.
    pose proof (zsum_abs_nonneg f hd) as Hn. unfold zsum in *.
    destruct (record_weekday r =? j).
    + rewrite (float64_small (f r)) by lia.
      rewrite (float64_small (acc + f r)) by lia.
      rewrite IH by lia. cbn [map fold_right]. lia.
    + rewrite IH by lia. lia.
Qed.

Lemma heat_record_fields (r : list value) :
  heat_record r ->
  Z.abs (record_staff r) < 2 ^ 53 -> Z.abs (record_student r) < 2 ^ 53 ->
  0 <= record_weekday r <= 6
  /\ List.length r = 4%nat
  /\ (v <- getitem r 0 ;; Heatmap.astype_int v) = Ok (record_weekday r)
  /\ (v <- getitem r 3 ;; Heatmap.astype_int v) = Ok (record_student r)
  /\ (v <- getitem r 2 ;; Heatmap.astype_int v) = Ok (record_staff r).
Proof.
  intros (w & iso & a & b & -> & Hw). cbn [record_staff record_student].
  intros Ha Hb. cbn [record_weekday getitem nth_error bind List.length].
  rewrite (int_str_weekday w Hw), (astype_int_weekday w Hw).
  assert (R : 2 ^ 53 <= Heatmap.INT64_MAX /\ Heatmap.INT64_MIN <= - 2 ^ 53)
    by (split; discriminate).
  rewrite !(astype_int_in_range (VInt _) _ eq_refl) by lia.
  repeat split; lia.
Qed.

Lemma heat_record_weekday (r : list value) :
  heat_record r -> 0 <= record_weekday r <= 6 /\ List.length r = 4%nat.
Proof.
  intros (w & iso & a & b & -> & Hw). cbn [record_weekday List.length].
  rewrite (int_str_weekday w Hw). split; [lia | reflexivity].
Qed.

Lemma exact_counts_each (hd : list (list value)) (r : list value) :
  exact_counts hd -> In r hd ->
  Z.abs (record_staff r) < 2 ^ 53 /\ Z.abs (record_student r) < 2 ^ 53.
Proof.
  intros [Ha Hb] Hin.
  pose proof (abs_le_zsum record_staff hd r Hin).
  pose proof (abs_le_zsum record_student hd r Hin). lia.
Qed.

Lemma heat_columns (k : nat) (f : list value -> Z) (hd : list (list value)) :
  Forall (fun r => (v <- getitem r k ;; Heatmap.astype_int v) = Ok (f r)) hd ->
  Heatmap.column k hd = Ok (map f hd).
Proof. intros H. unfold Heatmap.column. now apply mapM_Ok_map. Qed.

Lemma two_dimensional_records (r : list value) (hd : list (list value)) :
  Forall heat_record (r :: hd) -> Heatmap.two_dimensional (r :: hd) = Ok tt.
Proof.
  intros H. inversion H as [|? ? Hr Hhd]; subst. simpl.
  apply heat_record_weekday in Hr as (_ & Hr).
  replace (forallb _ hd) with true; [reflexivity|].
  symmetry. apply forallb_forall. intros r' Hin. rewrite Forall_forall in Hhd.
  apply Hhd, heat_record_weekday in Hin as (_ & ->). now rewrite Hr.
Qed.

Lemma weekday_max (hd : list (list value)) :
  Forall heat_record hd ->
  (has_sunday hd = true -> fold_right Z.max (-1) (map record_weekday hd) = 6)
  /\ -1 <= fold_right Z.max (-1) (map record_weekday hd) <= 6
  /\ (has_sunday hd = false ->
      fold_right Z.max (-1) (map record_weekday hd) <= 5).
Proof.
  unfold has_sunday. induction 1 as [|r hd Hr _ (IH1 & IH2 & IH3)]; simpl.
  - repeat split; lia.
  - apply heat_record_weekday in Hr as (Hw & _).
    destruct (Z.eqb_spec (record_weekday r) 6) as [E|E]; simpl.
    + repeat split; intros; try discriminate; lia.
    + destruct (existsb _ hd).
      * specialize (IH1 eq_refl). repeat split; intros; try discriminate; lia.
      * specialize (IH3 eq_refl). repeat split; intros; try discriminate; lia.
Qed.

Lemma weekdays_nonnegative (hd : list (list value)) :
  Forall heat_record hd ->
  existsb (fun d => d <? 0) (map record_weekday hd) = false.
Proof.
  induction 1 as [|r hd Hr _ IH]; simpl; [reflexivity|].
  apply heat_record_weekday in Hr as (Hw & _). rewrite IH.
  destruct (Z.ltb_spec (record_weekday r) 0); [lia | reflexivity].
Qed.

Lemma plotarray_records (r : list value) (hd : list (list value)) :
  Forall heat_record (r :: hd) -> exact_counts (r :: hd) ->
  Heatmap.plotarray (r :: hd)
  = let n := Z.to_nat (fold_right Z.max (-1) (map record_weekday (r :: hd)) + 1) in
    Ok [ map (fun j => weekday_total record_student (Z.of_nat j) (r :: hd)) (seq 0 n);
         map (fun j => weekday_total record_staff (Z.of_nat j) (r :: hd)) (seq 0 n) ].
Proof.
  intros H Hx. unfold Heatmap.plotarray.
  rewrite (two_dimensional_records r hd H). cbn [bind].
  assert (F : Forall (fun r' =>
                (v <- getitem r' 0 ;; Heatmap.astype_int v) = Ok (record_weekday r')
                /\ (v <- getitem r' 3 ;; Heatmap.astype_int v) = Ok (record_student r')
                /\ (v <- getitem r' 2 ;; Heatmap.astype_int v) = Ok (record_staff r'))
              (r :: hd)).
  { apply Forall_forall. intros r' Hin. rewrite Forall_forall in H.
    destruct (exact_counts_each _ _ Hx Hin) as [Ha Hb].
    now apply (heat_record_fields r' (H r' Hin) Ha Hb). }
  rewrite (heat_columns 0 record_weekday), (heat_columns 3 record_student),
    (heat_columns 2 record_staff);
    try (apply Forall_forall; intros r' Hin; rewrite Forall_forall in F;
         now apply F in Hin).
  cbn [bind]. unfold Heatmap.bincount.
  rewrite (weekdays_nonnegative (r :: hd) H). cbn [bind].
  destruct Hx as [Ha Hb].
  cbv zeta. do 2 f_equal; [|f_equal];
    apply map_ext; intros j; rewrite bucket_sum_exact; simpl Z.abs; lia.
Qed.

Lemma create_heatmap_records (hd : list (list value)) :
  Forall heat_record hd -> exact_counts hd ->
  Heatmap.create_heatmap hd
  = if has_sunday hd then Ok (weekday_grid hd) else Raise IndexError.
Proof.
  intros H Hx. destruct hd as [|r hd]; [reflexivity|].
  pose proof (plotarray_records r hd H Hx) as Hp. cbv zeta in Hp.
  destruct (weekday_max (r :: hd) H) as (Hmax & Hrange & Hlow).
  destruct (has_sunday (r :: hd)) eqn:Hs.
  - rewrite (Hmax eq_refl) in Hp. change (Z.to_nat (6 + 1)) with 7%nat in Hp.
    apply (create_heatmap_seven _ _ _ Hp); reflexivity.
  - specialize (Hlow eq_refl).
    apply (create_heatmap_narrow _ _ _ Hp). rewrite length_map, length_seq. lia.
Qed.

(** X15.  On the records heat_transform builds from rows of a date and two
    counts, when the counts are small enough for float64 to add them without
    rounding (their absolute values add up to less than 2^53), create_heatmap
    works exactly when some record falls on a Sunday: then its grid holds,
    for each weekday from Monday to Sunday, the total of the student counts
    (first row) and of the staff counts (second row) of the records of that
    weekday; otherwise, and for no record at all, it raises an IndexError. *)
Theorem create_heatmap_needs_sunday (heatdata : list (list value)) :
  Forall heat_record heatdata -> exact_counts heatdata ->
  Heatmap.create_heatmap heatdata
  = if has_sunday heatdata then Ok (weekday_grid heatdata)
    else Raise IndexError.
Proof. apply create_heatmap_records. Qed.

Lemma create_heatmap_needs_sunday_witness :
  Heatmap.create_heatmap
    [ [VStr "4"; VStr "2020-10-09"; VInt 2; VInt 9];
      [VStr "6"; VStr "2020-10-11"; VInt 5; VInt 12] ]
  = Ok [ [0; 0; 0; 0; 9; 0; 12]; [0; 0; 0; 0; 2; 0; 5] ].
Proof.
  apply (create_heatmap_needs_sunday
           [ [VStr "4"; VStr "2020-10-09"; VInt 2; VInt 9];
             [VStr "6"; VStr "2020-10-11"; VInt 5; VInt 12] ]).
  - constructor; [exists 4, "2020-10-09", 2, 9; split; [reflexivity | lia]|].
    constructor; [exists 6, "2020-10-11", 5, 12; split; [reflexivity | lia]|].
    constructor.
  - split; reflexivity.
Defined.

Lemma week_total (f : list value -> Z) (hd : list (list value)) :
  Forall heat_record hd ->
  zsum (map (fun j => weekday_total f j hd) WEEK) = zsum (map f hd).
Proof.
  unfold weekday_total, WEEK. induction 1 as [|r hd Hr _ IH]; [reflexivity|].
  apply heat_record_weekday in Hr as (Hw & _).
  cbn [map zsum fold_right filter] in *.
  assert (C : record_weekday r = 0 \/ record_weekday r = 1
              \/ record_weekday r = 2 \/ record_weekday r = 3
              \/ record_weekday r = 4 \/ record_weekday r = 5
              \/ record_weekday r = 6) by lia.
  destruct C as [E|[E|[E|[E|[E|[E|E]]]]]]; rewrite E; cbn [Z.eqb Pos.eqb];
    cbn [map zsum fold_right]; unfold zsum in *; lia.
Qed.

(** X16.  With counts that float64 adds without rounding, the heatmap loses
    no case: the seven cells of its first row add up to the total of the
    student counts of the records, and those of its second row to the total
    of the staff counts. *)
Theorem create_heatmap_totals
        (heatdata : list (list value)) (students staff : list Z) :
  Forall heat_record heatdata -> exact_counts heatdata ->
  Heatmap.create_heatmap heatdata = Ok [students; staff] ->
  zsum students = zsum (map record_student heatdata)
  /\ zsum staff = zsum (map record_staff heatdata).
Proof.
  intros H Hx Hc. rewrite (create_heatmap_records heatdata H Hx) in Hc.
  destruct (has_sunday heatdata); [|discriminate].
  injection Hc as <- <-. split; now apply week_total.
Qed.

Lemma create_heatmap_totals_witness :
  zsum [0; 0; 0; 0; 9; 0; 12]
  = zsum (map record_student
            [ [VStr "4"; VStr "2020-10-09"; VInt 2; VInt 9];
              [VStr "6"; VStr "2020-10-11"; VInt 5; VInt 12] ])
  /\ zsum [0; 0; 0; 0; 2; 0; 5]
     = zsum (map record_staff
               [ [VStr "4"; VStr "2020-10-09"; VInt 2; VInt 9];
                 [VStr "6"; VStr "2020-10-11"; VInt 5; VInt 12] ]).
Proof.
  apply (create_heatmap_totals
           [ [VStr "4"; VStr "2020-10-09"; VInt 2; VInt 9];
             [VStr "6"; VStr "2020-10-11"; VInt 5; VInt 12] ]).
  - constructor; [exists 4, "2020-10-09", 2, 9; split; [reflexivity | lia]|].
    constructor; [exists 6, "2020-10-11", 5, 12; split; [reflexivity | lia]|].
    constructor.
  - split; reflexivity.
  - reflexivity.
Defined.

Lemma zsum_Permutation (l l' : list Z) : Permutation l l' -> zsum l = zsum l'.
Proof. induction 1; simpl in *; lia. Qed.

Lemma filter_Permutation {A : Type} (p : A -> bool) (l l' : list A) :
  Permutation l l' -> Permutation (filter p l) (filter p l').
Proof.
  induction 1 as [|x l l' _ IH|x y l|l l' l'' _ IH1 _ IH2]; simpl.
  - constructor.
  - destruct (p x); [now constructor | assumption].
  - destruct (p x), (p y); try reflexivity. apply perm_swap.
  - now transitivity (filter p l').
Qed.

Lemma existsb_Permutation {A : Type} (p : A -> bool) (l l' : list A) :
  Permutation l l' -> existsb p l = existsb p l'.
Proof.
  induction 1 as [|x l l' _ IH|x y l|l l' l'' _ IH1 _ IH2]; simpl.
  - reflexivity.
  - now rewrite IH.
  - destruct (p x), (p y); reflexivity.
  - congruence.
Qed.

Lemma exact_counts_Permutation (hd hd' : list (list value)) :
  Permutation hd hd' -> exact_counts hd -> exact_counts hd'.
Proof.
  intros Hp [Ha Hb]. unfold exact_counts.
  rewrite <- (zsum_Permutation _ _ (Permutation_map _ Hp)).
  rewrite <- (zsum_Permutation _ _ (Permutation_map _ Hp)). now split.
Qed.

(** X17.  With counts that float64 adds without rounding, the heatmap does
    not depend on the order of the records: the same records in any order
    give the same grid, or the same error. *)
Theorem create_heatmap_order_independent
        (heatdata heatdata' : list (list value)) :
  Forall heat_record heatdata -> exact_counts heatdata ->
  Permutation heatdata heatdata' ->
  Heatmap.create_heatmap heatdata' = Heatmap.create_heatmap heatdata.
Proof.
  intros H Hx Hp.
  rewrite (create_heatmap_records heatdata H Hx).
  rewrite (create_heatmap_records heatdata' (Forall_Permutation _ _ _ Hp H)
             (exact_counts_Permutation _ _ Hp Hx)).
  unfold has_sunday. rewrite (existsb_Permutation _ _ _ Hp).
  destruct (existsb _ heatdata'); [|reflexivity].
  f_equal. unfold weekday_grid, weekday_total.
  f_equal; [|f_equal]; apply map_ext; intros j; apply zsum_Permutation,
    Permutation_map, filter_Permutation; now apply Permutation_sym.
Qed.

Lemma create_heatmap_order_independent_witness :
  Heatmap.create_heatmap
    [ [VStr "6"; VStr "2020-10-11"; VInt 5; VInt 12];
      [VStr "4"; VStr "2020-10-09"; VInt 2; VInt 9] ]
  = Heatmap.create_heatmap
      [ [VStr "4"; VStr "2020-10-09"; VInt 2; VInt 9];
        [VStr "6"; VStr "2020-10-11"; VInt 5; VInt 12] ].
Proof.
  apply create_heatmap_order_independent.
  - constructor; [exists 4, "2020-10-09", 2, 9; split; [reflexivity | lia]|].
    constructor; [exists 6, "2020-10-11", 5, 12; split; [reflexivity | lia]|].
    constructor.
  - split; reflexivity.
  - apply perm_swap.
Defined.

Lemma column_int64 (k : nat) (f : list value -> Z) (hd : list (list value)) :
  Forall (fun r => nth_error r k = Some (VInt (f r))) hd ->
  if existsb (fun r => outside_int64 (f r)) hd
  then Heatmap.column k hd = Raise OverflowError
  else Heatmap.column k hd = Ok (map f hd).
Proof.
  intros H. unfold Heatmap.column.
  assert (D : Forall (fun r =>
                if outside_int64 (f r)
                then (v <- getitem r k ;; Heatmap.astype_int v) = Raise OverflowError
                else (v <- getitem r k ;; Heatmap.astype_int v) = Ok (f r)) hd).
  { apply Forall_forall. intros r Hin. rewrite Forall_forall in H.
    unfold getitem. rewrite (H r Hin). cbn [bind Heatmap.astype_int].
    unfold outside_int64, Heatmap.INT64_MIN, Heatmap.INT64_MAX.
    destruct (Z.ltb_spec (f r) (- 2 ^ 63)), (Z.leb_spec (2 ^ 63) (f r)),
      (Z.leb_spec (- 2 ^ 63) (f r)), (Z.leb_spec (f r) (2 ^ 63 - 1));
      cbn [orb andb]; try reflexivity; lia. }
  clear H. induction D as [|r hd Hr _ IH]; [reflexivity|].
  cbn [existsb mapM map]. destruct (outside_int64 (f r)); cbn [orb].
  - now rewrite Hr.
  - rewrite Hr. cbn [bind].
    destruct (existsb _ hd); now rewrite IH.
Qed.

(** X25.  A count that does not fit an int64 stops create_heatmap with an
    OverflowError, raised by astype(int) before anything is added up. *)
Theorem create_heatmap_int64 (heatdata : list (list value)) :
  Forall heat_record heatdata ->
  Exists (fun r => outside_int64 (record_student r) = true
                   \/ outside_int64 (record_staff r) = true) heatdata ->
  Heatmap.create_heatmap heatdata = Raise OverflowError.
Proof.
  intros H Hex. unfold Heatmap.create_heatmap, Heatmap.plotarray.
  destruct heatdata as [|r hd]; [inversion Hex|].
  rewrite (two_dimensional_records r hd H). cbn [bind].
  rewrite (heat_columns 0 record_weekday).
  2:{ apply Forall_forall. intros r' Hin. rewrite Forall_forall in H.
      destruct (H r' Hin) as (w & iso & a & b & -> & Hw).
      cbn [getitem nth_error bind record_weekday].
      now rewrite (int_str_weekday w Hw), (astype_int_weekday w Hw). }
  cbn [bind].
  assert (F : forall k f, (k = 3%nat /\ f = record_student)
                          \/ (k = 2%nat /\ f = record_staff) ->
              Forall (fun r' => nth_error r' k = Some (VInt (f r'))) (r :: hd)).
  { intros k f Hk. apply Forall_forall. intros r' Hin. rewrite Forall_forall in H.
    destruct (H r' Hin) as (w & iso & a & b & -> & _).
    destruct Hk as [[-> ->]|[-> ->]]; reflexivity. }
  pose proof (column_int64 3 record_student (r :: hd) (F _ _ (or_introl (conj eq_refl eq_refl)))) as C3.
  pose proof (column_int64 2 record_staff (r :: hd) (F _ _ (or_intror (conj eq_refl eq_refl)))) as C2.
  destruct (existsb (fun r0 => outside_int64 (record_student r0)) (r :: hd)) eqn:E3.
  - now rewrite C3.
  - rewrite C3. cbn [bind].
    destruct (existsb (fun r0 => outside_int64 (record_staff r0)) (r :: hd)) eqn:E2.
    + now rewrite C2.
    + exfalso. apply Exists_exists in Hex as (r' & Hin & [Hb|Ha]).
      * assert (existsb (fun r0 => outside_int64 (record_student r0)) (r :: hd) = true)
          by (apply existsb_exists; eauto). congruence.
      * assert (existsb (fun r0 => outside_int64 (record_staff r0)) (r :: hd) = true)
          by (apply existsb_exists; eauto). congruence.
Qed.

Lemma create_heatmap_int64_witness :
  Heatmap.create_heatmap
    [ [VStr "6"; VStr "2020-10-11"; VInt 5; VInt 12];
      [VStr "0"; VStr "2020-10-12"; VInt (2 ^ 64); VInt 3] ]
  = Raise OverflowError.
Proof.
  apply create_heatmap_int64.
  - constructor; [exists 6, "2020-10-11", 5, 12; split; [reflexivity | lia]|].
    constructor; [exists 0, "2020-10-12", (2 ^ 64), 3; split; [reflexivity | lia]|].
    constructor.
  - right. left. right. reflexivity.
Defined.

(** ** The files of a run: CSV and JSON *)

Lemma chars_app (a b : string) : chars (a ++ b) = (chars a ++ chars b)%list.
Proof. unfold chars. induction a as [|c a IH]; simpl; [reflexivity | now rewrite IH]. Qed.

Lemma plain_zfill (w : nat) (n : Z) :
  Forall (fun c => plain_char c = true) (chars (zfill w n)).
Proof.
  induction w as [|w IH]; simpl; constructor; [|exact IH].
  unfold plain_char. rewrite is_digit_digit_char; [reflexivity|].
  apply Z.mod_pos_bound. lia.
Qed.

Lemma plain_app (a b : string) :
  Forall (fun c => plain_char c = true) (chars a) ->
  Forall (fun c => plain_char c = true) (chars b) ->
  Forall (fun c => plain_char c = true) (chars (a ++ b)).
Proof. intros Ha Hb. rewrite chars_app. apply Forall_app. now split. Qed.

Lemma plain_isoformat (d : date) :
  Forall (fun c => plain_char c = true) (chars (isoformat d)).
Proof.
  assert (Hdash : Forall (fun c => plain_char c = true) (chars "-"))
    by (constructor; [reflexivity | constructor]).
  unfold isoformat.
  apply plain_app; [apply plain_zfill|].
  apply plain_app; [exact Hdash|].
  apply plain_app; [apply plain_zfill|].
  apply plain_app; [exact Hdash | apply plain_zfill].
Qed.

Lemma plain_string_of_uint (d : uint) :
  Forall (fun c => plain_char c = true) (chars (NilEmpty.string_of_uint d)).
Proof. induction d; simpl; constructor; trivial. Qed.

Lemma plain_str (z : Z) :
  Forall (fun c => plain_char c = true) (chars (PyInt.str z)).
Proof.
  unfold PyInt.str, NilZero.string_of_int, NilZero.string_of_uint.
  destruct (Z.to_int z) as [d|d]; destruct d;
    try (repeat constructor; fail);
    try apply (plain_string_of_uint (D0 _));
    try (simpl; constructor; [reflexivity|]; constructor; [reflexivity|];
         apply plain_string_of_uint).
  all: try (simpl; constructor; [reflexivity | apply plain_string_of_uint]).
Qed.

Lemma plain_no_quoting (s : string) :
  Forall (fun c => plain_char c = true) (chars s) ->
  Csv.needs_quote s = false /\ Json.escape_string s = s.
Proof.
  induction s as [|c s IH]; simpl; [now split|].
  intros H. inversion H as [|? ? Hc Hs]; subst.
  destruct (IH Hs) as [-> ->].
  unfold plain_char in Hc. apply orb_true_iff in Hc as [Hc|Hc].
  - apply is_digit_cases in Hc. simpl in Hc.
    repeat (destruct Hc as [<-|Hc]; [now split|]). contradiction.
  - apply Ascii.eqb_eq in Hc. subst. now split.
Qed.

Lemma transform_row_plain (parse : string -> result date)
      (row : list cell) (r : list value) :
  transform_row parse row = Ok r ->
  r <> []
  /\ Forall (fun v => Forall (fun c => plain_char c = true) (chars (Csv.text v))) r
  /\ exists s r', r = VStr s :: r' /\ s <> EmptyString.
Proof.
  intros H. apply transform_row_Ok_inv in H as (d & ints & _ & Hi & ->).
  split; [discriminate|]. split.
  - constructor; [apply plain_isoformat|].
    apply mapM_Ok_Forall2 in Hi. clear -Hi.
    induction Hi as [|c v cs vs Hc _ IH]; constructor; [|exact IH].
    destruct c as [t|]; simpl in Hc; [|discriminate].
    destruct (PyInt.int t); [|discriminate]. injection Hc as <-.
    apply plain_str.
  - exists (isoformat d), ints. split; [reflexivity|]. discriminate.
Qed.

Lemma csv_fields_plain (r : list value) :
  Forall (fun v => Forall (fun c => plain_char c = true) (chars (Csv.text v))) r ->
  map Csv.field r = map Csv.text r /\ map Json.encode_value r = map json_plain r.
Proof.
  induction 1 as [|v r Hv _ [IH1 IH2]]; simpl; [now split|].
  rewrite IH1, IH2. unfold Csv.field.
  destruct (plain_no_quoting _ Hv) as [Hq He]. rewrite Hq.
  split; [reflexivity|]. f_equal.
  destruct v as [s|z]; simpl in *; [now rewrite He | reflexivity].
Qed.

Lemma writerow_plain (r : list value) :
  Forall (fun v => Forall (fun c => plain_char c = true) (chars (Csv.text v))) r ->
  (exists s r', r = VStr s :: r' /\ s <> EmptyString) ->
  Csv.writerow r = csv_line r.
Proof.
  intros Hp (s & r' & -> & Hs). unfold Csv.writerow, csv_line.
  destruct (csv_fields_plain _ Hp) as [-> _].
  destruct s as [|c s]; [congruence|].
  simpl map. destruct (map Csv.text r'); reflexivity.
Qed.

Lemma transform_rows_plain (parse : string -> result date)
      (rows : list (list cell)) (data : list (list value)) :
  transform parse rows = Ok data ->
  Forall (fun r =>
            Forall (fun v => Forall (fun c => plain_char c = true)
                                    (chars (Csv.text v))) r
            /\ exists s r', r = VStr s :: r' /\ s <> EmptyString) data.
Proof.
  unfold transform. intros H. apply bind_Ok_inv in H as (res & Hres & Hs).
  apply sorted_Permutation in Hs. apply (Forall_Permutation _ _ _ Hs).
  apply mapM_Ok_Forall2 in Hres. apply Forall_forall. intros r Hr.
  destruct (Forall2_In_r _ _ _ _ Hres Hr) as (row & _ & Hrow).
  now apply transform_row_plain in Hrow as (_ & Hp & He).
Qed.

(** X18.  The CSV file of the rows transform returns needs no quoting: it
    is the header line followed by one line per record, each the ISO date
    and the integers between commas and ended by a carriage return and a
    line feed. *)
Theorem csv_output_plain
        (parse : string -> result date)
        (rows : list (list cell)) (data : list (list value)) :
  transform parse rows = Ok data ->
  Csv.output data
  = csv_line [VStr "Date"; VStr "New staff cases"; VStr "New student cases"]
    ++ String.concat EmptyString (map csv_line data).
Proof.
  intros H. apply transform_rows_plain in H.
  unfold Csv.output, Csv.writerows. f_equal. f_equal.
  induction H as [|r data [Hp He] _ IH]; simpl; [reflexivity|].
  now rewrite IH, (writerow_plain r Hp He).
Qed.

Lemma csv_output_plain_witness :
  Csv.output [ [VStr "2020-10-11"; VInt 5; VInt 12] ]
  = csv_line [VStr "Date"; VStr "New staff cases"; VStr "New student cases"]
    ++ String.concat EmptyString
         (map csv_line [ [VStr "2020-10-11"; VInt 5; VInt 12] ]).
Proof.
  apply (csv_output_plain Dateutil.parse_dmy
           [ [Some "11 October 2020"; Some "5"; Some "12"] ]).
  reflexivity.
Defined.

(** X19.  The JSON text of the rows transform returns needs no escape: a
    list of lists whose strings stand as they are between quotes and whose
    integers are in decimal. *)
Theorem json_dumps_plain
        (parse : string -> result date)
        (rows : list (list cell)) (data : list (list value)) :
  transform parse rows = Ok data ->
  Json.dumps data
  = "[" ++ String.concat ", "
             (map (fun r => "[" ++ String.concat ", " (map json_plain r) ++ "]")
                  data)
        ++ "]".
Proof.
  intros H. apply transform_rows_plain in H.
  unfold Json.dumps. do 3 f_equal.
  induction H as [|r data [Hp _] _ IH]; simpl; [reflexivity|].
  rewrite IH. f_equal. unfold Json.encode_row.
  now destruct (csv_fields_plain _ Hp) as [_ ->].
Qed.

Lemma json_dumps_plain_witness :
  Json.dumps [ [VStr "2020-10-11"; VInt 5; VInt 12] ]
  = "[" ++ String.concat ", "
             (map (fun r => "[" ++ String.concat ", " (map json_plain r) ++ "]")
                  [ [VStr "2020-10-11"; VInt 5; VInt 12] ])
        ++ "]".
Proof.
  apply (json_dumps_plain Dateutil.parse_dmy
           [ [Some "11 October 2020"; Some "5"; Some "12"] ]).
  reflexivity.
Defined.

Lemma printable_escape (c : ascii) :
  Forall (fun a => printable a = true) (chars (Json.escape c)).
Proof.
  apply Forall_forall. apply forallb_forall. revert c.
  apply (all_ascii_check
           (fun c => forallb printable (chars (Json.escape c)))).
  vm_compute. reflexivity.
Qed.

Lemma printable_app (a b : string) :
  Forall (fun c => printable c = true) (chars a) ->
  Forall (fun c => printable c = true) (chars b) ->
  Forall (fun c => printable c = true) (chars (a ++ b)).
Proof. intros Ha Hb. rewrite chars_app. apply Forall_app. now split. Qed.

Lemma printable_concat (sep : string) (l : list string) :
  Forall (fun c => printable c = true) (chars sep) ->
  Forall (fun s => Forall (fun c => printable c = true) (chars s)) l ->
  Forall (fun c => printable c = true) (chars (String.concat sep l)).
Proof.
  intros Hsep. induction 1 as [|s l Hs Hl IH]; simpl; [constructor|].
  destruct l as [|s' l]; [assumption|].
  apply printable_app; [assumption|]. now apply printable_app.
Qed.

Lemma printable_plain (s : string) :
  Forall (fun c => plain_char c = true) (chars s) ->
  Forall (fun c => printable c = true) (chars s).
Proof.
  apply Forall_impl. intros c Hc. unfold plain_char in Hc.
  apply orb_true_iff in Hc as [Hc|Hc].
  - apply is_digit_cases in Hc. simpl in Hc.
    repeat (destruct Hc as [<-|Hc]; [reflexivity|]). contradiction.
  - apply Ascii.eqb_eq in Hc. now subst.
Qed.

Lemma printable_escape_string (s : string) :
  Forall (fun c => printable c = true) (chars (Json.escape_string s)).
Proof.
  induction s as [|c s IH]; simpl; [constructor|].
  apply printable_app; [apply printable_escape | exact IH].
Qed.

(** X20.  Whatever the rows hold, the text json.dumps writes is made of
    printable ASCII characters only, from the space to the tilde. *)
Theorem json_dumps_ascii (data : list (list value)) :
  Forall (fun c => printable c = true) (chars (Json.dumps data)).
Proof.
  unfold Json.dumps.
  apply (printable_app "["); [repeat constructor|].
  apply printable_app; [|repeat constructor].
  apply printable_concat; [repeat constructor|].
  apply Forall_forall. intros s Hs. apply in_map_iff in Hs as (r & <- & _).
  unfold Json.encode_row.
  apply (printable_app "["); [repeat constructor|].
  apply printable_app; [|repeat constructor].
  apply printable_concat; [repeat constructor|].
  apply Forall_forall. intros t Ht. apply in_map_iff in Ht as (v & <- & _).
  destruct v as [s|z]; simpl.
  - constructor; [reflexivity|].
    apply printable_app; [apply printable_escape_string | repeat constructor].
  - apply printable_plain, plain_str.
Qed.

(** ** create_visualisations and main: what a run prints and writes *)

Lemma chart_columns_three (data : list (list value)) :
  chart_columns data
  = if three_columns data
    then Ok (map (fun r => nth 0 r (VInt 0)) data,
             map (fun r => nth 1 r (VInt 0)) data,
             map (fun r => nth 2 r (VInt 0)) data)
    else Raise IndexError.
Proof.
  unfold three_columns. induction data as [|r data IH]; [reflexivity|].
  cbn [chart_columns forallb map]. rewrite IH.
  destruct r as [|d [|a [|b r]]]; try reflexivity.
  cbn [getitem nth_error bind List.length Nat.leb andb nth].
  now destruct (forallb _ data).
Qed.

Lemma create_visualisations_outcome
      (env : call -> result unit) (today : date) (data : list (list value)) :
  create_visualisations env today data = ([SaveFig (bar_chart_name today)], Ok tt)
  \/ exists e, create_visualisations env today data = ([], Raise e).
Proof.
  unfold create_visualisations, savefig, lift, emit, io_bind, bar_chart_name.
  destruct (chart_columns data) as [[[dates staff] students]|e]; [|eauto].
  destruct (env (AxesBar dates staff students)) as [[]|e]; [|eauto].
  destruct (env (Savefig _)) as [[]|e]; [|eauto].
  now left.
Qed.

Lemma create_visualisations_three_columns
      (env : call -> result unit) (today : date) (data : list (list value)) :
  (forall c, env c = Ok tt) ->
  create_visualisations env today data
  = if three_columns data
    then ([SaveFig (bar_chart_name today)], Ok tt)
    else ([], Raise IndexError).
Proof.
  intros Henv.
  unfold create_visualisations, savefig, lift, emit, io_bind, bar_chart_name.
  rewrite chart_columns_three. destruct (three_columns data); [|reflexivity].
  now rewrite !Henv.
Qed.

Lemma create_heatmap_outcome
      (env : call -> result unit) (today : date) (heatdata : list (list value)) :
  create_heatmap env today heatdata = ([SaveFig (heatmap_name today)], Ok tt)
  \/ exists e, create_heatmap env today heatdata = ([], Raise e).
Proof.
  unfold create_heatmap, savefig, lift, emit, io_bind, heatmap_name.
  destruct (Heatmap.plotarray heatdata) as [a|e]; [|eauto].
  destruct (env (Imshow a)) as [[]|e]; [|eauto].
  destruct (annotate env a) as [u|e]; [|eauto].
  destruct (env (Savefig _)) as [[]|e]; [|eauto].
  now left.
Qed.

Lemma write_file_outcome (env : call -> result unit) (file content : string) :
  write_file env file content = ([WriteFile file content], Ok tt)
  \/ exists e, write_file env file content = ([], Raise e).
Proof.
  unfold write_file, lift, emit, io_bind.
  destruct (env (OpenWrite file content)) as [[]|e]; eauto.
Qed.

Lemma print_rows_events (data : list (list value)) :
  print_rows data = (map Print data, Ok tt).
Proof.
  induction data as [|row data IH]; [reflexivity|].
  cbn [print_rows]. rewrite IH. reflexivity.
Qed.

Lemma no_write_in_prints (data : list (list value)) (file content : string) :
  ~ In (WriteFile file content) (map Print data).
Proof.
  intros H. apply in_map_iff in H as (r & Hr & _). discriminate.
Qed.

Lemma no_write_before_the_file (data : list (list value)) (l : list event)
      (file content : string) :
  Forall (fun e => exists name, e = SaveFig name) l ->
  ~ In (WriteFile file content) (map Print data ++ l).
Proof.
  intros Hl H. apply in_app_or in H as [H|H].
  - now apply no_write_in_prints in H.
  - rewrite Forall_forall in Hl. destruct (Hl _ H) as (name & E). discriminate.
Qed.


Lemma shaped_two_ints (ints : list value) :
  shaped 0 ints = true -> List.length ints = 2%nat ->
  exists a b, ints = [VInt a; VInt b].
Proof.
  destruct ints as [|[s|a] [|[t|b] [|v ints]]]; simpl; try discriminate.
  intros _ _. now exists a, b.
Qed.

Lemma heat_rows_of_three (parse : string -> result date)
      (rows : list (list cell)) (hres : list (list value)) :
  Forall (fun row => List.length row = 3%nat) rows ->
  mapM (heat_transform_row parse) rows = Ok hres ->
  Forall heat_record hres
  /\ has_sunday hres = existsb (sunday_row parse) rows.
Proof.
  intros Hlen H. apply mapM_Ok_Forall2 in H. unfold has_sunday.
  induction H as [|row r rows hres Hrow _ IH]; [now split|].
  inversion Hlen as [|? ? Hl Hlen']; subst.
  destruct (IH Hlen') as [IH1 IH2].
  apply heat_transform_row_Ok_inv in Hrow as (d & ints & Hd & Hi & ->).
  pose proof (weekday_range d) as Hw.
  assert (Hints : exists a b, ints = [VInt a; VInt b]).
  { apply shaped_two_ints; [now apply (mapM_int_cell_shaped _ _ Hi)|].
    rewrite (mapM_length _ _ _ Hi).
    destruct row as [|c0 [|c1 [|c2 [|c3 row]]]]; try discriminate. reflexivity. }
  destruct Hints as (a & b & ->). split.
  - constructor; [|assumption]. now exists (weekday d), (isoformat d), a, b.
  - cbn [existsb]. rewrite IH2. f_equal.
    unfold sunday_row. rewrite Hd. simpl. now rewrite (int_str_weekday _ Hw).
Qed.

Lemma transform_rows_of_three (parse : string -> result date)
      (rows : list (list cell)) (data : list (list value)) :
  Forall (fun row => List.length row = 3%nat) rows ->
  transform parse rows = Ok data ->
  three_columns data = true.
Proof.
  unfold transform. intros Hlen H.
  apply bind_Ok_inv in H as (res & Hres & Hs). apply sorted_Permutation in Hs.
  unfold three_columns. apply forallb_forall. intros r Hr.
  apply (Permutation_in r (Permutation_sym Hs)) in Hr.
  apply mapM_Ok_Forall2 in Hres.
  destruct (Forall2_In_r _ _ _ _ Hres Hr) as (row & Hrow & Ht).
  rewrite Forall_forall in Hlen. specialize (Hlen row Hrow).
  apply transform_row_Ok_inv in Ht as (d & ints & _ & Hi & ->).
  apply mapM_length in Hi. simpl. rewrite Hi.
  destruct row as [|c0 [|c1 [|c2 [|c3 row]]]]; try discriminate. reflexivity.
Qed.

Lemma heat_transform_records (parse : string -> result date)
      (rows : list (list cell)) (heatdata : list (list value)) :
  Forall (fun row => List.length row = 3%nat) rows ->
  heat_transform parse rows = Ok heatdata ->
  Forall heat_record heatdata
  /\ has_sunday heatdata = existsb (sunday_row parse) rows.
Proof.
  unfold heat_transform. intros Hlen H.
  apply bind_Ok_inv in H as (hres & Hh & Hs). apply sorted_Permutation in Hs.
  destruct (heat_rows_of_three parse rows hres Hlen Hh) as [Hrec Hsun]. split.
  - now apply (Forall_Permutation _ hres).
  - rewrite <- Hsun. unfold has_sunday. symmetry. now apply existsb_Permutation.
Qed.

Lemma mapM_raises {A B : Type} (f : A -> result B) (xs : list A) (x : A) (e : exn) :
  In x xs -> f x = Raise e -> exists e', mapM f xs = Raise e'.
Proof.
  induction xs as [|y xs IH]; simpl; [contradiction|]. intros Hin Hx.
  destruct (f y) as [b|e'] eqn:Hy; simpl; [|eauto].
  destruct Hin as [->|Hin]; [congruence|].
  destruct (IH Hin Hx) as (e' & ->). simpl. eauto.
Qed.

Lemma mapM_ext {A B : Type} (f g : A -> result B) (xs : list A) :
  (forall x, f x = g x) -> mapM f xs = mapM g xs.
Proof. intros H. induction xs as [|x xs IH]; simpl; [reflexivity | now rewrite H, IH]. Qed.

Lemma mapM_bind_map {A B C : Type} (f : A -> result B) (g : B -> C)
      (xs : list A) :
  mapM (fun x => y <- f x ;; Ok (g y)) xs
  = (ys <- mapM f xs ;; Ok (map g ys)).
Proof.
  induction xs as [|x xs IH]; simpl; [reflexivity|]. rewrite IH.
  destruct (f x) as [y|e]; simpl; [|reflexivity].
  now destruct (mapM f xs).
Qed.

(** The annotation loop cannot end well on a grid of fewer than seven
    columns, whatever matplotlib does. *)
Lemma annotate_narrow (env : call -> result unit) (s t : list Z) :
  (List.length s < 7)%nat -> exists e, annotate env [s; t] = Raise e.
Proof.
  intros Hlen. unfold annotate.
  change (List.length Heatmap.casevals) with 2%nat.
  change (List.length Heatmap.days) with 7%nat.
  destruct (mapM_raises
              (fun j => v <- Heatmap.getitem2 [s; t] 0 j ;; env (AxText j 0 v))
              (seq 0 7) (List.length s) IndexError) as (e & He).
  - apply in_seq. lia.
  - unfold Heatmap.getitem2. cbn [getitem nth_error bind]. unfold getitem.
    replace (nth_error s (List.length s)) with (@None Z); [reflexivity|].
    symmetry. apply nth_error_None. lia.
  - apply mapM_raises with (x := 0%nat) (e := e); [now left | exact He].
Qed.

(** When matplotlib does not fail, the loop ends as the reading of the
    grid does. *)
Lemma annotate_reads (env : call -> result unit) (a : list (list Z)) :
  (forall c, env c = Ok tt) ->
  annotate env a
  = (g <- mapM (fun i => mapM (fun j => Heatmap.getitem2 a i j)
                              (seq 0 (List.length Heatmap.days)))
               (seq 0 (List.length Heatmap.casevals)) ;;
     Ok (map (map (fun _ => tt)) g)).
Proof.
  intros Henv. unfold annotate.
  rewrite <- (mapM_bind_map
                (fun i => mapM (fun j => Heatmap.getitem2 a i j)
                               (seq 0 (List.length Heatmap.days)))
                (map (fun _ : Z => tt))).
  apply mapM_ext. intros i.
  rewrite <- (mapM_bind_map (fun j => Heatmap.getitem2 a i j) (fun _ : Z => tt)).
  apply mapM_ext. intros j.
  destruct (Heatmap.getitem2 a i j) as [v|e]; simpl; [|reflexivity].
  apply Henv.
Qed.

Lemma create_heatmap_with_matplotlib
      (env : call -> result unit) (today : date) (heatdata : list (list value)) :
  (forall c, env c = Ok tt) ->
  create_heatmap env today heatdata
  = match Heatmap.create_heatmap heatdata with
    | Ok _ => ([SaveFig (heatmap_name today)], Ok tt)
    | Raise e => ([], Raise e)
    end.
Proof.
  intros Henv.
  unfold create_heatmap, Heatmap.create_heatmap, savefig, lift, emit, io_bind,
    heatmap_name.
  destruct (Heatmap.plotarray heatdata) as [a|e]; cbn [bind]; [|reflexivity].
  rewrite (Henv (Imshow a)), (annotate_reads env a Henv).
  destruct (mapM _ (seq 0 (List.length Heatmap.casevals))) as [g|e]; cbn [bind];
    [|reflexivity].
  now rewrite Henv.
Qed.

Lemma create_heatmap_without_sunday
      (env : call -> result unit) (today : date) (heatdata : list (list value)) :
  Forall heat_record heatdata -> exact_counts heatdata ->
  has_sunday heatdata = false ->
  exists e, create_heatmap env today heatdata = ([], Raise e).
Proof.
  intros H Hx Hs.
  unfold create_heatmap, savefig, lift, emit, io_bind.
  destruct heatdata as [|r hd]; [now exists IndexError|].
  rewrite (plotarray_records r hd H Hx). cbv beta iota zeta.
  match goal with
  | |- context [env (Imshow ?g)] => destruct (env (Imshow g)) as [[]|e]
  end; [|eauto].
  destruct (weekday_max (r :: hd) H) as (_ & Hrange & Hlow).
  specialize (Hlow Hs).
  match goal with
  | |- context [annotate env [?s; ?t]] =>
      destruct (annotate_narrow env s t) as (e & ->)
  end.
  - rewrite length_map, length_seq. lia.
  - eauto.
Qed.


